(** * Telbooru: search sessions, query composition and the booru client

    A shallow embedding of the core of the Telbooru bot (src/main.py and
    the repository/service rewrite under src/repositories and
    src/services), with the properties its specification states.

    Conventions of the embedding:
    - Python [int] is [Z]; [str] is [string], one [ascii] per code point
      (code points 0..255); [list] is [list]; a [dict] is an
      insertion-ordered association list ([pydict]); per-user stores keyed
      by user id are [gmap Z _].
    - Functions that raise return a [result]; functions that also touch
      the network or a store run in the state-and-error monad [St]. *)

From Stdlib Require Import ZArith Ascii.
From stdpp Require Import gmap strings list.

Local Open Scope Z_scope.
Set Warnings "-register-all".

(** ** Python values and primitives *)

Module Py.

(** What [response.json()] can return. *)
Inductive json : Type :=
| JNull
| JBool (b : bool)
| JNum (n : Z)
| JStr (s : string)
| JList (l : list json)
| JDict (d : list (string * json)).

(** A [dict] with [str] keys, in insertion order. *)
Definition pydict (V : Type) : Type := list (string * V).

(** [d.get(k)] *)
Fixpoint dict_get {V} (k : string) (d : pydict V) : option V :=
  match d with
  | [] => None
  | (k', v) :: d' => if decide (k = k') then Some v else dict_get k d'
  end.

(** [k in d] *)
Definition dict_mem {V} (k : string) (d : pydict V) : bool :=
  match dict_get k d with Some _ => true | None => false end.

(** [d[k] = v]: an existing key keeps its position, a new key goes last. *)
Fixpoint dict_set {V} (k : string) (v : V) (d : pydict V) : pydict V :=
  match d with
  | [] => [(k, v)]
  | (k', v') :: d' =>
      if decide (k = k') then (k, v) :: d' else (k', v') :: dict_set k v d'
  end.

(** [d.update(other)] *)
Definition dict_update {V} (d other : pydict V) : pydict V :=
  fold_left (fun acc kv => dict_set kv.1 kv.2 acc) other d.

(** Truth value of a string, of an optional string and of a JSON value
    ([if x:] / [not x]). *)
Definition str_truthy (s : string) : bool :=
  match s with "" => false | _ => true end.

Definition opt_str_truthy (o : option string) : bool :=
  match o with Some s => str_truthy s | None => false end.

Definition truthy (v : json) : bool :=
  match v with
  | JNull => false
  | JBool b => b
  | JNum n => negb (n =? 0)
  | JStr s => str_truthy s
  | JList l => match l with [] => false | _ => true end
  | JDict d => match d with [] => false | _ => true end
  end.

(** [str.isspace] on one code point below 256. *)
Definition is_space (c : ascii) : bool :=
  let n := nat_of_ascii c in
  ((9 <=? n) && (n <=? 13) || (28 <=? n) && (n <=? 32)
   || (n =? 133) || (n =? 160))%nat.

(** [s.lstrip()], [s.rstrip()], [s.strip()] *)
Fixpoint lstrip (s : string) : string :=
  match s with
  | "" => ""
  | String c s' => if is_space c then lstrip s' else s
  end.

Fixpoint rstrip (s : string) : string :=
  match s with
  | "" => ""
  | String c s' =>
      match rstrip s' with
      | "" => if is_space c then "" else String c ""
      | r => String c r
      end
  end.

Definition strip (s : string) : string := rstrip (lstrip s).

(** [c in s] for a one-character string [c]. *)
Fixpoint str_contains (c : ascii) (s : string) : bool :=
  match s with
  | "" => false
  | String c' s' => if decide (c = c') then true else str_contains c s'
  end.

(** [l.remove(x)]: the first occurrence goes (the callers check
    [x in l] first). *)
Fixpoint list_remove (x : string) (l : list string) : list string :=
  match l with
  | [] => []
  | y :: l' => if decide (x = y) then l' else y :: list_remove x l'
  end.

(** [sep.join(l)] *)
Definition join (sep : string) (l : list string) : string :=
  String.concat sep l.

(** [l[start:stop]] with Python's treatment of negative and
    out-of-range bounds. *)
Definition slice_bound (len i : Z) : Z :=
  if i <? 0 then Z.max 0 (len + i) else Z.min len i.

Definition slice {A} (l : list A) (start stop : Z) : list A :=
  let len := Z.of_nat (length l) in
  let lo := slice_bound len start in
  let hi := slice_bound len stop in
  take (Z.to_nat (hi - lo)) (drop (Z.to_nat lo) l).

(** [c.lower()] on one code point below 256: A-Z and the accented
    capitals 192-222 (but the multiplication sign 215) move up by 32. *)
Definition lower_char (c : ascii) : ascii :=
  let n := nat_of_ascii c in
  if ((65 <=? n) && (n <=? 90)
      || (192 <=? n) && (n <=? 222) && negb (n =? 215))%nat
  then ascii_of_nat (n + 32) else c.

(** [s.lower()] *)
Fixpoint lower (s : string) : string :=
  match s with
  | "" => ""
  | String c s' => String (lower_char c) (lower s')
  end.

(** [s.split(sep)] for a one-character [sep]. *)
Fixpoint split (sep : ascii) (s : string) : list string :=
  match s with
  | "" => [""]
  | String c s' =>
      if decide (c = sep) then "" :: split sep s'
      else
        match split sep s' with
        | piece :: pieces => String c piece :: pieces
        | [] => [String c ""]
        end
  end.

(** [s.replace(old, new)] for a one-character [old]. *)
Fixpoint replace_char (old : ascii) (new : string) (s : string) : string :=
  match s with
  | "" => ""
  | String c s' =>
      if decide (c = old) then new +:+ replace_char old new s'
      else String c (replace_char old new s')
  end.

(** [sub in s] between strings. *)
Fixpoint str_in (sub s : string) : bool :=
  match s with
  | "" => String.prefix sub ""
  | String _ s' => String.prefix sub s || str_in sub s'
  end.

(** [v == s] for a string [s]: only a string equals a string. *)
Definition is_str (s : string) (v : json) : bool :=
  match v with
  | JStr s' => bool_decide (s' = s)
  | _ => false
  end.

(** [d.get(k, default)] *)
Definition dict_get_or {V} (k : string) (default : V) (d : pydict V) : V :=
  match dict_get k d with Some v => v | None => default end.

End Py.
Export Py.

(** ** Exceptions and the state-and-error monad *)

(** What [session.get], [raise_for_status] and [response.json] raise. *)
Inductive aiohttp_error : Type :=
| ClientConnectionError
| ClientResponseError (status : Z)
| AsyncTimeoutError
| UnexpectedError.

Inductive exn : Type :=
| Aiohttp (e : aiohttp_error)
| RuntimeError
| TypeError
| IndexError
| RepositoryException
| RepositoryConnectionException
| RepositoryDataException.

(** [isinstance(e, RepositoryException)]: the two other repository
    exceptions are its subclasses. *)
Definition is_RepositoryException (e : exn) : bool :=
  match e with
  | RepositoryException | RepositoryConnectionException
  | RepositoryDataException => true
  | _ => false
  end.

Inductive result (A : Type) : Type :=
| Ok (a : A)
| Raise (e : exn).
Arguments Ok {A} a.
Arguments Raise {A} e.

Definition St (S A : Type) : Type := S -> result A * S.

Definition ret {S A} (a : A) : St S A := fun s => (Ok a, s).

Definition raise {S A} (e : exn) : St S A := fun s => (Raise e, s).

Definition bind {S A B} (m : St S A) (k : A -> St S B) : St S B :=
  fun s =>
    match m s with
    | (Ok a, s') => k a s'
    | (Raise e, s') => (Raise e, s')
    end.

(** [try: m  except Exception as e: h e] *)
Definition try_except {S A} (m : St S A) (h : exn -> St S A) : St S A :=
  fun s =>
    match m s with
    | (Ok a, s') => (Ok a, s')
    | (Raise e, s') => h e s'
    end.

Definition lift {S A} (r : result A) : St S A := fun s => (r, s).

Declare Scope st_scope.
Delimit Scope st_scope with st.
Notation "x <- m ;; k" := (bind m (fun x => k))
  (at level 100, m at next level, right associativity) : st_scope.
Notation "m ;;; k" := (bind m (fun _ => k))
  (at level 100, right associativity) : st_scope.
Local Open Scope st_scope.

(** [len(v)]: only sized values have a length. *)
Definition py_len (v : json) : result Z :=
  match v with
  | JStr s => Ok (Z.of_nat (String.length s))
  | JList l => Ok (Z.of_nat (length l))
  | JDict d => Ok (Z.of_nat (length d))
  | JNull | JBool _ | JNum _ => Raise TypeError
  end.

(** [l[i]] on a list: negative indices count from the end. *)
Definition getitem {A} (l : list A) (i : Z) : result A :=
  let len := Z.of_nat (length l) in
  let j := if i <? 0 then len + i else i in
  if (0 <=? j) && (j <? len) then
    match l !! Z.to_nat j with Some x => Ok x | None => Raise IndexError end
  else Raise IndexError.

(** ** The upstream HTTP API *)

(** A query-string value: [quote_plus(str(value))] is applied to ints
    and strings alike. *)
Inductive pval : Type :=
| PInt (n : Z)
| PStr (s : string).

Record request : Type := Request {
  endpoint : string;
  params : pydict pval
}.

Inductive outcome : Type :=
| Response (body : json)
| Fails (e : aiohttp_error).

(** The upstream answers a request knowing the requests sent before it. *)
Record Net : Type := {
  upstream : list request -> request -> outcome;
  sent : list request
}.

Definition IO (A : Type) : Type := St Net A.

(** [async with self.session.get(url) as response:
       response.raise_for_status(); return await response.json()] *)
Definition session_get (req : request) : IO json :=
  fun net =>
    let net' := {| upstream := upstream net; sent := sent net ++ [req] |} in
    match upstream net (sent net) req with
    | Response body => (Ok body, net')
    | Fails e => (Raise (Aiohttp e), net')
    end.

(** ** Response shapes

    [get_posts] and [get_tags] handle the shape of the decoded response
    with the same statements in src/main.py and in
    src/repositories/booru_repository.py. *)

(** The [{'post': []}] literal. *)
Definition no_posts : pydict json := [("post", JList [])].

(** "Handle different response formats" in [get_posts]: whatever the
    response, a mapping comes out. *)
Definition normalize_posts (result : json) : pydict json :=
  match result with
  | JNull => no_posts
  | JList _ => [("post", result)]
  | JDict d =>
      if negb (dict_mem "post" d) then
        match dict_get "posts" d with
        | Some ps => dict_set "post" ps d
        | None => d
        end
      else d
  | _ => no_posts
  end.

(** The [{'tag': []}] literal and "Handle different response formats"
    in [get_tags]. *)
Definition no_tags : pydict json := [("tag", JList [])].

Definition normalize_tags (result : json) : pydict json :=
  match result with
  | JNull => no_tags
  | JList _ => [("tag", result)]
  | JDict d =>
      if negb (dict_mem "tag" d) then
        match dict_get "tags" d with
        | Some ts => dict_set "tag" ts d
        | None => d
        end
      else d
  | _ => no_tags
  end.

(** ** src/main.py: [BooruAPIWrapper] *)

Module BooruAPIWrapper.

Record t : Type := {
  base_url : string;
  api_key : option string;
  user_id : option string;
  session : bool  (* [self.session] is set by [__aenter__] *)
}.

Definition _build_auth_params (self : t) : pydict pval :=
  match api_key self, user_id self with
  | Some k, Some u =>
      if str_truthy k && str_truthy u
      then [("api_key", PStr k); ("user_id", PStr u)]
      else []
  | _, _ => []
  end.

Definition _make_request (self : t) (endpoint : string)
    (params : pydict pval) : IO json :=
  if negb (session self) then raise RuntimeError
  else
    let params := dict_update params (_build_auth_params self) in
    let params :=
      if dict_mem "json" params then params
      else dict_set "json" (PStr "1") params in
    session_get (Request endpoint params).

Definition get_posts (self : t) (limit pid : Z) (tags : string)
    (cid post_id : option Z) : IO json :=
  let params : pydict pval :=
    [("page", PStr "dapi"); ("s", PStr "post"); ("q", PStr "index");
     ("limit", PInt (Z.min limit 100)); ("pid", PInt pid);
     ("json", PStr "1")] in
  let params :=
    if str_truthy tags then dict_set "tags" (PStr tags) params else params in
  let params :=
    match cid with
    | Some c => dict_set "cid" (PInt c) params
    | None => params
    end in
  let params :=
    match post_id with
    | Some i => dict_set "id" (PInt i) params
    | None => params
    end in
  try_except
    (result <- _make_request self "/index.php" params ;;
     ret (JDict (normalize_posts result)))
    (fun _ =>
       let alt_params : pydict pval :=
         [("page", PStr "post"); ("s", PStr "list");
          ("limit", PInt (Z.min limit 100)); ("pid", PInt pid);
          ("json", PStr "1")] in
       let alt_params :=
         if str_truthy tags then dict_set "tags" (PStr tags) alt_params
         else alt_params in
       let alt_params :=
         match post_id with
         | Some i => dict_set "id" (PInt i) alt_params
         | None => alt_params
         end in
       try_except
         (alt_result <- _make_request self "/index.php" alt_params ;;
          ret (if truthy alt_result then alt_result else JDict no_posts))
         (fun _ => ret (JDict no_posts))).

Definition get_tags (self : t) (limit : Z) (after_id : option Z)
    (name names tags : option string) (order orderby : string)
    : IO (pydict json) :=
  let params : pydict pval :=
    [("page", PStr "dapi"); ("s", PStr "tag"); ("q", PStr "index");
     ("limit", PInt limit); ("order", PStr order);
     ("orderby", PStr orderby); ("json", PStr "1")] in
  let params :=
    match after_id with
    | Some a => dict_set "after_id" (PInt a) params
    | None => params
    end in
  let params :=
    match name with
    | Some n =>
        if str_truthy n then dict_set "name" (PStr n) params else params
    | None => params
    end in
  let params :=
    match names with
    | Some n =>
        if str_truthy n then dict_set "names" (PStr n) params else params
    | None => params
    end in
  let params :=
    match tags with
    | Some p =>
        if str_truthy p then dict_set "tags" (PStr p) params else params
    | None => params
    end in
  try_except
    (result <- _make_request self "/index.php" params ;;
     ret (normalize_tags result))
    (fun _ => ret no_tags).

(** [get_comments] and [get_deleted_images] hand on what [_make_request]
    returns or raises. [last_id] goes on the wire as [str(last_id)], the
    text [quote_plus(str(...))] gives for the integer itself. *)
Definition get_comments (self : t) (post_id : Z) : IO json :=
  let params : pydict pval :=
    [("page", PStr "dapi"); ("s", PStr "comment"); ("q", PStr "index");
     ("post_id", PInt post_id)] in
  _make_request self "/index.php" params.

Definition get_deleted_images (self : t) (last_id : option Z) : IO json :=
  let params : pydict pval :=
    [("page", PStr "dapi"); ("s", PStr "post"); ("q", PStr "index");
     ("deleted", PStr "show")] in
  let params :=
    match last_id with
    | Some i => dict_set "last_id" (PInt i) params
    | None => params
    end in
  _make_request self "/index.php" params.

End BooruAPIWrapper.

(** ** src/repositories/interfaces.py: search criteria *)

Module PostSearchCriteria.
Record t : Type := Build {
  tags : string;
  limit : Z;
  page : Z;
  post_id : option Z;
  change_id : option Z
}.
End PostSearchCriteria.

Module TagSearchCriteria.
Record t : Type := Build {
  limit : Z;
  after_id : option Z;
  name : option string;
  names : option string;
  pattern : option string;
  order : string;
  orderby : string
}.
End TagSearchCriteria.

(** ** src/repositories/booru_repository.py: [BooruRepository] *)

Module BooruRepository.

Record t : Type := {
  base_url : string;
  api_key : option string;
  user_id : option string;
  session : bool
}.

Definition _build_auth_params (self : t) : pydict pval :=
  match api_key self, user_id self with
  | Some k, Some u =>
      if str_truthy k && str_truthy u
      then [("api_key", PStr k); ("user_id", PStr u)]
      else []
  | _, _ => []
  end.

(** The [except] clauses of [_make_request], in their order. *)
Definition translate (e : exn) : exn :=
  match e with
  | Aiohttp ClientConnectionError => RepositoryConnectionException
  | Aiohttp (ClientResponseError _) => RepositoryDataException
  | _ => RepositoryException
  end.

Definition _make_request (self : t) (endpoint : string)
    (params : pydict pval) : IO json :=
  if negb (session self) then raise RepositoryException
  else
    try_except
      (let params := dict_update params (_build_auth_params self) in
       let params :=
         if dict_mem "json" params then params
         else dict_set "json" (PStr "1") params in
       session_get (Request endpoint params))
      (fun e => raise (translate e)).

(** [except RepositoryException: raise] followed by
    [except Exception as e: raise RepositoryDataException(...)]. *)
Definition reraise {A} (e : exn) : IO A :=
  if is_RepositoryException e then raise e else raise RepositoryDataException.

Definition get_posts (self : t) (criteria : PostSearchCriteria.t)
    : IO (pydict json) :=
  let params : pydict pval :=
    [("page", PStr "dapi"); ("s", PStr "post"); ("q", PStr "index");
     ("limit", PInt (Z.min (PostSearchCriteria.limit criteria) 100));
     ("pid", PInt (PostSearchCriteria.page criteria)); ("json", PStr "1")] in
  let params :=
    if str_truthy (PostSearchCriteria.tags criteria)
    then dict_set "tags" (PStr (PostSearchCriteria.tags criteria)) params else params in
  let params :=
    match PostSearchCriteria.change_id criteria with
    | Some c => dict_set "cid" (PInt c) params
    | None => params
    end in
  let params :=
    match PostSearchCriteria.post_id criteria with
    | Some i => dict_set "id" (PInt i) params
    | None => params
    end in
  try_except
    (result <- _make_request self "/index.php" params ;;
     ret (normalize_posts result))
    reraise.

Definition get_tags (self : t) (criteria : TagSearchCriteria.t)
    : IO (pydict json) :=
  let params : pydict pval :=
    [("page", PStr "dapi"); ("s", PStr "tag"); ("q", PStr "index");
     ("limit", PInt (TagSearchCriteria.limit criteria));
     ("order", PStr (TagSearchCriteria.order criteria));
     ("orderby", PStr (TagSearchCriteria.orderby criteria)); ("json", PStr "1")] in
  let params :=
    match TagSearchCriteria.after_id criteria with
    | Some a => dict_set "after_id" (PInt a) params
    | None => params
    end in
  let params :=
    match TagSearchCriteria.name criteria with
    | Some n =>
        if str_truthy n then dict_set "name" (PStr n) params else params
    | None => params
    end in
  let params :=
    match TagSearchCriteria.names criteria with
    | Some n =>
        if str_truthy n then dict_set "names" (PStr n) params else params
    | None => params
    end in
  let params :=
    match TagSearchCriteria.pattern criteria with
    | Some p =>
        if str_truthy p then dict_set "tags" (PStr p) params else params
    | None => params
    end in
  try_except
    (result <- _make_request self "/index.php" params ;;
     ret (normalize_tags result))
    reraise.

(** [posts[0] if isinstance(posts, list) else posts] for a truthy
    [posts]. *)
Definition first_post (posts : json) : json :=
  match posts with
  | JList (post :: _) => post
  | _ => posts
  end.

Definition get_post_by_id (self : t) (post_id : Z) : IO (option json) :=
  let criteria :=
    {| PostSearchCriteria.tags := "";
       PostSearchCriteria.limit := 1;
       PostSearchCriteria.page := 0;
       PostSearchCriteria.post_id := Some post_id;
       PostSearchCriteria.change_id := None |} in
  result <- get_posts self criteria ;;
  let posts := dict_get_or "post" (JList []) result in
  if truthy posts then ret (Some (first_post posts)) else ret None.

Definition get_comments (self : t) (post_id : Z) : IO json :=
  let params : pydict pval :=
    [("page", PStr "dapi"); ("s", PStr "comment"); ("q", PStr "index");
     ("post_id", PInt post_id); ("json", PStr "1")] in
  try_except (_make_request self "/index.php" params) reraise.

Definition get_deleted_images (self : t) (last_id : option Z) : IO json :=
  let params : pydict pval :=
    [("page", PStr "dapi"); ("s", PStr "post"); ("q", PStr "index");
     ("deleted", PStr "show"); ("json", PStr "1")] in
  let params :=
    match last_id with
    | Some i => dict_set "last_id" (PInt i) params
    | None => params
    end in
  try_except (_make_request self "/index.php" params) reraise.

End BooruRepository.

(** ** src/repositories/user_repository.py: [UserSettings], [UserRepository] *)

Record UserSettings : Type := {
  auto_tags : list string;
  toggle_rules : pydict bool
}.

(** [UserSettings()] *)
Definition default_settings : UserSettings :=
  {| auto_tags := []; toggle_rules := [] |}.

Module UserRepository.

(** What sits at [user_<id>.pkl]: a pickled [UserSettings], or bytes
    that [pickle.load] rejects. *)
Inductive user_file : Type :=
| Pickled (settings : UserSettings)
| Unreadable.

(** The data directory; [writable] tells whether [open(path, 'wb')]
    succeeds. *)
Record t : Type := {
  files : gmap Z user_file;
  writable : bool
}.

Definition get_user_settings (user_id : Z) : St t UserSettings :=
  fun self =>
    match files self !! user_id with
    | Some (Pickled settings) => (Ok settings, self)
    | Some Unreadable | None => (Ok default_settings, self)
    end.

Definition save_user_settings (user_id : Z) (settings : UserSettings)
    : St t unit :=
  fun self =>
    if writable self then
      (Ok tt, {| files := <[user_id := Pickled settings]> (files self);
                 writable := writable self |})
    else (Raise RepositoryDataException, self).

(** [os.remove] fails where writing fails. *)
Definition delete_user_settings (user_id : Z) : St t bool :=
  fun self =>
    match files self !! user_id with
    | None => (Ok false, self)
    | Some _ =>
        if writable self then
          (Ok true, {| files := delete user_id (files self);
                       writable := writable self |})
        else (Raise RepositoryDataException, self)
    end.

Definition user_exists (user_id : Z) : St t bool :=
  fun self =>
    (Ok (match files self !! user_id with Some _ => true | None => false end),
     self).

(** [bulk_update_settings]: [updates] in the order the mapping is
    walked; a failed save is logged and skipped. *)
Fixpoint bulk_update_settings (updates : list (Z * UserSettings))
    : St t Z :=
  match updates with
  | [] => ret 0
  | (user_id, settings) :: rest =>
      fun self =>
        match save_user_settings user_id settings self with
        | (Ok _, self') =>
            match bulk_update_settings rest self' with
            | (Ok n, self'') => (Ok (1 + n), self'')
            | (Raise e, self'') => (Raise e, self'')
            end
        | (Raise _, self') => bulk_update_settings rest self'
        end
  end.

End UserRepository.

(** ** src/services/booru_service.py: [BooruService] *)

Module BooruService.

(** The service holds its repository. *)
Definition t : Type := BooruRepository.t.

Definition _apply_user_preferences (tags : string)
    (user_settings : UserSettings) : string :=
  let tags :=
    match auto_tags user_settings with
    | [] => tags
    | _ =>
        let auto_tags_str := join " " (auto_tags user_settings) in
        if str_truthy tags then tags +:+ " " +:+ auto_tags_str
        else auto_tags_str
    end in
  let enabled_toggles :=
    map fst (filter (fun kv => snd kv = true) (toggle_rules user_settings)) in
  let tags :=
    match enabled_toggles with
    | [] => tags
    | _ =>
        let toggle_str := join " " enabled_toggles in
        if str_truthy tags then tags +:+ " " +:+ toggle_str else toggle_str
    end in
  strip tags.

(** [posts = result.get(key, []); if isinstance(posts, dict): posts = [posts]]
    on the dictionary the repository returned. *)
Definition get_listed (key : string) (result : pydict json) : json :=
  let items :=
    match dict_get key result with Some v => v | None => JList [] end in
  match items with
  | JDict _ => JList [items]
  | _ => items
  end.

Definition search_posts (self : t) (tags : string) (limit page : Z)
    : IO json :=
  let criteria :=
    {| PostSearchCriteria.tags := tags;
       PostSearchCriteria.limit := limit;
       PostSearchCriteria.page := page;
       PostSearchCriteria.post_id := None;
       PostSearchCriteria.change_id := None |} in
  result <- BooruRepository.get_posts self criteria ;;
  let posts := get_listed "post" result in
  _ <- lift (py_len posts) ;;
  ret posts.

Definition search_posts_with_preferences (self : t) (tags : string)
    (user_settings : UserSettings) (limit page : Z) : IO json :=
  let modified_tags := _apply_user_preferences tags user_settings in
  search_posts self modified_tags limit page.

Definition search_tags (self : t) (pattern name : option string)
    (limit : Z) : IO json :=
  let criteria :=
    {| TagSearchCriteria.limit := limit;
       TagSearchCriteria.after_id := None;
       TagSearchCriteria.name := name;
       TagSearchCriteria.names := None;
       TagSearchCriteria.pattern := pattern;
       TagSearchCriteria.order := "ASC";
       TagSearchCriteria.orderby := "name" |} in
  result <- BooruRepository.get_tags self criteria ;;
  let tags := get_listed "tag" result in
  _ <- lift (py_len tags) ;;
  ret tags.


Definition get_post_by_id (self : t) (post_id : Z) : IO (option json) :=
  BooruRepository.get_post_by_id self post_id.

(** [get_media_type] on the value found under ['file_url']: [None] stands
    for the [TypeError] or [AttributeError] a value that is neither falsy
    nor a string runs into. *)
Definition get_media_type (file_url : json) : option string :=
  if negb (truthy file_url) then Some "image"
  else
    match file_url with
    | JStr url =>
        let extension :=
          if str_contains "." url
          then default "" (last (split "." (lower url)))
          else "" in
        if decide (extension = "mp4") then Some "video"
        else if decide (extension = "gif") then Some "gif"
        else Some "image"
    | JList l => if existsb (is_str ".") l then None else Some "image"
    | JDict d => if dict_mem "." d then None else Some "image"
    | _ => None
    end.

Definition get_display_url (post : pydict json) (use_sample : bool)
    : option json :=
  let file_url := dict_get_or "file_url" (JStr "") post in
  match get_media_type file_url with
  | None => None
  | Some media_type =>
      if bool_decide (media_type ∈ ["video"; "gif"]) then Some file_url
      else if use_sample then Some (dict_get_or "sample_url" file_url post)
      else Some file_url
  end.

Definition get_preview_url (post : pydict json) : json :=
  dict_get_or "preview_url" (dict_get_or "file_url" (JStr "") post) post.

End BooruService.

(** ** src/services/user_service.py: [UserService] *)

Module UserService.

Definition get_settings (user_id : Z) : St UserRepository.t UserSettings :=
  UserRepository.get_user_settings user_id.

Definition save_settings (user_id : Z) (settings : UserSettings)
    : St UserRepository.t unit :=
  UserRepository.save_user_settings user_id settings.

Definition add_auto_tag (user_id : Z) (tag : string)
    : St UserRepository.t bool :=
  settings <- get_settings user_id ;;
  if bool_decide (tag ∈ auto_tags settings) then ret false
  else
    let settings :=
      {| auto_tags := auto_tags settings ++ [tag];
         toggle_rules := toggle_rules settings |} in
    (save_settings user_id settings ;;;
     ret true).

Definition toggle_rule (user_id : Z) (rule : string)
    : St UserRepository.t bool :=
  settings <- get_settings user_id ;;
  let current_state :=
    match dict_get rule (toggle_rules settings) with
    | Some b => b
    | None => false
    end in
  let new_state := negb current_state in
  let settings :=
    {| auto_tags := auto_tags settings;
       toggle_rules := dict_set rule new_state (toggle_rules settings) |} in
  (save_settings user_id settings ;;;
   ret new_state).

Definition remove_auto_tag (user_id : Z) (tag : string)
    : St UserRepository.t bool :=
  settings <- get_settings user_id ;;
  if negb (bool_decide (tag ∈ auto_tags settings)) then ret false
  else
    let settings :=
      {| auto_tags := list_remove tag (auto_tags settings);
         toggle_rules := toggle_rules settings |} in
    (save_settings user_id settings ;;;
     ret true).

Definition remove_auto_tag_by_index (user_id index : Z)
    : St UserRepository.t bool :=
  settings <- get_settings user_id ;;
  if (index <? 0) || (Z.of_nat (length (auto_tags settings)) <=? index)
  then ret false
  else
    let settings :=
      {| auto_tags := delete (Z.to_nat index) (auto_tags settings);
         toggle_rules := toggle_rules settings |} in
    (save_settings user_id settings ;;;
     ret true).

Definition clear_auto_tags (user_id : Z) : St UserRepository.t Z :=
  settings <- get_settings user_id ;;
  let count := Z.of_nat (length (auto_tags settings)) in
  let settings :=
    {| auto_tags := []; toggle_rules := toggle_rules settings |} in
  (save_settings user_id settings ;;;
   ret count).

Definition set_rule (user_id : Z) (rule : string) (enabled : bool)
    : St UserRepository.t unit :=
  settings <- get_settings user_id ;;
  let settings :=
    {| auto_tags := auto_tags settings;
       toggle_rules := dict_set rule enabled (toggle_rules settings) |} in
  save_settings user_id settings.

Definition clear_rules (user_id : Z) : St UserRepository.t Z :=
  settings <- get_settings user_id ;;
  let count := Z.of_nat (length (toggle_rules settings)) in
  let settings := {| auto_tags := auto_tags settings; toggle_rules := [] |} in
  (save_settings user_id settings ;;;
   ret count).

Definition reset_user (user_id : Z) : St UserRepository.t unit :=
  save_settings user_id default_settings.

Definition delete_user (user_id : Z) : St UserRepository.t bool :=
  UserRepository.delete_user_settings user_id.

Definition get_auto_tags (user_id : Z) : St UserRepository.t (list string) :=
  settings <- get_settings user_id ;;
  ret (auto_tags settings).

Definition get_enabled_rules (user_id : Z)
    : St UserRepository.t (list string) :=
  settings <- get_settings user_id ;;
  ret (map fst (filter (fun kv => snd kv = true) (toggle_rules settings))).

Definition get_all_rules (user_id : Z) : St UserRepository.t (pydict bool) :=
  settings <- get_settings user_id ;;
  ret (toggle_rules settings).

Definition user_exists (user_id : Z) : St UserRepository.t bool :=
  UserRepository.user_exists user_id.

End UserService.

(** ** src/repositories/search_repository.py: [SearchState], [SearchRepository]

    The store below holds every user's state by value, which is the store
    as long as no [SearchState] object is saved for two users;
    [SearchRepositoryObjects] further down keeps the identity of the
    objects. *)

Record SearchState : Type := {
  query : string;
  results : list json;
  current_page : Z;
  total_pages : Z;
  posts_per_page : Z;
  last_menu_message_id : option Z
}.

Definition set_current_page (page : Z) (state : SearchState) : SearchState :=
  {| query := query state; results := results state;
     current_page := page; total_pages := total_pages state;
     posts_per_page := posts_per_page state;
     last_menu_message_id := last_menu_message_id state |}.

Definition set_last_menu_message_id (message_id : Z) (state : SearchState)
    : SearchState :=
  {| query := query state; results := results state;
     current_page := current_page state; total_pages := total_pages state;
     posts_per_page := posts_per_page state;
     last_menu_message_id := Some message_id |}.

Module SearchRepository.

Record t : Type := { _states : gmap Z SearchState }.

Definition save_search_state (user_id : Z) (state : SearchState) : St t unit :=
  fun self => (Ok tt, {| _states := <[user_id := state]> (_states self) |}).

Definition get_search_state (user_id : Z) : St t (option SearchState) :=
  fun self => (Ok (_states self !! user_id), self).

Definition update_page (user_id page : Z) : St t bool :=
  fun self =>
    match _states self !! user_id with
    | Some state =>
        (Ok true,
         {| _states := <[user_id := set_current_page page state]> (_states self) |})
    | None => (Ok false, self)
    end.

Definition delete_search_state (user_id : Z) : St t bool :=
  fun self =>
    match _states self !! user_id with
    | Some _ => (Ok true, {| _states := delete user_id (_states self) |})
    | None => (Ok false, self)
    end.

Definition clear_all_states : St t Z :=
  fun self => (Ok (Z.of_nat (size (_states self))), {| _states := ∅ |}).

Definition get_active_user_count : St t Z :=
  fun self => (Ok (Z.of_nat (size (_states self))), self).

Definition update_menu_message_id (user_id message_id : Z) : St t bool :=
  fun self =>
    match _states self !! user_id with
    | Some state =>
        (Ok true,
         {| _states :=
              <[user_id := set_last_menu_message_id message_id state]>
                (_states self) |})
    | None => (Ok false, self)
    end.

End SearchRepository.

(** ** src/repositories/search_repository.py: the stored objects

    [save_search_state] keeps the [SearchState] object it is handed, and
    [update_page] and [update_menu_message_id] assign to a field of the
    stored object. Where it matters that one object can be stored for two
    users, the store is the mapping from users to objects, by identity,
    next to the objects themselves. *)

Module SearchRepositoryObjects.

Record t : Type := {
  objects : gmap positive SearchState;
  _states : gmap Z positive
}.

Definition save_search_state (user_id : Z) (state : positive) : St t unit :=
  fun self =>
    (Ok tt,
     {| objects := objects self;
        _states := <[user_id := state]> (_states self) |}).

Definition get_search_state (user_id : Z) : St t (option positive) :=
  fun self => (Ok (_states self !! user_id), self).

Definition update_page (user_id page : Z) : St t bool :=
  fun self =>
    match _states self !! user_id with
    | Some state =>
        (Ok true,
         {| objects := alter (set_current_page page) state (objects self);
            _states := _states self |})
    | None => (Ok false, self)
    end.

Definition update_menu_message_id (user_id message_id : Z) : St t bool :=
  fun self =>
    match _states self !! user_id with
    | Some state =>
        (Ok true,
         {| objects :=
              alter (set_last_menu_message_id message_id) state (objects self);
            _states := _states self |})
    | None => (Ok false, self)
    end.

End SearchRepositoryObjects.

(** ** src/main.py: module-level helpers *)

Definition special_chars : list ascii :=
  ["_"; "*"; "["; "]"; "("; ")"; "~"; "`"; ">"; "#"; "+"; "-"; "="; "|";
   "{"; "}"; "."; "!"]%char.

(** [f'\\{char}']: a backslash (code 92) and the character. *)
Definition backslashed (char : ascii) : string :=
  String "092"%char (String char "").

Definition escape_markdown (text : string) : string :=
  if negb (str_truthy text) then text
  else
    fold_left
      (fun escaped_text char => replace_char char (backslashed char) escaped_text)
      special_chars text.

Definition escape_markdown_query (text : string) : string :=
  if negb (str_truthy text) then text
  else
    let escaped_text := replace_char "_" (backslashed "_") text in
    let escaped_text := replace_char "*" (backslashed "*") escaped_text in
    let escaped_text := replace_char "[" (backslashed "[") escaped_text in
    replace_char "]" (backslashed "]") escaped_text.

(** [get_media_type] on the value found under ['file_url']: [None] stands
    for the [TypeError] or [AttributeError] a value that is neither falsy
    nor a string runs into. *)
Definition get_media_type (file_url : json) : option string :=
  if negb (truthy file_url) then Some "image"
  else
    match file_url with
    | JStr url =>
        let extension :=
          if str_contains "." url
          then default "" (last (split "." (lower url)))
          else "" in
        if decide (extension = "mp4") then Some "video"
        else if decide (extension = "gif") then Some "gif"
        else Some "image"
    | JList l => if existsb (is_str ".") l then None else Some "image"
    | JDict d => if dict_mem "." d then None else Some "image"
    | _ => None
    end.

Definition get_preview_url (post : pydict json) : json :=
  dict_get_or "preview_url" (dict_get_or "file_url" (JStr "") post) post.

Definition get_display_media_url (post : pydict json) : option json :=
  match get_media_type (dict_get_or "file_url" (JStr "") post) with
  | None => None
  | Some media_type =>
      if bool_decide (media_type ∈ ["video"; "gif"])
      then Some (dict_get_or "file_url" (JStr "") post)
      else
        Some (dict_get_or "sample_url"
                (dict_get_or "file_url" (JStr "") post) post)
  end.

(** ** src/main.py: [UserDataManager]

    The same [user_<id>.pkl] files as [UserRepository]; a failed write is
    logged and swallowed. *)

Module UserDataManager.

Definition load_user_settings (user_id : Z) : St UserRepository.t UserSettings :=
  fun self =>
    match UserRepository.files self !! user_id with
    | Some (UserRepository.Pickled settings) => (Ok settings, self)
    | Some UserRepository.Unreadable | None => (Ok default_settings, self)
    end.

Definition save_user_settings (user_id : Z) (settings : UserSettings)
    : St UserRepository.t unit :=
  fun self =>
    if UserRepository.writable self then
      (Ok tt,
       {| UserRepository.files :=
            <[user_id := UserRepository.Pickled settings]>
              (UserRepository.files self);
          UserRepository.writable := UserRepository.writable self |})
    else (Ok tt, self).

End UserDataManager.

(** ** src/main.py: [TelbooruBot] *)

Module TelbooruBot.

(** [self.search_states] *)
Abbreviation search_states := (gmap Z SearchState).

(** [perform_batch_search]: the tags sent to the API, from the text the
    user typed and the stored settings. *)
Definition perform_batch_search_tags (tags : string)
    (settings : UserSettings) : string :=
  let tags :=
    match auto_tags settings with
    | [] => tags
    | _ =>
        let auto_tags_str := join " " (auto_tags settings) in
        if str_truthy tags then tags +:+ " " +:+ auto_tags_str
        else auto_tags_str
    end in
  let enabled_toggles :=
    map fst (filter (fun kv => snd kv = true) (toggle_rules settings)) in
  match enabled_toggles with
  | [] => tags
  | _ =>
      let toggle_str := join " " enabled_toggles in
      if str_truthy tags then tags +:+ " " +:+ toggle_str else toggle_str
  end.

(** [perform_batch_search]: the [SearchState] stored for a non-empty
    list of posts ("Store search state"). *)
Definition perform_batch_search_state (tags : string) (posts : list json)
    : SearchState :=
  {| query := tags;
     results := posts;
     current_page := 0;
     total_pages := (Z.of_nat (length posts) - 1) `div` 5 + 1;
     posts_per_page := 5;
     last_menu_message_id := None |}.

(** [send_search_results_page]: the posts shown on [page]; [None] is the
    "No active search" reply. *)
Definition send_search_results_page_posts (states : search_states)
    (user_id page : Z) : option (list json) :=
  match states !! user_id with
  | None => None
  | Some search_state =>
      let start_idx := page * posts_per_page search_state in
      let end_idx :=
        Z.min (start_idx + posts_per_page search_state)
              (Z.of_nat (length (results search_state))) in
      Some (slice (results search_state) start_idx end_idx)
  end.

(** [show_search_page]: the update of [current_page] before the page is
    sent. *)
Definition show_search_page (states : search_states) (user_id page : Z)
    : search_states :=
  match states !! user_id with
  | Some search_state =>
      <[user_id := set_current_page page search_state]> states
  | None => states
  end.

(** [send_full_image]: the post selected by [post_index]; [Ok None] is the
    "Media not found." answer. *)
Definition send_full_image_post (states : search_states)
    (user_id post_index : Z) : result (option json) :=
  match states !! user_id with
  | None => Ok None
  | Some search_state =>
      if Z.of_nat (length (results search_state)) <=? post_index then Ok None
      else
        match getitem (results search_state) post_index with
        | Ok post => Ok (Some post)
        | Raise e => Raise e
        end
  end.

(** [handle_toggle_callback], from the parsed [rule] on: the stored
    update and the state announced to the user ([True] for 'ON'). *)
Definition handle_toggle_callback (user_id : Z) (rule : string)
    : St UserRepository.t bool :=
  settings <- UserDataManager.load_user_settings user_id ;;
  let current_state :=
    match dict_get rule (toggle_rules settings) with
    | Some b => b
    | None => false
    end in
  let settings :=
    {| auto_tags := auto_tags settings;
       toggle_rules :=
         dict_set rule (negb current_state) (toggle_rules settings) |} in
  (UserDataManager.save_user_settings user_id settings ;;;
   ret (negb current_state)).



(** [send_search_results_page], the album loop: the preview of one post,
    [get_preview_url(post)]; [None] is the [AttributeError] of a post
    without [get]. *)
Definition album_preview (post : json) : option json :=
  match post with
  | JDict d => Some (get_preview_url d)
  | _ => None
  end.

(** [send_search_results_page], the keyboard loop: one post button, as
    its media type (the emoji) and the index it carries
    ([callback_data=f"post_{start_idx + i}"]); [None] is the exception of
    a post without [get] or of a ['file_url'] that [get_media_type]
    cannot read. *)
Definition post_button (start_idx : Z) (i : nat) (post : json)
    : option (string * Z) :=
  match post with
  | JDict d =>
      match get_media_type (dict_get_or "file_url" (JStr "") d) with
      | Some media_type => Some (media_type, start_idx + Z.of_nat i)
      | None => None
      end
  | _ => None
  end.

(** What [send_search_results_page] hands to Telegram. An exception in
    either loop leaves the [try] for the text fallback, so that no album
    and no keyboard is sent. *)
Inductive page_reply : Type :=
| NoActiveSearch   (* "No active search. Please start a new search." *)
| TextFallback     (* [_send_text_fallback_results] *)
| Album (media_group : list json) (post_buttons : list (string * Z)).

Definition send_search_results_page_reply (states : search_states)
    (user_id page : Z) : page_reply :=
  match states !! user_id with
  | None => NoActiveSearch
  | Some search_state =>
      let start_idx := page * posts_per_page search_state in
      let end_idx :=
        Z.min (start_idx + posts_per_page search_state)
              (Z.of_nat (length (results search_state))) in
      let page_posts := slice (results search_state) start_idx end_idx in
      match mapM album_preview page_posts with
      | None => TextFallback
      | Some previews =>
          (* [if not preview_url: continue] *)
          let media_group :=
            filter (fun preview_url => truthy preview_url = true) previews in
          match mapM id (imap (post_button start_idx) page_posts) with
          | None => TextFallback
          | Some keyboard => Album media_group keyboard
          end
      end
  end.

(** [send_search_results_page]: the pages the navigation buttons carry
    ([search_page_{page - 1}], [search_page_{page + 1}]). *)
Definition send_search_results_page_nav_buttons (states : search_states)
    (user_id page : Z) : option (list Z) :=
  match states !! user_id with
  | None => None
  | Some search_state =>
      Some ((if 0 <? page then [page - 1] else [])
            ++ (if page <? total_pages search_state - 1 then [page + 1]
                else []))
  end.

(** What [perform_batch_search] makes of the response of [get_posts]. *)
Inductive search_reply : Type :=
| NoResponse                         (* "No response from the image API." *)
| InvalidFormat                      (* "Invalid response format ..." *)
| NoImages                           (* "No images found ..." *)
| Stored (search_state : SearchState) (* the session put in [search_states] *)
| StoredText (tags text : string)    (* a session whose [results] is a [str] *)
| ErrorOccurred.                     (* the outer [except Exception] *)

(** ['post' in response]; [None] is the [TypeError] of a value that is no
    container. *)
Definition contains_post (response : json) : option bool :=
  match response with
  | JDict d => Some (dict_mem "post" d)
  | JList l => Some (existsb (is_str "post") l)
  | JStr text => Some (str_in "post" text)
  | _ => None
  end.

Definition perform_batch_search_reply (tags : string) (response : json)
    : search_reply :=
  if negb (truthy response) then NoResponse
  else
    match contains_post response with
    | None => ErrorOccurred
    | Some false => InvalidFormat
    | Some true =>
        match response with
        | JDict d =>
            let posts := dict_get_or "post" JNull d in
            if negb (truthy posts) then NoImages
            else
              match posts with
              | JDict _ => Stored (perform_batch_search_state tags [posts])
              | JList l => Stored (perform_batch_search_state tags l)
              | JStr text => StoredText tags text
              | _ => ErrorOccurred   (* [len(posts)] *)
              end
        | _ => ErrorOccurred         (* [response['post']] *)
        end
    end.

(** [perform_batch_search], from the loaded settings to the reply. *)
Definition perform_batch_search (api : BooruAPIWrapper.t)
    (settings : UserSettings) (tags : string) : IO search_reply :=
  let tags := perform_batch_search_tags tags settings in
  response <- BooruAPIWrapper.get_posts api 50 0 tags None None ;;
  ret (perform_batch_search_reply tags response).

(** The three replies of [process_autotag_addition]. *)
Inductive autotag_reply : Type :=
| InvalidTag
| AlreadyThere
| Added.

Definition process_autotag_addition (user_id : Z) (tag_text : string)
    : St UserRepository.t autotag_reply :=
  let tag_text := strip tag_text in
  if negb (str_truthy tag_text) then ret InvalidTag
  else
    settings <- UserDataManager.load_user_settings user_id ;;
    if bool_decide (tag_text ∈ auto_tags settings) then ret AlreadyThere
    else
      let settings :=
        {| auto_tags := auto_tags settings ++ [tag_text];
           toggle_rules := toggle_rules settings |} in
      (UserDataManager.save_user_settings user_id settings ;;;
       ret Added).

(** [handle_autotag_callback], the [autotag_remove_<index>] branch: the
    tag announced as removed, if any. *)
Definition handle_autotag_callback_remove (user_id index : Z)
    : St UserRepository.t (option string) :=
  settings <- UserDataManager.load_user_settings user_id ;;
  if (0 <=? index) && (index <? Z.of_nat (length (auto_tags settings))) then
    let removed_tag := auto_tags settings !! Z.to_nat index in
    let settings :=
      {| auto_tags := delete (Z.to_nat index) (auto_tags settings);
         toggle_rules := toggle_rules settings |} in
    (UserDataManager.save_user_settings user_id settings ;;;
     ret removed_tag)
  else ret None.

(** [search_and_send_tags]: the tag name made safe for HTML,
    [name.replace('&', '&amp;').replace('<', '&lt;').replace('>', '&gt;')]. *)
Definition search_and_send_tags_safe_name (name : string) : string :=
  replace_char ">" "&gt;"
    (replace_char "<" "&lt;" (replace_char "&" "&amp;" name)).

End TelbooruBot.

(** * Specification-side definitions *)

(** ** The wire contract (§6) *)

Definition opt_param {V} (key : string) (value : option V) : pydict V :=
  match value with Some v => [(key, v)] | None => [] end.

Definition str_param (key value : string) : pydict pval :=
  if str_truthy value then [(key, PStr value)] else [].

(** [&api_key=<k>&user_id=<u>], sent only when both are configured. *)
Definition auth_query (api_key user_id : option string) : pydict pval :=
  match api_key, user_id with
  | Some k, Some u =>
      if str_truthy k && str_truthy u
      then [("api_key", PStr k); ("user_id", PStr u)] else []
  | _, _ => []
  end.

(** Posts:
    [/index.php?page=dapi&s=post&q=index&limit=..&pid=..&json=1]
    then [&tags], [&cid], [&id] and the credentials when present;
    [limit] is the value put on the wire. *)
Definition posts_request (api_key user_id : option string) (limit pid : Z)
    (tags : string) (cid post_id : option Z) : request :=
  Request "/index.php"
    ([("page", PStr "dapi"); ("s", PStr "post"); ("q", PStr "index");
      ("limit", PInt limit); ("pid", PInt pid); ("json", PStr "1")]
     ++ str_param "tags" tags
     ++ opt_param "cid" (PInt <$> cid)
     ++ opt_param "id" (PInt <$> post_id)
     ++ auth_query api_key user_id).

(** Fallback posts:
    [/index.php?page=post&s=list&limit=..&pid=..&json=1]
    then [&tags], [&id] and the credentials when present. *)
Definition fallback_posts_request (api_key user_id : option string)
    (limit pid : Z) (tags : string) (post_id : option Z) : request :=
  Request "/index.php"
    ([("page", PStr "post"); ("s", PStr "list");
      ("limit", PInt limit); ("pid", PInt pid); ("json", PStr "1")]
     ++ str_param "tags" tags
     ++ opt_param "id" (PInt <$> post_id)
     ++ auth_query api_key user_id).

(** Tags, as the service issues them (default order and ordering field):
    [/index.php?page=dapi&s=tag&q=index&limit=..&order=ASC&orderby=name&json=1]
    then [&name], [&tags=pattern] and the credentials when present. *)
Definition tags_request (api_key user_id : option string) (limit : Z)
    (name pattern : string) : request :=
  Request "/index.php"
    ([("page", PStr "dapi"); ("s", PStr "tag"); ("q", PStr "index");
      ("limit", PInt limit); ("order", PStr "ASC");
      ("orderby", PStr "name"); ("json", PStr "1")]
     ++ str_param "name" name
     ++ str_param "tags" pattern
     ++ auth_query api_key user_id).

(** The network after some more requests. *)
Definition after (net : Net) (reqs : list request) : Net :=
  {| upstream := upstream net; sent := sent net ++ reqs |}.

(** The [limit] parameter of a request. *)
Definition limit_of (req : request) : option pval :=
  dict_get "limit" (params req).

(** What the service's [search_tags] returns for a response body. *)
Definition listed_tags (body : json) : result json :=
  let tags := BooruService.get_listed "tag" (normalize_tags body) in
  match py_len tags with
  | Ok _ => Ok tags
  | Raise e => Raise e
  end.

(** [compose] in the specification's words: the base query, then the
    auto-tags joined with single spaces when there are any, then the
    enabled rule-strings joined with single spaces when there are any, each
    part appended after a separating space, the whole trimmed. *)
Definition compose_spec (base_query : string) (settings : UserSettings)
    : string :=
  let enabled :=
    map fst (filter (fun kv => snd kv = true) (toggle_rules settings)) in
  strip (base_query
         +:+ match auto_tags settings with
             | [] => ""
             | _ => " " +:+ join " " (auto_tags settings)
             end
         +:+ match enabled with
             | [] => ""
             | _ => " " +:+ join " " enabled
             end).

(** The settings [get_user_settings] reads for a user. *)
Definition settings_of (self : UserRepository.t) (user_id : Z) : UserSettings :=
  match UserRepository.files self !! user_id with
  | Some (UserRepository.Pickled settings) => settings
  | _ => default_settings
  end.

(** Whether a rule is enabled for a user: [toggle_rules.get(rule, False)]. *)
Definition rule_enabled (self : UserRepository.t) (user_id : Z)
    (rule : string) : bool :=
  default false (dict_get rule (toggle_rules (settings_of self user_id))).

(** The mutating calls of [UserService] other than the raw
    [save_settings], and the store after one of them. *)
Inductive command : Type :=
| AddAutoTag (user_id : Z) (tag : string)
| RemoveAutoTag (user_id : Z) (tag : string)
| RemoveAutoTagByIndex (user_id index : Z)
| ClearAutoTags (user_id : Z)
| ToggleRule (user_id : Z) (rule : string)
| SetRule (user_id : Z) (rule : string) (enabled : bool)
| ClearRules (user_id : Z)
| ResetUser (user_id : Z)
| DeleteUser (user_id : Z).

Definition run_command (c : command) (self : UserRepository.t)
    : UserRepository.t :=
  match c with
  | AddAutoTag u tag => (UserService.add_auto_tag u tag self).2
  | RemoveAutoTag u tag => (UserService.remove_auto_tag u tag self).2
  | RemoveAutoTagByIndex u i => (UserService.remove_auto_tag_by_index u i self).2
  | ClearAutoTags u => (UserService.clear_auto_tags u self).2
  | ToggleRule u rule => (UserService.toggle_rule u rule self).2
  | SetRule u rule enabled => (UserService.set_rule u rule enabled self).2
  | ClearRules u => (UserService.clear_rules u self).2
  | ResetUser u => (UserService.reset_user u self).2
  | DeleteUser u => (UserService.delete_user u self).2
  end.

Definition run_commands (cs : list command) (self : UserRepository.t)
    : UserRepository.t :=
  fold_left (fun repo c => run_command c repo) cs self.

(** The user a call is made for. *)
Definition user_of (c : command) : Z :=
  match c with
  | AddAutoTag u _ | RemoveAutoTag u _ | RemoveAutoTagByIndex u _
  | ClearAutoTags u | ToggleRule u _ | SetRule u _ _ | ClearRules u
  | ResetUser u | DeleteUser u => u
  end.

(** No user has an auto-tag twice. *)
Definition no_duplicates (self : UserRepository.t) : Prop :=
  forall user_id, NoDup (auto_tags (settings_of self user_id)).

(** [ceil(n/d)] for a positive [d], as the opposite of the floor of the
    opposite. *)
Definition ceil_div (n d : Z) : Z := - ((- n) `div` d).

(** A non-empty string without leading or trailing whitespace: what
    [handle_text_input] and [process_autotag_addition] let through after
    their [strip()]. *)
Definition trimmed (s : string) : Prop :=
  s <> "" /\ lstrip s = s /\ rstrip s = s.

(** Both credentials are set and non-empty. *)
Definition configured (api_key user_id : option string) : bool :=
  match api_key, user_id with
  | Some k, Some u => str_truthy k && str_truthy u
  | _, _ => false
  end.

(** The repository exception a transport failure comes back as. *)
Definition taxonomy (e : aiohttp_error) : exn :=
  match e with
  | ClientConnectionError => RepositoryConnectionException
  | ClientResponseError _ => RepositoryDataException
  | AsyncTimeoutError | UnexpectedError => RepositoryException
  end.

(** The session a user has: the object stored for the user. *)
Definition session_of (self : SearchRepositoryObjects.t) (user_id : Z)
    : option SearchState :=
  match SearchRepositoryObjects._states self !! user_id with
  | Some state => SearchRepositoryObjects.objects self !! state
  | None => None
  end.

(** The store with every user's session copied out of its object. *)
Definition states_by_value (self : SearchRepositoryObjects.t)
    : gmap Z SearchState :=
  omap (fun state => SearchRepositoryObjects.objects self !! state)
    (SearchRepositoryObjects._states self).

(** Nobody else holds the object stored for the user. *)
Definition unshared (self : SearchRepositoryObjects.t) (user_id : Z) : Prop :=
  forall other state,
    other <> user_id ->
    SearchRepositoryObjects._states self !! user_id = Some state ->
    SearchRepositoryObjects._states self !! other <> Some state.

(** One request whose body is handed on as it comes and whose failure is
    raised as [error] makes it. *)
Definition handed_on (error : aiohttp_error -> exn) (req : request) : IO json :=
  fun net =>
    (match upstream net (sent net) req with
     | Response body => Ok body
     | Fails e => Raise (error e)
     end,
     after net [req]).

(** Two requests for the same endpoint with the same value for every
    parameter, whatever the order the parameters were put in. *)
Definition same_request (req1 req2 : request) : Prop :=
  endpoint req1 = endpoint req2
  /\ forall key, dict_get key (params req1) = dict_get key (params req2).

(** One pass over the text that puts a backslash before every character
    of [specials]. *)
Fixpoint escape_once (specials : list ascii) (text : string) : string :=
  match text with
  | "" => ""
  | String c text' =>
      if bool_decide (c ∈ specials)
      then String "092"%char (String c (escape_once specials text'))
      else String c (escape_once specials text')
  end.

(** One pass over the text that writes [&], [<] and [>] as entities. *)
Fixpoint html_once (text : string) : string :=
  match text with
  | "" => ""
  | String c text' =>
      if decide (c = "&"%char) then "&amp;" +:+ html_once text'
      else if decide (c = "<"%char) then "&lt;" +:+ html_once text'
      else if decide (c = ">"%char) then "&gt;" +:+ html_once text'
      else String c (html_once text')
  end.

(** ** Concrete clients, upstreams and stores *)

(** A session of three posts, used where a concrete session is needed. *)
Definition three_posts : list json :=
  [JDict [("id", JNum 1)]; JDict [("id", JNum 2)]; JDict [("id", JNum 3)]].

Definition anonymous_wrapper : BooruAPIWrapper.t :=
  {| BooruAPIWrapper.base_url := "https://booru.example";
     BooruAPIWrapper.api_key := None;
     BooruAPIWrapper.user_id := None;
     BooruAPIWrapper.session := true |}.

Definition anonymous_repository : BooruRepository.t :=
  {| BooruRepository.base_url := "https://booru.example";
     BooruRepository.api_key := None;
     BooruRepository.user_id := None;
     BooruRepository.session := true |}.

(** An upstream that refuses the primary format and serves three posts in
    the alternate one. *)
Definition fallback_only_upstream (_ : list request) (req : request) : outcome :=
  match dict_get "page" (params req) with
  | Some (PStr "post") => Response (JDict [("post", JList three_posts)])
  | _ => Fails ClientConnectionError
  end.

(** An upstream that answers every request with an empty list. *)
Definition empty_upstream (_ : list request) (_ : request) : outcome :=
  Response (JList []).

(** An upstream that answers every request with [{"post": {"id": 1}}]. *)
Definition single_post_upstream (_ : list request) (_ : request) : outcome :=
  Response (JDict [("post", JDict [("id", JNum 1)])]).


(** Three posts as the API lists them: a picture with its thumbnail, a
    video without a thumbnail, and a post without any URL. *)
Definition pictured_posts : list json :=
  [JDict [("id", JNum 1);
          ("file_url", JStr "https://booru.example/images/a.png");
          ("preview_url", JStr "https://booru.example/thumbnails/a.png")];
   JDict [("id", JNum 2);
          ("file_url", JStr "https://booru.example/images/b.mp4")];
   JDict [("id", JNum 3)]].

(** An upstream that refuses the primary format and serves three posts
    as a bare list in the alternate one. *)
Definition bare_list_upstream (_ : list request) (req : request) : outcome :=
  match dict_get "page" (params req) with
  | Some (PStr "post") => Response (JList three_posts)
  | _ => Fails ClientConnectionError
  end.

(** A store with no file yet, on which writes succeed. *)
Definition fresh_store : UserRepository.t :=
  {| UserRepository.files := ∅; UserRepository.writable := true |}.

(** * Properties *)

(** ** Strings *)

Lemma string_app_nil_r (s : string) : s +:+ "" = s.
Proof.
  induction s as [|c s IH]; [reflexivity|].
  change (String c (s +:+ "") = String c s). by rewrite IH.
Qed.

Lemma string_app_assoc (s1 s2 s3 : string) :
  (s1 +:+ s2) +:+ s3 = s1 +:+ (s2 +:+ s3).
Proof.
  induction s1 as [|c s1 IH]; [reflexivity|].
  change (String c ((s1 +:+ s2) +:+ s3) = String c (s1 +:+ (s2 +:+ s3))).
  by rewrite IH.
Qed.

Lemma string_app_truthy (c : ascii) (s1 s2 : string) :
  str_truthy (String c s1 +:+ s2) = true.
Proof. reflexivity. Qed.

Lemma strip_space (s : string) : strip (" " +:+ s) = strip s.
Proof. reflexivity. Qed.

Lemma str_truthy_false (s : string) : str_truthy s = false -> s = "".
Proof. by destruct s. Qed.

(** ** Query composition (§4.1) *)

(** The inline composition of src/main.py is the service's composition
    without the final trim. *)
Lemma apply_user_preferences_inline (tags : string) (settings : UserSettings) :
  BooruService._apply_user_preferences tags settings
  = strip (TelbooruBot.perform_batch_search_tags tags settings).
Proof. reflexivity. Qed.

(** [_apply_user_preferences] is the composition the specification
    describes. *)
Lemma apply_user_preferences_compose_spec (base_query : string)
    (settings : UserSettings) :
  BooruService._apply_user_preferences base_query settings
  = compose_spec base_query settings.
Proof.
  destruct settings as [autos rules].
  unfold BooruService._apply_user_preferences, compose_spec.
  cbn [auto_tags toggle_rules].
  set (enabled := map fst (filter _ rules)).
  set (E := join " " enabled). set (A := join " " autos).
  destruct autos as [|a autos']; destruct enabled as [|r enabled'];
    destruct base_query as [|c q]; cbv beta iota zeta;
    rewrite ?string_app_truthy; cbn [str_truthy];
    change ("" +:+ ?x) with x;
    rewrite ?string_app_nil_r, ?string_app_assoc, ?strip_space;
    try reflexivity.
  destruct (str_truthy A) eqn:HA; [reflexivity|].
  apply str_truthy_false in HA. rewrite HA. reflexivity.
Qed.

(** ** Slices and indexing *)

Lemma slice_lookup {A} (l : list A) (start stop : Z) (k : nat) :
  0 <= start -> 0 <= stop ->
  slice l start stop !! k
  = if decide (start + Z.of_nat k < Z.min stop (Z.of_nat (length l)))
    then l !! (Z.to_nat start + k)%nat else None.
Proof.
  intros Hstart Hstop. unfold slice, slice_bound.
  destruct (Z.ltb_spec start 0) as [?|_]; [lia|].
  destruct (Z.ltb_spec stop 0) as [?|_]; [lia|].
  set (len := Z.of_nat (length l)).
  case_decide as Hk.
  - rewrite lookup_take_lt by lia. rewrite lookup_drop. f_equal. lia.
  - apply lookup_take_ge. lia.
Qed.

Lemma slice_length {A} (l : list A) (start stop : Z) :
  0 <= start -> 0 <= stop ->
  Z.of_nat (length (slice l start stop))
  = Z.max 0 (Z.min stop (Z.of_nat (length l)) - start).
Proof.
  intros Hstart Hstop. unfold slice, slice_bound.
  destruct (Z.ltb_spec start 0) as [?|_]; [lia|].
  destruct (Z.ltb_spec stop 0) as [?|_]; [lia|].
  rewrite length_take, length_drop. lia.
Qed.

Lemma slice_to_end {A} (l : list A) (start stop : Z) :
  0 <= start -> Z.of_nat (length l) <= stop ->
  slice l start stop = drop (Z.to_nat start) l.
Proof.
  intros Hstart Hstop. apply list_eq. intros k.
  rewrite slice_lookup by lia. rewrite lookup_drop.
  case_decide as Hk; [reflexivity|].
  symmetry. apply lookup_ge_None_2. lia.
Qed.

Lemma getitem_in_range {A} (l : list A) (i : Z) :
  0 <= i < Z.of_nat (length l) ->
  exists x, l !! Z.to_nat i = Some x /\ getitem l i = Ok x.
Proof.
  intros Hi. unfold getitem.
  destruct (Z.ltb_spec i 0) as [?|_]; [lia|].
  destruct (Z.leb_spec 0 i) as [_|?]; [|lia].
  destruct (Z.ltb_spec i (Z.of_nat (length l))) as [_|?]; [|lia].
  destruct (lookup_lt_is_Some_2 l (Z.to_nat i)) as [x Hx]; [lia|].
  exists x. by rewrite Hx.
Qed.

Lemma getitem_negative {A} (l : list A) (i : Z) :
  - Z.of_nat (length l) <= i < 0 ->
  exists x, l !! Z.to_nat (Z.of_nat (length l) + i) = Some x
            /\ getitem l i = Ok x.
Proof.
  intros Hi. unfold getitem.
  destruct (Z.ltb_spec i 0) as [_|?]; [|lia].
  destruct (Z.leb_spec 0 (Z.of_nat (length l) + i)) as [_|?]; [|lia].
  destruct (Z.ltb_spec (Z.of_nat (length l) + i) (Z.of_nat (length l)))
    as [_|?]; [|lia].
  destruct (lookup_lt_is_Some_2 l (Z.to_nat (Z.of_nat (length l) + i)))
    as [x Hx]; [lia|].
  exists x. by rewrite Hx.
Qed.

Lemma getitem_below {A} (l : list A) (i : Z) :
  i < - Z.of_nat (length l) -> getitem l i = Raise IndexError.
Proof.
  intros Hi. unfold getitem.
  destruct (Z.ltb_spec i 0) as [_|?]; [|lia].
  destruct (Z.leb_spec 0 (Z.of_nat (length l) + i)) as [?|_]; [lia|].
  reflexivity.
Qed.

(** ** Search sessions (§4.4) *)

(** C7. For every non-empty result list the stored session has
    [total_pages = ceil(len(results)/5)], and the posts of a page are
    [results[page*5 : min((page+1)*5, len(results))]], that is, for a
    non-negative page, exactly the results at indices [page*5] up to (not
    including) [min((page+1)*5, len(results))]; with 12 results there are
    3 pages and page 2 holds exactly the two results at indices 10
    and 11. *)
Theorem C7_pagination (tags : string) (posts : list json)
    (states : TelbooruBot.search_states) (user_id page : Z) :
  posts <> [] ->
  let state := TelbooruBot.perform_batch_search_state tags posts in
  let len := Z.of_nat (length posts) in
  let page_posts := slice posts (page * 5) (Z.min ((page + 1) * 5) len) in
  total_pages state = ceil_div len 5
  /\ 5 * (total_pages state - 1) < len <= 5 * total_pages state
  /\ TelbooruBot.send_search_results_page_posts
       (<[user_id := state]> states) user_id page = Some page_posts
  /\ (0 <= page ->
      forall k : nat,
        page_posts !! k
        = if decide (page * 5 + Z.of_nat k < Z.min ((page + 1) * 5) len)
          then posts !! (Z.to_nat (page * 5) + k)%nat else None)
  /\ (len = 12 ->
      total_pages state = 3
      /\ TelbooruBot.send_search_results_page_posts
           (<[user_id := state]> states) user_id 2 = Some (drop 10 posts)
      /\ exists p10 p11,
           posts !! 10%nat = Some p10 /\ posts !! 11%nat = Some p11
           /\ drop 10 posts = [p10; p11]).
Proof.
  intros Hne state len page_posts.
  assert (Hlen : 0 < len) by (destruct posts; [done | cbn in len; lia]).
  assert (Hpage : forall p,
    TelbooruBot.send_search_results_page_posts
      (<[user_id := state]> states) user_id p
    = Some (slice posts (p * 5) (Z.min ((p + 1) * 5) len))).
  { intros p. unfold TelbooruBot.send_search_results_page_posts.
    rewrite lookup_insert_eq. cbn [posts_per_page results state
      TelbooruBot.perform_batch_search_state].
    do 2 f_equal. fold len. lia. }
  assert (Hbounds : 5 * (total_pages state - 1) < len <= 5 * total_pages state).
  { cbn [total_pages state TelbooruBot.perform_batch_search_state]. fold len.
    pose proof (Z.div_mod (len - 1) 5 ltac:(lia)).
    pose proof (Z.mod_pos_bound (len - 1) 5 ltac:(lia)). lia. }
  split; [|split; [|split; [|split]]].
  - unfold ceil_div.
    pose proof (Z.div_mod (- len) 5 ltac:(lia)).
    pose proof (Z.mod_pos_bound (- len) 5 ltac:(lia)). lia.
  - exact Hbounds.
  - apply Hpage.
  - intros Hp k. subst page_posts. rewrite slice_lookup by lia.
    fold len. replace (Z.min (Z.min ((page + 1) * 5) len) len)
      with (Z.min ((page + 1) * 5) len) by lia.
    reflexivity.
  - intros H12. split; [|split].
    + cbn [total_pages state TelbooruBot.perform_batch_search_state]. fold len.
      rewrite H12. reflexivity.
    + rewrite Hpage. f_equal. rewrite H12.
      change (slice posts 10 12 = drop 10 posts).
      apply (slice_to_end posts 10 12); lia.
    + subst len.
      do 12 (destruct posts as [|? posts]; [cbn in H12; lia|]).
      destruct posts; [|cbn in H12; lia]. eauto.
Qed.

Lemma C7_pagination_witness :
  let posts := map JNum [0; 1; 2; 3; 4; 5; 6; 7; 8; 9; 10; 11] in
  let state := TelbooruBot.perform_batch_search_state "cat" posts in
  total_pages state = 3
  /\ TelbooruBot.send_search_results_page_posts {[ 42 := state ]} 42 2
     = Some [JNum 10; JNum 11].
Proof.
  intros posts state.
  destruct (C7_pagination "cat" posts ∅ 42 2 ltac:(discriminate))
    as (_ & _ & _ & _ & H12).
  destruct (H12 eq_refl) as (Htotal & Hslice & _).
  split; [exact Htotal | exact Hslice].
Defined.

(** What [send_full_image] selects, for every session and index: the
    indexed post inside the bounds, "not found" at or above the length,
    the post counted from the end for a negative index down to [-len],
    and an [IndexError] below that. *)
Lemma send_full_image_post_cases (states : TelbooruBot.search_states)
    (user_id post_index : Z) (state : SearchState) :
  states !! user_id = Some state ->
  let len := Z.of_nat (length (results state)) in
  (0 <= post_index < len ->
   exists post, results state !! Z.to_nat post_index = Some post
     /\ TelbooruBot.send_full_image_post states user_id post_index
        = Ok (Some post))
  /\ (len <= post_index ->
      TelbooruBot.send_full_image_post states user_id post_index = Ok None)
  /\ (- len <= post_index < 0 ->
      exists post, results state !! Z.to_nat (len + post_index) = Some post
        /\ TelbooruBot.send_full_image_post states user_id post_index
           = Ok (Some post))
  /\ (post_index < - len ->
      TelbooruBot.send_full_image_post states user_id post_index
      = Raise IndexError).
Proof.
  intros Hstate len. unfold TelbooruBot.send_full_image_post.
  rewrite Hstate. fold len. repeat split.
  - intros Hi. destruct (Z.leb_spec len post_index) as [?|_]; [lia|].
    destruct (getitem_in_range (results state) post_index Hi) as (x & Hx & ->).
    eauto.
  - intros Hi. by destruct (Z.leb_spec len post_index) as [_|?]; [|lia].
  - intros Hi. destruct (Z.leb_spec len post_index) as [?|_]; [lia|].
    destruct (getitem_negative (results state) post_index Hi) as (x & Hx & ->).
    eauto.
  - intros Hi. destruct (Z.leb_spec len post_index) as [?|_]; [lia|].
    by rewrite getitem_below.
Qed.

Lemma send_full_image_post_no_session (states : TelbooruBot.search_states)
    (user_id post_index : Z) :
  states !! user_id = None ->
  TelbooruBot.send_full_image_post states user_id post_index = Ok None.
Proof. intros H. unfold TelbooruBot.send_full_image_post. by rewrite H. Qed.

(** C8. On a session of three posts, [send_full_image] with index -1
    does not answer "not found": it selects the last post; with index -4
    it raises [IndexError]. *)
Theorem C8_select_post_negative_index :
  let states : TelbooruBot.search_states :=
    {[ 42 := TelbooruBot.perform_batch_search_state "cat" three_posts ]} in
  TelbooruBot.send_full_image_post states 42 (-1)
  = Ok (Some (JDict [("id", JNum 3)]))
  /\ TelbooruBot.send_full_image_post states 42 (-4) = Raise IndexError.
Proof. split; reflexivity. Qed.

(** C2 as stated fails: on a 3-page session (12 results), [update_page]
    with page 5 returns [True] and stores 5 as the current page. *)
Lemma C2_update_page_out_of_range :
  let posts := map JNum [0; 1; 2; 3; 4; 5; 6; 7; 8; 9; 10; 11] in
  let state := TelbooruBot.perform_batch_search_state "cat" posts in
  let repo := {| SearchRepository._states := {[ 42 := state ]} |} in
  total_pages state = 3
  /\ current_page state = 0
  /\ exists repo',
       SearchRepository.update_page 42 5 repo = (Ok true, repo')
       /\ current_page <$> (SearchRepository._states repo' !! 42) = Some 5.
Proof.
  intros posts state repo. split; [reflexivity|]. split; [reflexivity|].
  eexists. split; [reflexivity|]. cbn. by rewrite lookup_insert_eq.
Qed.

(** C2, amended. [update_page] returns [False] and changes nothing when
    the user has no session; when the user has one, it stores [page] as
    the current page and returns [True] for every [page], in or out of
    [[0, total_pages-1]]. [show_search_page] of src/main.py updates the
    session in the same way. *)
Theorem C2_update_page (self : SearchRepository.t) (user_id page : Z) :
  (SearchRepository._states self !! user_id = None ->
   SearchRepository.update_page user_id page self = (Ok false, self)
   /\ TelbooruBot.show_search_page (SearchRepository._states self) user_id page
      = SearchRepository._states self)
  /\ (forall state,
        SearchRepository._states self !! user_id = Some state ->
        exists self',
          SearchRepository.update_page user_id page self = (Ok true, self')
          /\ SearchRepository._states self' !! user_id
             = Some (set_current_page page state)
          /\ (forall other, other <> user_id ->
                SearchRepository._states self' !! other
                = SearchRepository._states self !! other)
          /\ TelbooruBot.show_search_page
               (SearchRepository._states self) user_id page
             = SearchRepository._states self').
Proof.
  unfold SearchRepository.update_page, TelbooruBot.show_search_page. split.
  - intros ->. done.
  - intros state ->. eexists. split; [reflexivity|]. cbn.
    split; [by rewrite lookup_insert_eq|]. split; [|reflexivity].
    intros other Hother. by rewrite lookup_insert_ne.
Qed.

Lemma C2_update_page_witness :
  SearchRepository.update_page 42 5 {| SearchRepository._states := ∅ |}
  = (Ok false, {| SearchRepository._states := ∅ |})
  /\ exists self',
       SearchRepository.update_page 42 5
         {| SearchRepository._states :=
              {[ 42 := TelbooruBot.perform_batch_search_state "cat" three_posts ]} |}
       = (Ok true, self')
       /\ current_page <$> (SearchRepository._states self' !! 42) = Some 5.
Proof.
  split.
  - apply (C2_update_page {| SearchRepository._states := ∅ |} 42 5).
    apply lookup_empty.
  - destruct (C2_update_page
      {| SearchRepository._states :=
           {[ 42 := TelbooruBot.perform_batch_search_state "cat" three_posts ]} |}
      42 5) as [_ H].
    destruct (H (TelbooruBot.perform_batch_search_state "cat" three_posts))
      as (self' & Hupd & Hget & _).
    { apply lookup_singleton_eq. }
    exists self'. split; [exact Hupd|]. by rewrite Hget.
Defined.

(** ** Request traces *)


Ltac split_client self :=
  destruct self as [? [k|] [u|] ?];
  [ destruct (str_truthy k) eqn:?, (str_truthy u) eqn:? | | | ].

(** What [BooruAPIWrapper.get_posts] does on an open session, request by
    request. *)
Lemma wrapper_get_posts_run (self : BooruAPIWrapper.t) (limit pid : Z)
    (tags : string) (cid post_id : option Z) (net : Net) :
  BooruAPIWrapper.session self = true ->
  let key := BooruAPIWrapper.api_key self in
  let uid := BooruAPIWrapper.user_id self in
  let primary := posts_request key uid (Z.min limit 100) pid tags cid post_id in
  let fallback :=
    fallback_posts_request key uid (Z.min limit 100) pid tags post_id in
  BooruAPIWrapper.get_posts self limit pid tags cid post_id net
  = match upstream net (sent net) primary with
    | Response body =>
        (Ok (JDict (normalize_posts body)), after net [primary])
    | Fails _ =>
        match upstream net (sent net ++ [primary]) fallback with
        | Response body =>
            (Ok (if truthy body then body else JDict no_posts),
             after net [primary; fallback])
        | Fails _ => (Ok (JDict no_posts), after net [primary; fallback])
        end
    end.
Proof.
  intros Hopen key uid primary fallback.
  assert (Hprimary :
    BooruAPIWrapper.get_posts self limit pid tags cid post_id net
    = try_except
        (result <- session_get primary ;;
         ret (JDict (normalize_posts result)))
        (fun _ =>
           try_except
             (alt_result <- session_get fallback ;;
              ret (if truthy alt_result then alt_result
                   else JDict no_posts))
             (fun _ => ret (JDict no_posts))) net).
  { subst key uid primary fallback.
    unfold BooruAPIWrapper.get_posts, BooruAPIWrapper._make_request.
    rewrite Hopen. cbn [negb].
    split_client self; destruct (str_truthy tags) eqn:Htags;
      destruct cid, post_id;
      unfold posts_request, fallback_posts_request, str_param,
        BooruAPIWrapper._build_auth_params, auth_query;
      cbn [BooruAPIWrapper.api_key BooruAPIWrapper.user_id];
      rewrite ?Htags; try rewrite Heqb; try rewrite Heqb0; reflexivity. }
  rewrite Hprimary.
  unfold try_except, bind, session_get, ret, after. cbn [sent upstream].
  destruct (upstream net (sent net) primary); [reflexivity|].
  cbn [sent upstream].
  destruct (upstream net (sent net ++ [primary]) fallback);
    cbn [sent upstream]; by rewrite <- app_assoc.
Qed.

Ltac split_repository self :=
  destruct self as [? [k|] [u|] ?];
  [ destruct (str_truthy k) eqn:?, (str_truthy u) eqn:? | | | ].

Lemma translate_is_repository (e : exn) :
  is_RepositoryException (BooruRepository.translate e) = true.
Proof. by destruct e as [[]| | | | | |]. Qed.

(** [_make_request] of the repository on an open session: one request,
    whose failure comes back as a repository exception. *)
Lemma repository_make_request_run (self : BooruRepository.t)
    (params : pydict pval) (net : Net) :
  BooruRepository.session self = true ->
  let params' :=
    dict_update params (BooruRepository._build_auth_params self) in
  let req :=
    Request "/index.php"
      (if dict_mem "json" params' then params'
       else dict_set "json" (PStr "1") params') in
  BooruRepository._make_request self "/index.php" params net
  = match upstream net (sent net) req with
    | Response body => (Ok body, after net [req])
    | Fails e => (Raise (BooruRepository.translate (Aiohttp e)), after net [req])
    end.
Proof.
  intros Hopen params' req. unfold BooruRepository._make_request.
  rewrite Hopen. cbn [negb]. unfold try_except, session_get. fold params' req.
  by destruct (upstream net (sent net) req).
Qed.

(** What [BooruRepository.get_posts] does on an open session: the primary
    request only. *)
Lemma repository_get_posts_run (self : BooruRepository.t)
    (criteria : PostSearchCriteria.t) (net : Net) :
  BooruRepository.session self = true ->
  let primary :=
    posts_request (BooruRepository.api_key self) (BooruRepository.user_id self)
      (Z.min (PostSearchCriteria.limit criteria) 100)
      (PostSearchCriteria.page criteria) (PostSearchCriteria.tags criteria)
      (PostSearchCriteria.change_id criteria)
      (PostSearchCriteria.post_id criteria) in
  BooruRepository.get_posts self criteria net
  = match upstream net (sent net) primary with
    | Response body =>
        (Ok (normalize_posts body), after net [primary])
    | Fails e =>
        (Raise (BooruRepository.translate (Aiohttp e)), after net [primary])
    end.
Proof.
  intros Hopen primary. unfold BooruRepository.get_posts, try_except, bind.
  rewrite repository_make_request_run by done.
  match goal with |- context [upstream net (sent net) ?r] =>
    replace r with primary end.
  - destruct (upstream net (sent net) primary) as [body|e]; [reflexivity|].
    unfold BooruRepository.reraise. by rewrite translate_is_repository.
  - subst primary. destruct criteria as [tags limit page post_id change_id].
    cbn [PostSearchCriteria.tags PostSearchCriteria.limit
         PostSearchCriteria.page PostSearchCriteria.post_id
         PostSearchCriteria.change_id].
    split_repository self; destruct (str_truthy tags) eqn:Htags;
      destruct change_id, post_id;
      unfold posts_request, str_param, BooruRepository._build_auth_params,
        auth_query;
      cbn [BooruRepository.api_key BooruRepository.user_id];
      rewrite ?Htags; try rewrite Heqb; try rewrite Heqb0; reflexivity.
Qed.

Lemma service_search_tags_run (self : BooruService.t)
    (pattern name : option string) (limit : Z) (net : Net) :
  BooruRepository.session self = true ->
  let req :=
    tags_request (BooruRepository.api_key self) (BooruRepository.user_id self)
      limit (default "" name) (default "" pattern) in
  BooruService.search_tags self pattern name limit net
  = match upstream net (sent net) req with
    | Response body => (listed_tags body, after net [req])
    | Fails e =>
        (Raise (BooruRepository.translate (Aiohttp e)), after net [req])
    end.
Proof.
  intros Hopen req.
  unfold BooruService.search_tags, BooruRepository.get_tags, try_except, bind.
  rewrite repository_make_request_run by done.
  match goal with |- context [upstream net (sent net) ?r] =>
    replace r with req end.
  - destruct (upstream net (sent net) req) as [body|e].
    + unfold ret, lift, listed_tags.
      by destruct (py_len (BooruService.get_listed "tag"
                             (normalize_tags body))).
    + unfold BooruRepository.reraise. by rewrite translate_is_repository.
  - subst req.
    cbn [TagSearchCriteria.limit TagSearchCriteria.after_id
         TagSearchCriteria.name TagSearchCriteria.names
         TagSearchCriteria.pattern TagSearchCriteria.order
         TagSearchCriteria.orderby].
    split_repository self;
      destruct name as [name|]; destruct pattern as [pattern|];
      cbn [default from_option id];
      try destruct (str_truthy name) eqn:Hname;
      try destruct (str_truthy pattern) eqn:Hpattern;
      unfold tags_request, str_param, BooruRepository._build_auth_params,
        auth_query;
      cbn [BooruRepository.api_key BooruRepository.user_id str_truthy];
      rewrite ?Hname, ?Hpattern; try rewrite Heqb; try rewrite Heqb0;
      reflexivity.
Qed.

(** ** Post search: fallback and limit (§4.2) *)

(** C1 as stated fails on the repository path: with the primary format
    refused by a connection error and the alternate format ready to serve
    three posts, [BooruRepository.get_posts] sends the primary request only
    and raises [RepositoryConnectionException], which
    [BooruService.search_posts] lets through. *)
Lemma C1_repository_propagates :
  let net := {| upstream := fallback_only_upstream; sent := [] |} in
  let criteria := PostSearchCriteria.Build "cat" 20 0 None None in
  BooruRepository.get_posts anonymous_repository criteria net
  = (Raise RepositoryConnectionException,
     after net [posts_request None None 20 0 "cat" None None])
  /\ (BooruService.search_posts anonymous_repository "cat" 20 0 net).1
     = Raise RepositoryConnectionException.
Proof. split; reflexivity. Qed.

(** C1, amended. For every post search through
    [BooruAPIWrapper.get_posts] on an open session whose primary-format
    request fails, exactly one more request is sent, in the alternate
    format ([page=post], [s=list]) with the same [limit], [pid], [tags]
    and [id]; when it succeeds its body is returned as received (and
    [{'post': []}] for a falsy body), so a body [{'post': [N posts], ...}]
    gives back those N posts; when it fails too the result is
    [{'post': []}]; no exception reaches the caller. *)
Theorem C1_wrapper_fallback (self : BooruAPIWrapper.t) (limit pid : Z)
    (tags : string) (cid post_id : option Z) (net : Net) (e : aiohttp_error) :
  BooruAPIWrapper.session self = true ->
  let key := BooruAPIWrapper.api_key self in
  let uid := BooruAPIWrapper.user_id self in
  let primary := posts_request key uid (Z.min limit 100) pid tags cid post_id in
  let fallback :=
    fallback_posts_request key uid (Z.min limit 100) pid tags post_id in
  upstream net (sent net) primary = Fails e ->
  let out := BooruAPIWrapper.get_posts self limit pid tags cid post_id net in
  out.2 = after net [primary; fallback]
  /\ (forall body,
        upstream net (sent net ++ [primary]) fallback = Response body ->
        out.1 = Ok (if truthy body then body else JDict no_posts))
  /\ (forall posts rest,
        upstream net (sent net ++ [primary]) fallback
        = Response (JDict (("post", JList posts) :: rest)) ->
        out.1 = Ok (JDict (("post", JList posts) :: rest)))
  /\ (forall e',
        upstream net (sent net ++ [primary]) fallback = Fails e' ->
        out.1 = Ok (JDict no_posts)).
Proof.
  intros Hopen key uid primary fallback Hfail out. subst out.
  rewrite wrapper_get_posts_run by done. fold key uid primary fallback.
  rewrite Hfail.
  destruct (upstream net (sent net ++ [primary]) fallback) as [body|e2];
    cbn [fst snd]; repeat split; try done.
  - by intros ? [= ->].
  - by intros ?? [= ->].
Qed.

Lemma C1_wrapper_fallback_witness :
  let net := {| upstream := fallback_only_upstream; sent := [] |} in
  BooruAPIWrapper.get_posts anonymous_wrapper 20 0 "cat" None None net
  = (Ok (JDict [("post", JList three_posts)]),
     after net [posts_request None None 20 0 "cat" None None;
                fallback_posts_request None None 20 0 "cat" None]).
Proof.
  intros net.
  destruct (C1_wrapper_fallback anonymous_wrapper 20 0 "cat" None None net
              ClientConnectionError eq_refl eq_refl) as (Hsent & _ & Hposts & _).
  specialize (Hposts three_posts [] eq_refl).
  rewrite (surjective_pairing (BooruAPIWrapper.get_posts _ _ _ _ _ _ _)).
  rewrite Hsent, Hposts. reflexivity.
Defined.

Lemma posts_request_limit (key uid : option string) (limit pid : Z)
    (tags : string) (cid post_id : option Z) :
  dict_get "limit" (params (posts_request key uid limit pid tags cid post_id))
  = Some (PInt limit).
Proof. reflexivity. Qed.

Lemma fallback_posts_request_limit (key uid : option string) (limit pid : Z)
    (tags : string) (post_id : option Z) :
  dict_get "limit" (params (fallback_posts_request key uid limit pid tags post_id))
  = Some (PInt limit).
Proof. reflexivity. Qed.

(** C5 as stated fails: a requested limit of 0 is sent as [limit=0] and
    a requested limit of -5 as [limit=-5], by the wrapper and by the
    repository. *)
Lemma C5_limit_not_clamped_below :
  let net := {| upstream := empty_upstream; sent := [] |} in
  limit_of <$>
    sent (BooruAPIWrapper.get_posts anonymous_wrapper 0 0 "cat" None None net).2
  = [Some (PInt 0)]
  /\ limit_of <$>
       sent (BooruAPIWrapper.get_posts anonymous_wrapper (-5) 0 "cat" None None net).2
     = [Some (PInt (-5))]
  /\ limit_of <$>
       sent (BooruRepository.get_posts anonymous_repository
               (PostSearchCriteria.Build "cat" 0 0 None None) net).2
     = [Some (PInt 0)].
Proof. repeat split; reflexivity. Qed.

(** C5, amended. For every post search on an open session and every
    requested limit, each request sent upstream carries
    [limit = min(requested, 100)]: never more than 100, equal to the
    requested value when that is at most 100 (zero and negative values
    included), and inside [1, 100] exactly when the requested limit is at
    least 1. *)
Theorem C5_limit_sent (limit pid : Z) (tags : string) (cid post_id : option Z)
    (net : Net) :
  (forall self : BooruAPIWrapper.t,
     BooruAPIWrapper.session self = true ->
     exists reqs,
       sent (BooruAPIWrapper.get_posts self limit pid tags cid post_id net).2
       = sent net ++ reqs
       /\ reqs <> []
       /\ forall req, req ∈ reqs -> limit_of req = Some (PInt (Z.min limit 100)))
  /\ (forall self : BooruRepository.t,
        BooruRepository.session self = true ->
        exists req,
          sent (BooruRepository.get_posts self
                  (PostSearchCriteria.Build tags limit pid post_id cid) net).2
          = sent net ++ [req]
          /\ limit_of req = Some (PInt (Z.min limit 100)))
  /\ Z.min limit 100 <= 100
  /\ (limit <= 100 -> Z.min limit 100 = limit)
  /\ (1 <= Z.min limit 100 <-> 1 <= limit).
Proof.
  split; [|split; [|lia]].
  - intros self Hopen. rewrite wrapper_get_posts_run by done.
    set (primary := posts_request _ _ _ _ _ _ _).
    set (fallback := fallback_posts_request _ _ _ _ _ _).
    destruct (upstream net (sent net) primary).
    + exists [primary]. split; [done|]. split; [done|].
      intros req ->%list_elem_of_singleton. apply posts_request_limit.
    + exists [primary; fallback].
      split; [by destruct (upstream net (sent net ++ [primary]) fallback)|].
      split; [done|].
      intros req [-> | ->%list_elem_of_singleton]%elem_of_cons.
      * apply posts_request_limit.
      * apply fallback_posts_request_limit.
  - intros self Hopen. rewrite repository_get_posts_run by done.
    cbn [PostSearchCriteria.tags PostSearchCriteria.limit
         PostSearchCriteria.page PostSearchCriteria.post_id
         PostSearchCriteria.change_id].
    set (primary := posts_request _ _ _ _ _ _ _).
    exists primary. split; [by destruct (upstream net (sent net) primary)|].
    apply posts_request_limit.
Qed.

Lemma C5_limit_sent_witness :
  let net := {| upstream := fallback_only_upstream; sent := [] |} in
  exists reqs,
    sent (BooruAPIWrapper.get_posts anonymous_wrapper 500 0 "cat" None None net).2
    = [] ++ reqs
    /\ reqs <> []
    /\ forall req, req ∈ reqs -> limit_of req = Some (PInt 100).
Proof.
  intros net.
  exact (proj1 (C5_limit_sent 500 0 "cat" None None net)
           anonymous_wrapper eq_refl).
Defined.

(** ** Response normalization (§4.2) *)

(** C3 as stated fails: the normalization of [get_posts] hands on a
    single mapping found under [post] as it is. For the response
    [{"post": {"id": 1}}] the repository and the wrapper of src/main.py
    both return [{"post": {"id": 1}}], not [{"post": [{"id": 1}]}]. *)
Lemma C3_single_post_not_normalized :
  let net := {| upstream := single_post_upstream; sent := [] |} in
  let criteria :=
    {| PostSearchCriteria.tags := "cat";
       PostSearchCriteria.limit := 20;
       PostSearchCriteria.page := 0;
       PostSearchCriteria.post_id := None;
       PostSearchCriteria.change_id := None |} in
  normalize_posts (JDict [("post", JDict [("id", JNum 1)])])
  = [("post", JDict [("id", JNum 1)])]
  /\ (BooruRepository.get_posts anonymous_repository criteria net).1
     = Ok [("post", JDict [("id", JNum 1)])]
  /\ (BooruRepository.get_posts anonymous_repository criteria net).1
     <> Ok [("post", JList [JDict [("id", JNum 1)]])]
  /\ (BooruAPIWrapper.get_posts anonymous_wrapper 20 0 "cat" None None net).1
     = Ok (JDict [("post", JDict [("id", JNum 1)])]).
Proof. by repeat split. Qed.

(** C3, amended. For every post-search response that is a mapping whose
    value under [post] is itself a single mapping, the normalization of
    [get_posts] leaves the response as it is, the single mapping still
    unwrapped under [post]; the wrapping is done afterwards by
    [search_posts], which hands on that mapping as a one-element list of
    posts: from the response [{"post": {"id": 1}}] the repository returns
    [{"post": {"id": 1}}] and the service the posts [[{"id": 1}]]. *)
Theorem C3_single_post_wrapped (self : BooruService.t) (tags : string)
    (limit page : Z) (net : Net) (d post : list (string * json)) :
  BooruRepository.session self = true ->
  upstream net (sent net)
    (posts_request (BooruRepository.api_key self) (BooruRepository.user_id self)
       (Z.min limit 100) page tags None None)
  = Response (JDict d) ->
  dict_get "post" d = Some (JDict post) ->
  normalize_posts (JDict d) = d
  /\ (BooruRepository.get_posts self
        {| PostSearchCriteria.tags := tags;
           PostSearchCriteria.limit := limit;
           PostSearchCriteria.page := page;
           PostSearchCriteria.post_id := None;
           PostSearchCriteria.change_id := None |} net).1
     = Ok d
  /\ (BooruService.search_posts self tags limit page net).1
     = Ok (JList [JDict post]).
Proof.
  intros Hopen Hresponse Hpost.
  assert (Hnormal : normalize_posts (JDict d) = d).
  { unfold normalize_posts, dict_mem. by rewrite Hpost. }
  split; [exact Hnormal|].
  unfold BooruService.search_posts, bind.
  rewrite repository_get_posts_run by done.
  cbn [PostSearchCriteria.tags PostSearchCriteria.limit
         PostSearchCriteria.page PostSearchCriteria.post_id
         PostSearchCriteria.change_id].
  rewrite Hresponse, Hnormal. split; [reflexivity|].
  unfold ret, BooruService.get_listed. rewrite Hpost. reflexivity.
Qed.

Lemma C3_single_post_wrapped_witness :
  (BooruService.search_posts anonymous_repository "cat" 20 0
     {| upstream := single_post_upstream; sent := [] |}).1
  = Ok (JList [JDict [("id", JNum 1)]]).
Proof.
  apply (C3_single_post_wrapped anonymous_repository "cat" 20 0
           {| upstream := single_post_upstream; sent := [] |}
           [("post", JDict [("id", JNum 1)])] [("id", JNum 1)]);
    reflexivity.
Defined.

(** ** Tag lookup (§4.3) *)



(** ** Preferences (§4.5) *)

Lemma get_user_settings_run (self : UserRepository.t) (user_id : Z) :
  UserRepository.get_user_settings user_id self
  = (Ok (settings_of self user_id), self).
Proof.
  unfold UserRepository.get_user_settings, settings_of.
  by destruct (UserRepository.files self !! user_id) as [[]|].
Qed.

Lemma save_user_settings_run (self : UserRepository.t) (user_id : Z)
    (settings : UserSettings) :
  UserRepository.writable self = true ->
  exists self',
    UserRepository.save_user_settings user_id settings self = (Ok tt, self')
    /\ UserRepository.writable self' = true
    /\ settings_of self' user_id = settings
    /\ forall other, other <> user_id ->
         settings_of self' other = settings_of self other.
Proof.
  intros Hw. unfold UserRepository.save_user_settings. rewrite Hw.
  eexists. split; [reflexivity|]. split; [done|]. unfold settings_of. cbn.
  split; [by rewrite lookup_insert_eq|].
  intros other Hother. by rewrite lookup_insert_ne.
Qed.

Lemma save_user_settings_fails (self : UserRepository.t) (user_id : Z)
    (settings : UserSettings) :
  UserRepository.writable self = false ->
  UserRepository.save_user_settings user_id settings self
  = (Raise RepositoryDataException, self).
Proof. intros Hw. unfold UserRepository.save_user_settings. by rewrite Hw. Qed.

Lemma dict_get_set_eq {V} (k : string) (v : V) (d : pydict V) :
  dict_get k (dict_set k v d) = Some v.
Proof.
  induction d as [|[k' v'] d IH]; cbn.
  - by rewrite decide_True.
  - destruct (decide (k = k')) as [->|Hne]; cbn.
    + by rewrite decide_True.
    + by rewrite decide_False.
Qed.

Lemma dict_get_set_ne {V} (k k' : string) (v : V) (d : pydict V) :
  k <> k' -> dict_get k (dict_set k' v d) = dict_get k d.
Proof.
  intros Hne. induction d as [|[k2 v2] d IH]; cbn.
  - by rewrite decide_False.
  - destruct (decide (k' = k2)) as [->|Hne2]; cbn.
    + by rewrite !decide_False.
    + destruct (decide (k = k2)); [done|]. exact IH.
Qed.

(** What [add_auto_tag] does, by cases. *)
Lemma add_auto_tag_run (self : UserRepository.t) (user_id : Z) (tag : string) :
  let tags := auto_tags (settings_of self user_id) in
  (tag ∈ tags -> UserService.add_auto_tag user_id tag self = (Ok false, self))
  /\ (tag ∉ tags -> UserRepository.writable self = false ->
      UserService.add_auto_tag user_id tag self
      = (Raise RepositoryDataException, self))
  /\ (tag ∉ tags -> UserRepository.writable self = true ->
      exists self',
        UserService.add_auto_tag user_id tag self = (Ok true, self')
        /\ UserRepository.writable self' = true
        /\ auto_tags (settings_of self' user_id) = tags ++ [tag]
        /\ toggle_rules (settings_of self' user_id)
           = toggle_rules (settings_of self user_id)
        /\ forall other, other <> user_id ->
             settings_of self' other = settings_of self other).
Proof.
  intros tags. unfold UserService.add_auto_tag, UserService.get_settings,
    UserService.save_settings, bind.
  rewrite get_user_settings_run. fold tags. repeat split.
  - intros Hin. by rewrite bool_decide_eq_true_2.
  - intros Hnotin Hw. rewrite bool_decide_eq_false_2 by done.
    by rewrite save_user_settings_fails.
  - intros Hnotin Hw. rewrite bool_decide_eq_false_2 by done.
    destruct (save_user_settings_run self user_id
                {| auto_tags := tags ++ [tag];
                   toggle_rules := toggle_rules (settings_of self user_id) |} Hw)
      as (self' & -> & Hw' & Hset & Hother).
    exists self'. split; [reflexivity|]. rewrite Hset. done.
Qed.

Lemma occurs_never (tag : string) (l : list string) :
  tag ∉ l -> filter (eq tag) l = [].
Proof.
  induction l as [|x l IH]; [done|]. intros Hnotin.
  rewrite filter_cons_False.
  - apply IH. intros ?. apply Hnotin. by right.
  - intros <-. apply Hnotin. by left.
Qed.

Lemma occurs_once (tag : string) (l : list string) :
  NoDup l -> tag ∈ l -> length (filter (eq tag) l) = 1%nat.
Proof.
  intros Hl. induction Hl as [|x l Hx Hl IH]; [by intros ?%elem_of_nil|].
  intros [->|Hin]%elem_of_cons.
  - rewrite filter_cons_True by done. by rewrite occurs_never.
  - rewrite filter_cons_False; [by apply IH|]. by intros <-.
Qed.

Lemma bind_ret_snd {S A B} (m : St S A) (b : B) (s : S) :
  (bind m (fun _ => ret b) s).2 = (m s).2.
Proof. unfold bind, ret. by destruct (m s) as [[a|e] s']. Qed.

Lemma list_remove_sublist (x : string) (l : list string) :
  list_remove x l `sublist_of` l.
Proof.
  induction l as [|y l IH]; [done|]. cbn.
  destruct (decide (x = y)); [by apply sublist_cons | by apply sublist_skip].
Qed.

Lemma save_no_duplicates (self : UserRepository.t) (user_id : Z)
    (settings : UserSettings) :
  no_duplicates self -> NoDup (auto_tags settings) ->
  no_duplicates (UserRepository.save_user_settings user_id settings self).2.
Proof.
  intros Hinv Hnew. destruct (UserRepository.writable self) eqn:Hw.
  - destruct (save_user_settings_run self user_id settings Hw)
      as (self' & -> & _ & Hset & Hother).
    intros u. cbn [snd]. destruct (decide (u = user_id)) as [->|Hne].
    + by rewrite Hset.
    + rewrite Hother by done. apply Hinv.
  - by rewrite save_user_settings_fails.
Qed.

Lemma delete_no_duplicates (self : UserRepository.t) (user_id : Z) :
  no_duplicates self ->
  no_duplicates (UserRepository.delete_user_settings user_id self).2.
Proof.
  intros Hinv. unfold UserRepository.delete_user_settings.
  destruct (UserRepository.files self !! user_id) as [file|]; [|done].
  destruct (UserRepository.writable self); [|done].
  intros u. cbn [snd]. specialize (Hinv u). unfold settings_of in *. cbn.
  destruct (decide (u = user_id)) as [->|Hne].
  - rewrite lookup_delete_eq. apply NoDup_nil_2.
  - by rewrite lookup_delete_ne.
Qed.

(** Every mutating call of the service keeps every user's auto-tags free
    of duplicates. *)
Lemma run_command_no_duplicates (c : command) (self : UserRepository.t) :
  no_duplicates self -> no_duplicates (run_command c self).
Proof.
  intros Hinv.
  destruct c as [u tag|u tag|u i|u|u rule|u rule enabled|u|u|u]; cbn;
    unfold UserService.add_auto_tag, UserService.remove_auto_tag,
      UserService.remove_auto_tag_by_index, UserService.clear_auto_tags,
      UserService.toggle_rule, UserService.set_rule, UserService.clear_rules,
      UserService.reset_user, UserService.delete_user,
      UserService.get_settings, UserService.save_settings;
    try (unfold bind at 1; rewrite get_user_settings_run).
  - case_bool_decide as Hin; [done|]. rewrite bind_ret_snd.
    apply save_no_duplicates; [done|]. cbn. apply NoDup_app.
    split; [apply Hinv|]. split; [|apply NoDup_singleton].
    by intros x Hx ->%list_elem_of_singleton.
  - case_bool_decide as Hin; [|done]. cbn [negb]. rewrite bind_ret_snd.
    apply save_no_duplicates; [done|]. cbn.
    eapply sublist_NoDup; [apply Hinv | apply list_remove_sublist].
  - destruct (_ || _); [done|]. rewrite bind_ret_snd.
    apply save_no_duplicates; [done|]. cbn.
    eapply sublist_NoDup; [apply Hinv | apply sublist_delete].
  - rewrite bind_ret_snd. apply save_no_duplicates; [done|]. apply NoDup_nil_2.
  - rewrite bind_ret_snd. apply save_no_duplicates; [done|]. apply Hinv.
  - apply save_no_duplicates; [done|]. apply Hinv.
  - rewrite bind_ret_snd. apply save_no_duplicates; [done|]. apply Hinv.
  - apply save_no_duplicates; [done|]. apply NoDup_nil_2.
  - by apply delete_no_duplicates.
Qed.

(** From a store without files, no sequence of calls ever puts a tag
    twice in anybody's auto-tags. *)
Lemma auto_tags_never_duplicated (cs : list command) (writable : bool)
    (user_id : Z) :
  NoDup (auto_tags
           (settings_of
              (run_commands cs
                 {| UserRepository.files := ∅;
                    UserRepository.writable := writable |})
              user_id)).
Proof.
  assert (Hgen : forall self, no_duplicates self ->
    no_duplicates (run_commands cs self)).
  { induction cs as [|c cs IH]; intros self Hinv; [done|]. cbn.
    apply IH. by apply run_command_no_duplicates. }
  apply Hgen. intros u. apply NoDup_nil_2.
Qed.

(** C9. If the tag is already among the user's auto-tags,
    [add_auto_tag] returns [False] and leaves the store unchanged; hence
    auto-tag lists without duplicates stay without duplicates, for every
    user, no sequence of service calls from an empty store ever yields a
    duplicate, and after two successive calls with the same tag on a
    writable store the second call has returned [False] and the tag occurs
    exactly once. *)
Theorem C9_add_auto_tag (self : UserRepository.t) (user_id : Z) (tag : string) :
  let out := UserService.add_auto_tag user_id tag self in
  let out2 := UserService.add_auto_tag user_id tag out.2 in
  (tag ∈ auto_tags (settings_of self user_id) -> out = (Ok false, self))
  /\ (no_duplicates self -> no_duplicates out.2)
  /\ (forall (cs : list command) (writable : bool),
        no_duplicates
          (run_commands cs
             {| UserRepository.files := ∅;
                UserRepository.writable := writable |}))
  /\ (NoDup (auto_tags (settings_of self user_id)) ->
      UserRepository.writable self = true ->
      out2 = (Ok false, out.2)
      /\ length (filter (eq tag) (auto_tags (settings_of out2.2 user_id)))
         = 1%nat).
Proof.
  intros out out2.
  destruct (add_auto_tag_run self user_id tag) as (Hin & Hfail & Hadd).
  pose proof (occurs_once tag) as Hcount.
  split; [exact Hin|]. split; [|split].
  - apply (run_command_no_duplicates (AddAutoTag user_id tag)).
  - intros cs writable u. apply auto_tags_never_duplicated.
  - intros Hnodup Hw.
    destruct (decide (tag ∈ auto_tags (settings_of self user_id))) as [Hi|Hn].
    + subst out2 out. rewrite !(Hin Hi). cbn [snd]. rewrite (Hin Hi).
      split; [done|]. cbn [snd]. by apply Hcount.
    + destruct (Hadd Hn Hw) as (self' & Hrun & Hw' & Htags & _ & _).
      assert (Hi' : tag ∈ auto_tags (settings_of self' user_id)).
      { rewrite Htags. apply elem_of_app. right. by apply list_elem_of_singleton. }
      destruct (add_auto_tag_run self' user_id tag) as (Hin' & _ & _).
      subst out2 out. rewrite Hrun. cbn [snd]. rewrite (Hin' Hi').
      split; [done|]. cbn [snd]. apply Hcount; [|done].
      rewrite Htags. apply NoDup_app. split; [done|].
      split; [|apply NoDup_singleton].
      intros x Hx ->%list_elem_of_singleton. done.
Qed.

Lemma C9_add_auto_tag_witness :
  let stored :=
    {| UserRepository.files :=
         {[ 42 := UserRepository.Pickled
                    {| auto_tags := ["rating:safe"]; toggle_rules := [] |} ]};
       UserRepository.writable := true |} in
  let out := UserService.add_auto_tag 42 "rating:safe" fresh_store in
  let out2 := UserService.add_auto_tag 42 "rating:safe" out.2 in
  UserService.add_auto_tag 42 "rating:safe" stored = (Ok false, stored)
  /\ NoDup (auto_tags (settings_of out.2 42))
  /\ out2 = (Ok false, out.2)
  /\ length (filter (eq "rating:safe") (auto_tags (settings_of out2.2 42)))
     = 1%nat.
Proof.
  intros stored out out2.
  destruct (C9_add_auto_tag stored 42 "rating:safe") as (Hpresent & _).
  destruct (C9_add_auto_tag fresh_store 42 "rating:safe")
    as (_ & Hnodup & _ & Htwice).
  split; [apply Hpresent; by left|].
  split; [apply Hnodup; intros u; apply NoDup_nil_2|].
  apply Htwice; [apply NoDup_nil_2 | reflexivity].
Defined.

Lemma toggle_rule_run (self : UserRepository.t) (user_id : Z) (rule : string) :
  UserRepository.writable self = true ->
  exists self',
    UserService.toggle_rule user_id rule self
    = (Ok (negb (rule_enabled self user_id rule)), self')
    /\ UserRepository.writable self' = true
    /\ dict_get rule (toggle_rules (settings_of self' user_id))
       = Some (negb (rule_enabled self user_id rule))
    /\ auto_tags (settings_of self' user_id)
       = auto_tags (settings_of self user_id).
Proof.
  intros Hw. unfold UserService.toggle_rule, UserService.get_settings,
    UserService.save_settings, bind.
  rewrite get_user_settings_run.
  set (current := match dict_get rule _ with Some b => b | None => false end).
  assert (Hcurrent : current = rule_enabled self user_id rule).
  { subst current. unfold rule_enabled.
    by destruct (dict_get rule (toggle_rules (settings_of self user_id))). }
  destruct (save_user_settings_run self user_id
              {| auto_tags := auto_tags (settings_of self user_id);
                 toggle_rules :=
                   dict_set rule (negb current)
                     (toggle_rules (settings_of self user_id)) |} Hw)
    as (self' & -> & Hw' & Hset & _).
  exists self'. rewrite Hset, <- Hcurrent. cbn [toggle_rules auto_tags].
  by rewrite dict_get_set_eq.
Qed.

(** C10. On a writable store, [toggle_rule] returns the rule's new
    enabled state, which is the negation of the old one; a rule absent
    from [toggle_rules] counts as disabled, so its first toggle enables it
    and returns [True]; toggling the same rule twice in succession brings
    the rule back to its original enabled state. *)
Theorem C10_toggle_rule (self : UserRepository.t) (user_id : Z) (rule : string) :
  UserRepository.writable self = true ->
  let out1 := UserService.toggle_rule user_id rule self in
  let out2 := UserService.toggle_rule user_id rule out1.2 in
  out1.1 = Ok (rule_enabled out1.2 user_id rule)
  /\ rule_enabled out1.2 user_id rule = negb (rule_enabled self user_id rule)
  /\ (dict_get rule (toggle_rules (settings_of self user_id)) = None ->
      out1.1 = Ok true /\ rule_enabled out1.2 user_id rule = true)
  /\ out2.1 = Ok (rule_enabled self user_id rule)
  /\ rule_enabled out2.2 user_id rule = rule_enabled self user_id rule.
Proof.
  intros Hw out1 out2.
  destruct (toggle_rule_run self user_id rule Hw)
    as (self1 & Hrun1 & Hw1 & Hget1 & _).
  destruct (toggle_rule_run self1 user_id rule Hw1)
    as (self2 & Hrun2 & _ & Hget2 & _).
  assert (Hen1 : rule_enabled self1 user_id rule
                 = negb (rule_enabled self user_id rule))
    by (unfold rule_enabled at 1; by rewrite Hget1).
  assert (Hen2 : rule_enabled self2 user_id rule = rule_enabled self user_id rule).
  { unfold rule_enabled at 1. rewrite Hget2, Hen1. cbn. apply negb_involutive. }
  subst out2 out1. rewrite Hrun1. cbn [fst snd]. rewrite Hrun2. cbn [fst snd].
  rewrite Hen1, negb_involutive.
  split; [done|]. split; [done|]. split; [|by rewrite Hen2].
  intros Habsent. unfold rule_enabled. by rewrite Habsent.
Qed.

Lemma C10_toggle_rule_witness :
  let out1 := UserService.toggle_rule 42 "rating:safe" fresh_store in
  let out2 := UserService.toggle_rule 42 "rating:safe" out1.2 in
  out1.1 = Ok true
  /\ rule_enabled out1.2 42 "rating:safe" = true
  /\ out2.1 = Ok false
  /\ rule_enabled out2.2 42 "rating:safe" = false.
Proof.
  intros out1 out2.
  destruct (C10_toggle_rule fresh_store 42 "rating:safe" eq_refl)
    as (_ & _ & Hfirst & Hret & Hback).
  destruct (Hfirst eq_refl) as [Hret1 Hen1].
  split; [exact Hret1|]. split; [exact Hen1|].
  split; [exact Hret | exact Hback].
Defined.

(** ** The inline code of src/main.py *)

(** On a store whose write succeeds, the toggle handler of src/main.py
    and [UserService.toggle_rule] are the same function. *)
Lemma handle_toggle_callback_service (self : UserRepository.t) (user_id : Z)
    (rule : string) :
  UserRepository.writable self = true ->
  TelbooruBot.handle_toggle_callback user_id rule self
  = UserService.toggle_rule user_id rule self.
Proof.
  intros Hw.
  unfold TelbooruBot.handle_toggle_callback, UserService.toggle_rule,
    UserService.get_settings, UserService.save_settings, bind,
    UserDataManager.load_user_settings, UserRepository.get_user_settings,
    UserDataManager.save_user_settings, UserRepository.save_user_settings.
  destruct (UserRepository.files self !! user_id) as [[settings|]|];
    by rewrite Hw.
Qed.

Lemma lstrip_length (s : string) :
  (String.length (lstrip s) <= String.length s)%nat.
Proof.
  induction s as [|c s IH]; [done|]. cbn. destruct (is_space c); cbn; lia.
Qed.

Lemma lstrip_app (s t : string) :
  s <> "" -> lstrip s = s -> lstrip (s +:+ t) = s +:+ t.
Proof.
  destruct s as [|c s]; [done|]. intros _ Hs.
  change (String c s +:+ t) with (String c (s +:+ t)).
  cbn in *. destruct (is_space c); [|done].
  pose proof (lstrip_length s) as Hlen. rewrite Hs in Hlen. cbn in Hlen. lia.
Qed.

Lemma rstrip_app (s t : string) :
  t <> "" -> rstrip t = t -> rstrip (s +:+ t) = s +:+ t.
Proof.
  intros Hne Ht. induction s as [|c s IH]; [done|].
  change (String c s +:+ t) with (String c (s +:+ t)).
  cbn. rewrite IH. by destruct s, t.
Qed.

Lemma app_nonempty_l (s t : string) : s <> "" -> s +:+ t <> "".
Proof. by destruct s. Qed.

Lemma app_nonempty_r (s t : string) : t <> "" -> s +:+ t <> "".
Proof. by destruct s, t. Qed.

Lemma trimmed_app (s sep t : string) :
  trimmed s -> trimmed t -> trimmed (s +:+ sep +:+ t).
Proof.
  intros (Hs & Hls & _) (Ht & _ & Hrt). split; [by apply app_nonempty_l|].
  split; [by apply lstrip_app|].
  rewrite <- string_app_assoc. by apply rstrip_app.
Qed.

Lemma trimmed_join (l : list string) :
  l <> [] -> Forall trimmed l -> trimmed (join " " l).
Proof.
  intros Hne Hl. induction Hl as [|x l Hx Hl IH]; [done|].
  destruct l as [|y l]; [exact Hx|].
  change (join " " (x :: y :: l)) with (x +:+ " " +:+ join " " (y :: l)).
  apply trimmed_app; [done|]. by apply IH.
Qed.

Lemma trimmed_strip (s : string) : s = "" \/ trimmed s -> strip s = s.
Proof.
  intros [->|(_ & Hl & Hr)]; [done|]. unfold strip. by rewrite Hl, Hr.
Qed.

Lemma trimmed_truthy (s : string) : trimmed s -> str_truthy s = true.
Proof. intros (Hs & _). by destruct s. Qed.

(** On the inputs the handlers of src/main.py let through (a stripped
    query, stripped non-empty auto-tags and rules) the inline composition
    of [perform_batch_search] needs no final trim: it returns what
    [_apply_user_preferences] returns. *)
Lemma perform_batch_search_tags_service (tags : string) (settings : UserSettings) :
  tags = "" \/ trimmed tags ->
  Forall trimmed (auto_tags settings) ->
  Forall (fun kv => trimmed kv.1) (toggle_rules settings) ->
  TelbooruBot.perform_batch_search_tags tags settings
  = BooruService._apply_user_preferences tags settings.
Proof.
  intros Htags Hautos Hrules. rewrite apply_user_preferences_inline.
  symmetry. apply trimmed_strip.
  unfold TelbooruBot.perform_batch_search_tags.
  set (enabled := map fst (filter _ (toggle_rules settings))).
  assert (Henabled : Forall trimmed enabled).
  { subst enabled. apply Forall_fmap. apply Forall_forall.
    intros kv [_ Hkv]%list_elem_of_filter.
    by apply (proj1 (Forall_forall _ _) Hrules). }
  set (t1 := match auto_tags settings with [] => tags | _ => _ end).
  assert (Ht1 : t1 = "" \/ trimmed t1).
  { subst t1. destruct (auto_tags settings) as [|a autos] eqn:Hautos'; [done|].
    right. destruct Htags as [->|Htags].
    - by apply trimmed_join.
    - rewrite trimmed_truthy by done. apply trimmed_app; [done|].
      by apply trimmed_join. }
  destruct enabled as [|r enabled'] eqn:Hen; [done|]. right.
  destruct Ht1 as [->|Ht1].
  - by apply trimmed_join.
  - rewrite trimmed_truthy by done. apply trimmed_app; [done|].
    by apply trimmed_join.
Qed.

(** C4 as stated fails on the inline composition of
    [perform_batch_search] (src/main.py), which has no final trim: with
    the query "q", the auto-tag "a" and the enabled rule " y " it sends
    "q a  y " with its trailing space, where the described composition
    gives "q a  y". *)
Lemma C4_inline_not_trimmed :
  let settings := {| auto_tags := ["a"]; toggle_rules := [(" y ", true)] |} in
  TelbooruBot.perform_batch_search_tags "q" settings = "q a  y "
  /\ compose_spec "q" settings = "q a  y"
  /\ TelbooruBot.perform_batch_search_tags "q" settings
     <> compose_spec "q" settings.
Proof. by repeat split. Qed.

(** C4, amended. For every base query and every settings record,
    [_apply_user_preferences] returns the base query followed by the
    space-joined auto-tags (when there are any) followed by the
    space-joined enabled toggle rules in the order of the mapping, trimmed
    of leading and trailing whitespace. The inline composition of
    [perform_batch_search] builds the same text without the final trim:
    trimmed, its result is the service's, and it is the service's as it
    stands whenever the query is empty or trimmed and the auto-tags and
    rule-strings are non-empty and free of surrounding whitespace. On the
    query "q" with auto-tags a, b and rules rating:safe (on), x (off) both
    give "q a b rating:safe", and on the empty query with empty settings
    both give the empty string. *)
Theorem C4_compose :
  (forall (base_query : string) (settings : UserSettings),
     BooruService._apply_user_preferences base_query settings
     = compose_spec base_query settings
     /\ strip (TelbooruBot.perform_batch_search_tags base_query settings)
        = compose_spec base_query settings
     /\ (base_query = "" \/ trimmed base_query ->
         Forall trimmed (auto_tags settings) ->
         Forall (fun kv => trimmed kv.1) (toggle_rules settings) ->
         TelbooruBot.perform_batch_search_tags base_query settings
         = compose_spec base_query settings))
  /\ BooruService._apply_user_preferences "q"
       {| auto_tags := ["a"; "b"];
          toggle_rules := [("rating:safe", true); ("x", false)] |}
     = "q a b rating:safe"
  /\ TelbooruBot.perform_batch_search_tags "q"
       {| auto_tags := ["a"; "b"];
          toggle_rules := [("rating:safe", true); ("x", false)] |}
     = "q a b rating:safe"
  /\ BooruService._apply_user_preferences "" default_settings = ""
  /\ TelbooruBot.perform_batch_search_tags "" default_settings = "".
Proof.
  split; [|by repeat split].
  intros base_query settings.
  split; [apply apply_user_preferences_compose_spec|].
  split.
  - rewrite <- apply_user_preferences_inline.
    apply apply_user_preferences_compose_spec.
  - intros Hquery Hautos Hrules.
    rewrite perform_batch_search_tags_service by done.
    apply apply_user_preferences_compose_spec.
Qed.

Lemma C4_compose_witness :
  TelbooruBot.perform_batch_search_tags "q"
    {| auto_tags := ["a"; "b"];
       toggle_rules := [("rating:safe", true); ("x", false)] |}
  = compose_spec "q"
      {| auto_tags := ["a"; "b"];
         toggle_rules := [("rating:safe", true); ("x", false)] |}.
Proof.
  assert (Htrimmed : forall c s,
    is_space c = false -> rstrip (String c s) = String c s ->
    trimmed (String c s)).
  { intros c s Hc Hr. split; [done|]. split; [|done]. cbn. by rewrite Hc. }
  destruct C4_compose as [Hall _].
  destruct (Hall "q" {| auto_tags := ["a"; "b"];
                        toggle_rules := [("rating:safe", true); ("x", false)] |})
    as (_ & _ & Hinline).
  apply Hinline.
  - right. by apply Htrimmed.
  - repeat constructor; by apply Htrimmed.
  - repeat constructor; by apply Htrimmed.
Defined.







(** * Further properties of the code *)

(** ** The clients *)

(** X1. [BooruAPIWrapper.get_posts] never raises: whatever the session,
    the arguments and the upstream, it returns a value; on an open session
    it sends one or two requests, on a closed one it sends none and
    returns [{'post': []}]. *)
Theorem wrapper_get_posts_never_raises (self : BooruAPIWrapper.t)
    (limit pid : Z) (tags : string) (cid post_id : option Z) (net : Net) :
  exists value reqs,
    BooruAPIWrapper.get_posts self limit pid tags cid post_id net
    = (Ok value, after net reqs)
    /\ if BooruAPIWrapper.session self
       then (1 <= length reqs <= 2)%nat
       else reqs = [] /\ value = JDict no_posts.
Proof.
  destruct (BooruAPIWrapper.session self) eqn:Hopen.
  - rewrite wrapper_get_posts_run by done.
    set (primary := posts_request _ _ _ _ _ _ _).
    set (fallback := fallback_posts_request _ _ _ _ _ _).
    destruct (upstream net (sent net) primary) as [body|e].
    + exists (JDict (normalize_posts body)), [primary]. split; [done|cbn; lia].
    + destruct (upstream net (sent net ++ [primary]) fallback) as [body|e'].
      * eexists _, [primary; fallback]. split; [done|cbn; lia].
      * eexists _, [primary; fallback]. split; [done|cbn; lia].
  - exists (JDict no_posts), []. split; [|done].
    unfold BooruAPIWrapper.get_posts, BooruAPIWrapper._make_request, after.
    rewrite Hopen. cbn. rewrite app_nil_r. by destruct net.
Qed.

(** X2. [BooruAPIWrapper.get_tags] never raises: on an open session it
    sends exactly one request and answers [{'tag': []}] when that request
    fails; on a closed session it sends nothing and answers
    [{'tag': []}]. *)
Theorem wrapper_get_tags_never_raises (self : BooruAPIWrapper.t) (limit : Z)
    (after_id : option Z) (name names tags : option string)
    (order orderby : string) (net : Net) :
  exists value reqs,
    BooruAPIWrapper.get_tags self limit after_id name names tags order orderby
      net
    = (Ok value, after net reqs)
    /\ if BooruAPIWrapper.session self
       then exists req,
              reqs = [req]
              /\ match upstream net (sent net) req with
                 | Response body => value = normalize_tags body
                 | Fails _ => value = no_tags
                 end
       else reqs = [] /\ value = no_tags.
Proof.
  unfold BooruAPIWrapper.get_tags, BooruAPIWrapper._make_request.
  destruct (BooruAPIWrapper.session self) eqn:Hopen; cbn [negb].
  - unfold try_except, bind, session_get, ret.
    match goal with |- context [upstream net (sent net) ?r] => set (req := r) end.
    destruct (upstream net (sent net) req) as [body|e] eqn:Hreq.
    + exists (normalize_tags body), [req]. split; [done|].
      exists req. by rewrite Hreq.
    + exists no_tags, [req]. split; [done|]. exists req. by rewrite Hreq.
  - exists no_tags, []. split; [|done]. unfold after. cbn.
    rewrite app_nil_r. by destruct net.
Qed.

(** X3. [BooruRepository.get_posts] sends nothing on a closed session and
    raises [RepositoryException]; on an open session it sends exactly the
    primary request, and a failure of that request comes back as
    [RepositoryConnectionException] for a connection error,
    [RepositoryDataException] for an HTTP error status and
    [RepositoryException] for anything else, never as a result. *)
Theorem repository_get_posts_failures (self : BooruRepository.t)
    (criteria : PostSearchCriteria.t) (net : Net) :
  let primary :=
    posts_request (BooruRepository.api_key self) (BooruRepository.user_id self)
      (Z.min (PostSearchCriteria.limit criteria) 100)
      (PostSearchCriteria.page criteria) (PostSearchCriteria.tags criteria)
      (PostSearchCriteria.change_id criteria)
      (PostSearchCriteria.post_id criteria) in
  BooruRepository.get_posts self criteria net
  = if BooruRepository.session self then
      match upstream net (sent net) primary with
      | Response body => (Ok (normalize_posts body), after net [primary])
      | Fails e => (Raise (taxonomy e), after net [primary])
      end
    else (Raise RepositoryException, net).
Proof.
  intros primary. destruct (BooruRepository.session self) eqn:Hopen.
  - rewrite repository_get_posts_run by done. fold primary.
    by destruct (upstream net (sent net) primary) as [body|[]].
  - unfold BooruRepository.get_posts, BooruRepository._make_request.
    by rewrite Hopen.
Qed.

Lemma dict_mem_set {V} (k k' : string) (v : V) (d : pydict V) :
  dict_mem k (dict_set k' v d) = bool_decide (k = k') || dict_mem k d.
Proof.
  unfold dict_mem. destruct (decide (k = k')) as [->|Hne].
  - by rewrite dict_get_set_eq, bool_decide_eq_true_2.
  - by rewrite dict_get_set_ne, bool_decide_eq_false_2.
Qed.

(** X4. Shape handling of post responses is idempotent, and it always
    yields a mapping with a ['post'] entry except for a mapping that has
    neither ['post'] nor ['posts']; a ['posts'] entry is copied to
    ['post'] and stays. The same holds for tags. *)
Theorem normalize_posts_idempotent (response : json) :
  normalize_posts (JDict (normalize_posts response)) = normalize_posts response
  /\ dict_mem "post" (normalize_posts response)
     = match response with
       | JDict d => dict_mem "post" d || dict_mem "posts" d
       | _ => true
       end
  /\ match response with
     | JDict d =>
         if dict_mem "post" d then normalize_posts response = d
         else dict_get "post" (normalize_posts response) = dict_get "posts" d
              /\ dict_get "posts" (normalize_posts response)
                 = dict_get "posts" d
     | _ => True
     end
  /\ normalize_tags (JDict (normalize_tags response)) = normalize_tags response
  /\ dict_mem "tag" (normalize_tags response)
     = match response with
       | JDict d => dict_mem "tag" d || dict_mem "tags" d
       | _ => true
       end.
Proof.
  destruct response as [|b|n|s|l|d]; try by repeat split.
  unfold normalize_posts, normalize_tags.
  repeat split.
  - destruct (dict_mem "post" d) eqn:Hmem; cbn [negb]; [by rewrite Hmem|].
    destruct (dict_get "posts" d) as [ps|] eqn:Hps; [|by rewrite Hmem, Hps].
    by rewrite dict_mem_set.
  - destruct (dict_mem "post" d) eqn:Hmem; cbn [negb]; [done|].
    unfold dict_mem at 2.
    destruct (dict_get "posts" d) as [ps|] eqn:Hps; [|by rewrite Hmem].
    by rewrite dict_mem_set.
  - destruct (dict_mem "post" d) eqn:Hmem; cbn [negb]; [done|].
    destruct (dict_get "posts" d) as [ps|] eqn:Hps.
    + rewrite dict_get_set_eq. by rewrite dict_get_set_ne.
    + split; [|done]. unfold dict_mem in Hmem.
      by destruct (dict_get "post" d).
  - destruct (dict_mem "tag" d) eqn:Hmem; cbn [negb]; [by rewrite Hmem|].
    destruct (dict_get "tags" d) as [ts|] eqn:Hts; [|by rewrite Hmem, Hts].
    by rewrite dict_mem_set.
  - destruct (dict_mem "tag" d) eqn:Hmem; cbn [negb]; [done|].
    unfold dict_mem at 2.
    destruct (dict_get "tags" d) as [ts|] eqn:Hts; [|by rewrite Hmem].
    by rewrite dict_mem_set.
Qed.

Lemma posts_request_credentials (key uid : option string) (limit pid : Z)
    (tags : string) (cid post_id : option Z) :
  let req := posts_request key uid limit pid tags cid post_id in
  dict_get "api_key" (params req)
  = (if configured key uid then PStr <$> key else None)
  /\ dict_get "user_id" (params req)
     = (if configured key uid then PStr <$> uid else None).
Proof.
  unfold posts_request, str_param, auth_query, configured.
  destruct key as [k|], uid as [u|]; try destruct (str_truthy k);
    try destruct (str_truthy u); destruct (str_truthy tags), cid, post_id;
    by split.
Qed.

Lemma fallback_posts_request_credentials (key uid : option string)
    (limit pid : Z) (tags : string) (post_id : option Z) :
  let req := fallback_posts_request key uid limit pid tags post_id in
  dict_get "api_key" (params req)
  = (if configured key uid then PStr <$> key else None)
  /\ dict_get "user_id" (params req)
     = (if configured key uid then PStr <$> uid else None).
Proof.
  unfold fallback_posts_request, str_param, auth_query, configured.
  destruct key as [k|], uid as [u|]; try destruct (str_truthy k);
    try destruct (str_truthy u); destruct (str_truthy tags), post_id;
    by split.
Qed.

Lemma tags_request_credentials (key uid : option string) (limit : Z)
    (name pattern : string) :
  let req := tags_request key uid limit name pattern in
  dict_get "api_key" (params req)
  = (if configured key uid then PStr <$> key else None)
  /\ dict_get "user_id" (params req)
     = (if configured key uid then PStr <$> uid else None).
Proof.
  unfold tags_request, str_param, auth_query, configured.
  destruct key as [k|], uid as [u|]; try destruct (str_truthy k);
    try destruct (str_truthy u);
    destruct (str_truthy name), (str_truthy pattern); by split.
Qed.

(** X5. The credentials travel together or not at all: every request
    that a post search (wrapper or repository) or a tag search of the
    service sends on an open session carries [api_key] and [user_id] with
    the configured values when both are set and non-empty, and carries
    neither of them otherwise. *)
Theorem credentials_sent_together (net : Net) :
  (forall (self : BooruAPIWrapper.t) limit pid tags cid post_id,
     BooruAPIWrapper.session self = true ->
     let key := BooruAPIWrapper.api_key self in
     let uid := BooruAPIWrapper.user_id self in
     exists reqs,
       (BooruAPIWrapper.get_posts self limit pid tags cid post_id net).2
       = after net reqs
       /\ forall req, req ∈ reqs ->
            dict_get "api_key" (params req)
            = (if configured key uid then PStr <$> key else None)
            /\ dict_get "user_id" (params req)
               = (if configured key uid then PStr <$> uid else None))
  /\ (forall (self : BooruRepository.t) criteria pattern name limit,
        BooruRepository.session self = true ->
        let key := BooruRepository.api_key self in
        let uid := BooruRepository.user_id self in
        exists req1 req2,
          (BooruRepository.get_posts self criteria net).2 = after net [req1]
          /\ (BooruService.search_tags self pattern name limit net).2
             = after net [req2]
          /\ forall req, req = req1 \/ req = req2 ->
               dict_get "api_key" (params req)
               = (if configured key uid then PStr <$> key else None)
               /\ dict_get "user_id" (params req)
                  = (if configured key uid then PStr <$> uid else None)).
Proof.
  split.
  - intros self limit pid tags cid post_id Hopen key uid.
    rewrite wrapper_get_posts_run by done. fold key uid.
    set (primary := posts_request _ _ _ _ _ _ _).
    set (fallback := fallback_posts_request _ _ _ _ _ _).
    destruct (upstream net (sent net) primary).
    + exists [primary]. split; [done|].
      intros req ->%list_elem_of_singleton. apply posts_request_credentials.
    + exists [primary; fallback].
      split; [by destruct (upstream net (sent net ++ [primary]) fallback)|].
      intros req [-> | ->%list_elem_of_singleton]%elem_of_cons.
      * apply posts_request_credentials.
      * apply fallback_posts_request_credentials.
  - intros self criteria pattern name limit Hopen key uid.
    rewrite repository_get_posts_run, service_search_tags_run by done.
    fold key uid.
    set (req1 := posts_request _ _ _ _ _ _ _).
    set (req2 := tags_request _ _ _ _ _).
    exists req1, req2.
    split; [by destruct (upstream net (sent net) req1)|].
    split; [by destruct (upstream net (sent net) req2)|].
    intros req [-> | ->].
    + apply posts_request_credentials.
    + apply tags_request_credentials.
Qed.

(** A client with both credentials set. *)
Lemma credentials_sent_together_witness :
  let self :=
    {| BooruAPIWrapper.base_url := "https://booru.example";
       BooruAPIWrapper.api_key := Some "k3y";
       BooruAPIWrapper.user_id := Some "77";
       BooruAPIWrapper.session := true |} in
  let net := {| upstream := empty_upstream; sent := [] |} in
  exists reqs,
    (BooruAPIWrapper.get_posts self 20 0 "cat" None None net).2
    = after net reqs
    /\ forall req, req ∈ reqs ->
         dict_get "api_key" (params req) = Some (PStr "k3y")
         /\ dict_get "user_id" (params req) = Some (PStr "77").
Proof.
  intros self net.
  exact (proj1 (credentials_sent_together net) self 20 0 "cat" None None
           eq_refl).
Defined.

(** X6. What [BooruService.search_posts] returns for each shape of a
    successful response: the empty list for a null or scalar body, the
    list itself for a bare list, and for a mapping what sits under
    ['post'] (or ['posts']): a list as it is, a mapping wrapped in a
    one-element list, the empty list when both entries are missing, and a
    [TypeError] when that value is null, a boolean or a number. *)
Theorem search_posts_by_shape (self : BooruService.t) (tags : string)
    (limit page : Z) (net : Net) (body : json) :
  BooruRepository.session self = true ->
  upstream net (sent net)
    (posts_request (BooruRepository.api_key self) (BooruRepository.user_id self)
       (Z.min limit 100) page tags None None)
  = Response body ->
  (BooruService.search_posts self tags limit page net).1
  = match body with
    | JNull | JBool _ | JNum _ | JStr _ => Ok (JList [])
    | JList l => Ok (JList l)
    | JDict d =>
        match (if dict_mem "post" d then dict_get "post" d
               else dict_get "posts" d) with
        | None => Ok (JList [])
        | Some (JList l) => Ok (JList l)
        | Some (JDict post) => Ok (JList [JDict post])
        | Some (JStr text) => Ok (JStr text)
        | Some (JNull | JBool _ | JNum _) => Raise TypeError
        end
    end.
Proof.
  intros Hopen Hresponse.
  unfold BooruService.search_posts, bind.
  rewrite repository_get_posts_run by done.
  cbn [PostSearchCriteria.tags PostSearchCriteria.limit
       PostSearchCriteria.page PostSearchCriteria.post_id
       PostSearchCriteria.change_id].
  rewrite Hresponse.
  destruct body as [|b|n|s|l|d]; try reflexivity.
  unfold normalize_posts, BooruService.get_listed.
  destruct (dict_mem "post" d) eqn:Hmem; cbn [negb].
  - by destruct (dict_get "post" d) as [[]|].
  - destruct (dict_get "posts" d) as [ps|] eqn:Hps.
    + rewrite dict_get_set_eq. by destruct ps.
    + unfold dict_mem in Hmem. by destruct (dict_get "post" d).
Qed.

Lemma search_posts_by_shape_witness :
  (BooruService.search_posts anonymous_repository "cat" 20 0
     {| upstream := empty_upstream; sent := [] |}).1
  = Ok (JList []).
Proof.
  exact (search_posts_by_shape anonymous_repository "cat" 20 0
           {| upstream := empty_upstream; sent := [] |} (JList [])
           eq_refl eq_refl).
Defined.

(** X7. [BooruRepository.get_post_by_id] on an open session sends one
    post request with [id=post_id], [limit=1], [pid=0] and no tags; it
    returns the first element when the posts come as a non-empty list, the
    mapping itself when a single non-empty mapping comes, and [None] when
    the response holds no posts (a null body, an empty list, a mapping
    without posts). *)
Theorem get_post_by_id_result (self : BooruRepository.t) (post_id : Z)
    (net : Net) (body : json) :
  BooruRepository.session self = true ->
  let req :=
    posts_request (BooruRepository.api_key self) (BooruRepository.user_id self)
      1 0 "" None (Some post_id) in
  upstream net (sent net) req = Response body ->
  let out := BooruRepository.get_post_by_id self post_id net in
  out.2 = after net [req]
  /\ dict_get "id" (params req) = Some (PInt post_id)
  /\ dict_get "limit" (params req) = Some (PInt 1)
  /\ dict_get "tags" (params req) = None
  /\ (forall post rest, body = JList (post :: rest) -> out.1 = Ok (Some post))
  /\ (forall post rest d,
        body = JDict d -> dict_get "post" d = Some (JList (post :: rest)) ->
        out.1 = Ok (Some post))
  /\ (forall k v post d,
        body = JDict d -> dict_get "post" d = Some (JDict ((k, v) :: post)) ->
        out.1 = Ok (Some (JDict ((k, v) :: post))))
  /\ (body = JNull \/ body = JList [] \/ body = JDict []
      \/ body = JDict [("post", JList [])] -> out.1 = Ok None).
Proof.
  intros Hopen req Hresponse out.
  set (posts := dict_get_or "post" (JList []) (normalize_posts body)).
  assert (Hout : out
    = (Ok (if truthy posts then Some (BooruRepository.first_post posts)
           else None), after net [req])).
  { subst out. unfold BooruRepository.get_post_by_id, bind.
    rewrite repository_get_posts_run by done.
    cbn [PostSearchCriteria.tags PostSearchCriteria.limit
         PostSearchCriteria.page PostSearchCriteria.post_id
         PostSearchCriteria.change_id].
    change (Z.min 1 100) with 1. fold req. rewrite Hresponse. fold posts.
    by destruct (truthy posts). }
  rewrite Hout. cbn [fst snd]. clear Hout.
  assert (Hparams : dict_get "id" (params req) = Some (PInt post_id)
                    /\ dict_get "tags" (params req) = None).
  { unfold req, posts_request, str_param, auth_query.
    by destruct (BooruRepository.api_key self) as [k|],
      (BooruRepository.user_id self) as [u|];
      try destruct (str_truthy k); try destruct (str_truthy u). }
  split; [done|]. split; [apply Hparams|]. split; [done|].
  split; [apply Hparams|].
  split; [by intros post rest ->|].
  split.
  { intros post rest d -> Hpost. subst posts.
    unfold normalize_posts, dict_mem, dict_get_or.
    by rewrite Hpost; cbn; rewrite Hpost. }
  split.
  { intros k v post d -> Hpost. subst posts.
    unfold normalize_posts, dict_mem, dict_get_or.
    by rewrite Hpost; cbn; rewrite Hpost. }
  by intros [-> | [-> | [-> | ->]]].
Qed.

Lemma get_post_by_id_result_witness :
  (BooruRepository.get_post_by_id anonymous_repository 7
     {| upstream := single_post_upstream; sent := [] |}).1
  = Ok (Some (JDict [("id", JNum 1)])).
Proof.
  destruct (get_post_by_id_result anonymous_repository 7
              {| upstream := single_post_upstream; sent := [] |}
              (JDict [("post", JDict [("id", JNum 1)])]) eq_refl eq_refl)
    as (_ & _ & _ & _ & _ & _ & Hsingle & _).
  by apply (Hsingle "id" (JNum 1) [] [("post", JDict [("id", JNum 1)])]).
Defined.

(** ** Media helpers *)

Lemma lower_app (s t : string) : lower (s +:+ t) = lower s +:+ lower t.
Proof.
  induction s as [|c s IH]; [done|].
  change (String c s +:+ t) with (String c (s +:+ t)). cbn [lower].
  by rewrite IH.
Qed.

Lemma lower_char_dot (c : ascii) :
  lower_char c = "."%char <-> c = "."%char.
Proof.
  split; [|by intros ->].
  destruct c as [[] [] [] [] [] [] [] []]; vm_compute; intros H;
    first [reflexivity | discriminate H].
Qed.

Lemma str_contains_lower (s : string) :
  str_contains "." (lower s) = str_contains "." s.
Proof.
  induction s as [|c s IH]; [done|]. cbn [lower str_contains].
  destruct (decide ("."%char = lower_char c)) as [Heq|Hne],
    (decide ("."%char = c)) as [Heq'|Hne']; try done.
  - symmetry in Heq. apply (proj1 (lower_char_dot c)) in Heq.
    by destruct Hne'.
  - subst c. by destruct Hne.
Qed.

Lemma str_contains_app (c : ascii) (s t : string) :
  str_contains c (s +:+ t) = str_contains c s || str_contains c t.
Proof.
  induction s as [|a s IH]; [done|].
  change (String a s +:+ t) with (String a (s +:+ t)). cbn [str_contains].
  by destruct (decide (c = a)).
Qed.

Lemma split_nonempty (sep : ascii) (s : string) : split sep s <> [].
Proof.
  destruct s as [|c s]; [done|]. cbn.
  destruct (decide (c = sep)); [done|]. by destruct (split sep s).
Qed.

Lemma split_without (sep : ascii) (s : string) :
  str_contains sep s = false -> split sep s = [s].
Proof.
  induction s as [|c s IH]; [done|]. cbn.
  destruct (decide (sep = c)) as [|Hne]; [done|]. intros Hs.
  rewrite decide_False by congruence. by rewrite IH.
Qed.

Lemma split_app (sep : ascii) (s t : string) :
  split sep (s +:+ String sep t) = split sep s ++ split sep t.
Proof.
  induction s as [|c s IH].
  - change ("" +:+ String sep t) with (String sep t). cbn.
    by rewrite decide_True.
  - change (String c s +:+ String sep t) with (String c (s +:+ String sep t)).
    cbn. destruct (decide (c = sep)); [by rewrite IH|].
    rewrite IH. pose proof (split_nonempty sep s).
    by destruct (split sep s).
Qed.

Lemma last_app_nonempty {A} (l1 l2 : list A) :
  l2 <> [] -> last (l1 ++ l2) = last l2.
Proof.
  intros Hne. destruct l2 as [|x l2 _] using rev_ind; [done|].
  by rewrite app_assoc, !last_snoc.
Qed.

(** X8. [get_media_type] looks at nothing but the text after the last
    dot, whatever its letter case: for every URL [stem.extension] whose
    extension holds no dot the answer is [video] when the lower-cased
    extension is [mp4], [gif] when it is [gif] and [image] otherwise; a
    URL without any dot is an image. src/main.py and the service agree on
    every value. *)
Theorem get_media_type_by_extension (stem extension : string) :
  str_contains "." extension = false ->
  get_media_type (JStr (stem +:+ "." +:+ extension))
  = Some (if decide (lower extension = "mp4") then "video"
          else if decide (lower extension = "gif") then "gif"
          else "image")
  /\ get_media_type (JStr extension) = Some "image"
  /\ forall file_url, BooruService.get_media_type file_url
                      = get_media_type file_url.
Proof.
  intros Hext. split; [|split; [|done]].
  - unfold get_media_type.
    assert (Htruthy : truthy (JStr (stem +:+ "." +:+ extension)) = true)
      by (destruct stem; reflexivity).
    rewrite Htruthy. cbn [negb].
    change ("." +:+ extension) with (String "."%char extension).
    rewrite str_contains_app. cbn [str_contains].
    destruct (decide ("."%char = "."%char)) as [_|Hne]; [|done].
    rewrite orb_true_r.
    rewrite lower_app. cbn [lower].
    change (lower_char ".") with "."%char.
    rewrite split_app, last_app_nonempty by apply split_nonempty.
    rewrite split_without by (by rewrite str_contains_lower).
    cbn [last default]. unfold id.
    by destruct (decide (lower extension = "mp4")),
      (decide (lower extension = "gif")).
  - unfold get_media_type. destruct (truthy (JStr extension)); [|done].
    cbn [negb]. by rewrite Hext.
Qed.

Lemma get_media_type_by_extension_witness :
  get_media_type (JStr "https://booru.example/images/ab/clip.v2.MP4")
  = Some "video".
Proof.
  exact (proj1 (get_media_type_by_extension
                  "https://booru.example/images/ab/clip.v2" "MP4" eq_refl)).
Defined.

(** X9. The URL shown for a post: when the media type is [video] or
    [gif] it is the ['file_url'] entry whatever ['sample_url'] holds;
    otherwise it is the ['sample_url'] entry whenever the post has one,
    even an empty or null one, and ['file_url'] only when the post has
    none. The preview URL is ['preview_url'] when present, else
    ['file_url'], else the empty string. src/main.py and the service
    agree. *)
Theorem display_url_choice (post : pydict json) (media_type : string) :
  let file_url := dict_get_or "file_url" (JStr "") post in
  get_media_type file_url = Some media_type ->
  (media_type = "video" \/ media_type = "gif" ->
   get_display_media_url post = Some file_url)
  /\ (media_type <> "video" -> media_type <> "gif" ->
      get_display_media_url post
      = Some (match dict_get "sample_url" post with
              | Some sample => sample
              | None => file_url
              end))
  /\ get_preview_url post
     = match dict_get "preview_url" post, dict_get "file_url" post with
       | Some preview, _ => preview
       | None, Some url => url
       | None, None => JStr ""
       end
  /\ BooruService.get_display_url post true = get_display_media_url post
  /\ BooruService.get_display_url post false = Some file_url
  /\ BooruService.get_preview_url post = get_preview_url post.
Proof.
  intros file_url Htype.
  unfold get_display_media_url, BooruService.get_display_url,
    get_preview_url, BooruService.get_preview_url.
  fold file_url. change (BooruService.get_media_type file_url)
    with (get_media_type file_url). rewrite Htype.
  split; [|split; [|split; [|split; [|split]]]].
  - intros Hmedia. rewrite bool_decide_eq_true_2; [done|].
    destruct Hmedia as [-> | ->]; [left | right; left].
  - intros Hvideo Hgif. rewrite bool_decide_eq_false_2; [done|].
    intros Hin. apply elem_of_cons in Hin as [->|Hin]; [done|].
    by apply list_elem_of_singleton in Hin.
  - done.
  - done.
  - by case_bool_decide.
  - done.
Qed.

Lemma display_url_choice_witness :
  get_display_media_url
    [("file_url", JStr "https://booru.example/a.png"); ("sample_url", JNull)]
  = Some JNull.
Proof.
  destruct (display_url_choice
              [("file_url", JStr "https://booru.example/a.png");
               ("sample_url", JNull)] "image" eq_refl) as (_ & Himage & _).
  by apply Himage.
Defined.

(** ** Escaping *)

Lemma escape_once_nil (text : string) : escape_once [] text = text.
Proof.
  induction text as [|c text IH]; [done|]. cbn [escape_once].
  rewrite bool_decide_eq_false_2 by apply not_elem_of_nil. by rewrite IH.
Qed.

Lemma replace_char_escape_once (c : ascii) (specials : list ascii)
    (text : string) :
  c ∉ specials -> c <> "092"%char ->
  replace_char c (backslashed c) (escape_once specials text)
  = escape_once (specials ++ [c]) text.
Proof.
  intros Hc Hbackslash. induction text as [|d text IH]; [done|].
  cbn [escape_once]. case_bool_decide as Hd.
  - rewrite (bool_decide_eq_true_2 (d ∈ specials ++ [c]))
      by (apply elem_of_app; by left).
    cbn [replace_char]. rewrite decide_False by congruence.
    rewrite decide_False by (by intros ->). by rewrite IH.
  - cbn [replace_char]. destruct (decide (d = c)) as [->|Hne].
    + rewrite bool_decide_eq_true_2
        by (apply elem_of_app; right; apply list_elem_of_singleton; done).
      rewrite IH. reflexivity.
    + rewrite bool_decide_eq_false_2; [by rewrite IH|].
      intros [Hin|Hin]%elem_of_app; [done|].
      by apply list_elem_of_singleton in Hin.
Qed.

Lemma fold_replace_escape_once (chars specials : list ascii) (text : string) :
  NoDup (specials ++ chars) -> "092"%char ∉ chars ->
  fold_left
    (fun escaped_text char => replace_char char (backslashed char) escaped_text)
    chars (escape_once specials text)
  = escape_once (specials ++ chars) text.
Proof.
  revert specials. induction chars as [|c chars IH]; intros specials Hnd Hbs.
  - by rewrite app_nil_r.
  - cbn [fold_left]. rewrite replace_char_escape_once.
    + rewrite IH.
      * by rewrite <- app_assoc.
      * by rewrite <- app_assoc.
      * intros Hin. apply Hbs. by right.
    + apply NoDup_app in Hnd as (_ & Hdisjoint & _).
      intros Hin. apply (Hdisjoint c Hin). by left.
    + intros ->. apply Hbs. by left.
Qed.

(** X10. [escape_markdown] is one pass over the text that puts one
    backslash before each of the eighteen characters it lists and leaves
    every other character, the backslash included, as it is: the eighteen
    successive replacements never escape a backslash an earlier one put
    in. [escape_markdown_query] is the same pass for [_], [*], [[]
    and []]. *)
Theorem escape_markdown_once (text : string) :
  escape_markdown text = escape_once special_chars text
  /\ escape_markdown_query text = escape_once ["_"; "*"; "["; "]"]%char text.
Proof.
  split.
  - unfold escape_markdown. destruct text as [|c text]; [done|].
    cbn [str_truthy negb].
    rewrite <- (escape_once_nil (String c text)) at 1.
    rewrite fold_replace_escape_once; [done| |].
    + (eapply bool_decide_unpack; by vm_compute).
    + (eapply bool_decide_unpack; by vm_compute).
  - unfold escape_markdown_query. destruct text as [|c text]; [done|].
    cbn [str_truthy negb].
    rewrite <- (escape_once_nil (String c text)) at 1.
    apply (fold_replace_escape_once ["_"; "*"; "["; "]"]%char []).
    + (eapply bool_decide_unpack; by vm_compute).
    + (eapply bool_decide_unpack; by vm_compute).
Qed.

Lemma replace_char_app (c : ascii) (new s t : string) :
  replace_char c new (s +:+ t)
  = replace_char c new s +:+ replace_char c new t.
Proof.
  induction s as [|a s IH]; [done|].
  change (String a s +:+ t) with (String a (s +:+ t)). cbn [replace_char].
  destruct (decide (a = c)); rewrite IH; [|done].
  by rewrite string_app_assoc.
Qed.

Lemma safe_name_cons (c : ascii) (name : string) :
  TelbooruBot.search_and_send_tags_safe_name (String c name)
  = TelbooruBot.search_and_send_tags_safe_name (String c "")
    +:+ TelbooruBot.search_and_send_tags_safe_name name.
Proof.
  unfold TelbooruBot.search_and_send_tags_safe_name.
  change (String c name) with (String c "" +:+ name).
  by rewrite !replace_char_app.
Qed.

Lemma html_once_cons (c : ascii) (text : string) :
  html_once (String c text) = html_once (String c "") +:+ html_once text.
Proof.
  cbn [html_once].
  repeat (destruct (decide _); [by rewrite string_app_assoc|]).
  reflexivity.
Qed.

Lemma safe_name_char (c : ascii) :
  TelbooruBot.search_and_send_tags_safe_name (String c "")
  = html_once (String c "").
Proof. by destruct c as [[] [] [] [] [] [] [] []]. Qed.

Lemma html_once_char_no_angle (c : ascii) :
  str_contains "<" (html_once (String c "")) = false
  /\ str_contains ">" (html_once (String c "")) = false.
Proof. by destruct c as [[] [] [] [] [] [] [] []]. Qed.

(** X11. The tag name [search_and_send_tags] puts in its HTML message is
    one pass over the name that writes [&] as [&amp;], [<] as [&lt;] and
    [>] as [&gt;]: the ampersands of the entities are not escaped again,
    and the result holds no angle bracket. *)
Theorem safe_name_html (name : string) :
  TelbooruBot.search_and_send_tags_safe_name name = html_once name
  /\ str_contains "<" (TelbooruBot.search_and_send_tags_safe_name name) = false
  /\ str_contains ">" (TelbooruBot.search_and_send_tags_safe_name name) = false.
Proof.
  assert (Heq : forall name,
    TelbooruBot.search_and_send_tags_safe_name name = html_once name).
  { clear name. induction name as [|c name IH]; [done|].
    by rewrite safe_name_cons, html_once_cons, safe_name_char, IH. }
  split; [apply Heq|]. rewrite Heq.
  induction name as [|c name [IHlt IHgt]]; [done|].
  rewrite html_once_cons, !str_contains_app, IHlt, IHgt.
  by destruct (html_once_char_no_angle c) as [-> ->].
Qed.

(** ** The session store *)

(** X12. The life of a session in [SearchRepository], from a store with
    [n] active users: a saved state is the one [get_search_state] returns;
    after the save there are [n] active users when the user already had a
    session and [n + 1] when not; deleting the session then returns
    [True], leaves no state for the user and one active user fewer than
    after the save ([n - 1] when the user already had a session, [n] when
    not), and a second delete returns [False] and changes nothing;
    [clear_all_states] returns the number of active users and leaves
    none. *)
Theorem search_state_lifecycle (self : SearchRepository.t) (user_id : Z)
    (state : SearchState) :
  let n := Z.of_nat (size (SearchRepository._states self)) in
  let had := bool_decide (is_Some (SearchRepository._states self !! user_id)) in
  let saved := (SearchRepository.save_search_state user_id state self).2 in
  let deleted := SearchRepository.delete_search_state user_id saved in
  let cleared := SearchRepository.clear_all_states saved in
  (SearchRepository.get_search_state user_id saved).1 = Ok (Some state)
  /\ (SearchRepository.get_active_user_count saved).1
     = Ok (if had then n else n + 1)
  /\ deleted.1 = Ok true
  /\ (SearchRepository.get_search_state user_id deleted.2).1 = Ok None
  /\ (SearchRepository.get_active_user_count deleted.2).1
     = Ok (if had then n - 1 else n)
  /\ (SearchRepository.get_active_user_count deleted.2).1
     = Ok ((if had then n else n + 1) - 1)
  /\ SearchRepository.delete_search_state user_id deleted.2
     = (Ok false, deleted.2)
  /\ cleared.1 = (SearchRepository.get_active_user_count saved).1
  /\ (SearchRepository.get_active_user_count cleared.2).1 = Ok 0
  /\ forall other,
       (SearchRepository.get_search_state other cleared.2).1 = Ok None.
Proof.
  intros n had saved deleted cleared.
  assert (Hsaved : size (SearchRepository._states saved)
                   = if had then size (SearchRepository._states self)
                     else S (size (SearchRepository._states self))).
  { subst saved had. cbn. rewrite map_size_insert.
    destruct (SearchRepository._states self !! user_id) eqn:Hget.
    - by rewrite bool_decide_eq_true_2.
    - rewrite bool_decide_eq_false_2; [done|]. by intros [? ?]. }
  assert (Hdeleted : deleted
    = (Ok true,
       {| SearchRepository._states :=
            delete user_id (SearchRepository._states saved) |})).
  { subst deleted saved. unfold SearchRepository.delete_search_state. cbn.
    by rewrite lookup_insert_eq. }
  assert (Hpos : had = true -> (0 < size (SearchRepository._states self))%nat).
  { subst had. intros [s Hs]%bool_decide_eq_true.
    destruct (decide (size (SearchRepository._states self) = 0%nat)) as [H0|];
      [|lia].
    apply map_size_empty_inv in H0. rewrite H0 in Hs. done. }
  split; [subst saved; cbn; by rewrite lookup_insert_eq|].
  split.
  { unfold SearchRepository.get_active_user_count. cbn [fst].
    rewrite Hsaved. subst n. destruct had; f_equal; lia. }
  rewrite Hdeleted. cbn [fst snd].
  split; [done|].
  split; [cbn; by rewrite lookup_delete_eq|].
  split.
  { unfold SearchRepository.get_active_user_count.
    cbn [fst SearchRepository._states].
    rewrite map_size_delete_Some
      by (subst saved; cbn; rewrite lookup_insert_eq; eauto).
    rewrite Hsaved. subst n. destruct had; [|f_equal; lia].
    specialize (Hpos eq_refl). f_equal. lia. }
  split.
  { unfold SearchRepository.get_active_user_count.
    cbn [fst SearchRepository._states].
    rewrite map_size_delete_Some
      by (subst saved; cbn; rewrite lookup_insert_eq; eauto).
    rewrite Hsaved. subst n. destruct had; [|f_equal; lia].
    specialize (Hpos eq_refl). f_equal. lia. }
  split.
  { unfold SearchRepository.delete_search_state. cbn.
    by rewrite lookup_delete_eq. }
  split; [done|]. split; [cbn; by rewrite map_size_empty|].
  intros other. cbn. by rewrite lookup_empty.
Qed.

(** X13. [update_page] and [update_menu_message_id] assign one field each
    of the object stored for the user: in either order they leave the
    same store and return whether the user has a session. Afterwards the
    session of every user for whom that same object is stored, the user
    included, has the new page and the new menu message and its query,
    results, page count and page size as before, and the session of every
    user with another object, or none, is as it was. When nobody else
    holds the user's object, each update is the update of the user's own
    state in a store of states held by value. *)
Theorem session_updates_commute (self : SearchRepositoryObjects.t)
    (user_id page message_id : Z) :
  let page_first :=
    SearchRepositoryObjects.update_menu_message_id user_id message_id
      (SearchRepositoryObjects.update_page user_id page self).2 in
  let menu_first :=
    SearchRepositoryObjects.update_page user_id page
      (SearchRepositoryObjects.update_menu_message_id user_id message_id
         self).2 in
  let stored := SearchRepositoryObjects._states self in
  page_first = menu_first
  /\ page_first.1 = Ok (bool_decide (is_Some (stored !! user_id)))
  /\ SearchRepositoryObjects._states page_first.2 = stored
  /\ (forall other,
        session_of page_first.2 other
        = if bool_decide (is_Some (stored !! user_id)
                          /\ stored !! other = stored !! user_id)
          then (fun state =>
                  {| query := query state;
                     results := results state;
                     current_page := page;
                     total_pages := total_pages state;
                     posts_per_page := posts_per_page state;
                     last_menu_message_id := Some message_id |})
               <$> session_of self other
          else session_of self other)
  /\ (unshared self user_id ->
      states_by_value (SearchRepositoryObjects.update_page user_id page self).2
      = SearchRepository._states
          (SearchRepository.update_page user_id page
             {| SearchRepository._states := states_by_value self |}).2
      /\ states_by_value
           (SearchRepositoryObjects.update_menu_message_id user_id message_id
              self).2
         = SearchRepository._states
             (SearchRepository.update_menu_message_id user_id message_id
                {| SearchRepository._states := states_by_value self |}).2).
Proof.
  intros page_first menu_first stored.
  set (updated := fun state =>
    {| query := query state; results := results state;
       current_page := page; total_pages := total_pages state;
       posts_per_page := posts_per_page state;
       last_menu_message_id := Some message_id |}).
  assert (Hvalue : forall (f : SearchState -> SearchState) state,
    stored !! user_id = Some state ->
    unshared self user_id ->
    omap (fun l => alter f state (SearchRepositoryObjects.objects self) !! l)
      stored
    = match states_by_value self !! user_id with
      | Some s => <[user_id := f s]> (states_by_value self)
      | None => states_by_value self
      end).
  { intros f state Hstate Hunshared. apply map_eq. intros i.
    assert (Hview : states_by_value self !! user_id
                    = SearchRepositoryObjects.objects self !! state).
    { unfold states_by_value. rewrite lookup_omap. fold stored.
      by rewrite Hstate. }
    rewrite lookup_omap. destruct (decide (i = user_id)) as [->|Hne].
    - rewrite Hstate. cbn. rewrite lookup_alter_eq, Hview.
      destruct (SearchRepositoryObjects.objects self !! state) as [s|] eqn:Hs;
        cbn.
      + by rewrite lookup_insert_eq.
      + by rewrite Hview.
    - assert (Hi : omap (fun l => SearchRepositoryObjects.objects self !! l)
                     stored !! i
                   = match stored !! i with
                     | Some l => alter f state
                                   (SearchRepositoryObjects.objects self) !! l
                     | None => None
                     end).
      { rewrite lookup_omap.
        destruct (stored !! i) as [l|] eqn:Hl; [|done]. cbn.
        rewrite lookup_alter_ne; [done|].
        intros <-. by apply (Hunshared i state). }
      destruct (states_by_value self !! user_id) as [s|].
      + rewrite lookup_insert_ne by done. unfold states_by_value.
        fold stored. rewrite Hi. by destruct (stored !! i).
      + unfold states_by_value. fold stored. rewrite Hi.
        by destruct (stored !! i). }
  destruct (stored !! user_id) as [state|] eqn:Hget.
  - assert (Hpage : page_first
      = (Ok true,
         {| SearchRepositoryObjects.objects :=
              alter updated state (SearchRepositoryObjects.objects self);
            SearchRepositoryObjects._states := stored |})).
    { subst page_first. unfold SearchRepositoryObjects.update_page,
        SearchRepositoryObjects.update_menu_message_id.
      fold stored. rewrite Hget.
      cbn [fst snd SearchRepositoryObjects._states
           SearchRepositoryObjects.objects].
      fold stored. rewrite Hget. do 2 f_equal. apply map_eq. intros l.
      destruct (decide (l = state)) as [->|Hne].
      - rewrite !lookup_alter_eq.
        by destruct (SearchRepositoryObjects.objects self !! state).
      - by rewrite !lookup_alter_ne. }
    assert (Hmenu : menu_first = page_first).
    { rewrite Hpage. subst menu_first.
      unfold SearchRepositoryObjects.update_page,
        SearchRepositoryObjects.update_menu_message_id.
      fold stored. rewrite Hget.
      cbn [fst snd SearchRepositoryObjects._states
           SearchRepositoryObjects.objects].
      fold stored. rewrite Hget. do 2 f_equal. apply map_eq. intros l.
      destruct (decide (l = state)) as [->|Hne].
      - rewrite !lookup_alter_eq.
        by destruct (SearchRepositoryObjects.objects self !! state).
      - by rewrite !lookup_alter_ne. }
    rewrite Hmenu, Hpage.
    cbn [fst snd SearchRepositoryObjects._states].
    split; [done|]. split; [by rewrite bool_decide_eq_true_2|].
    split; [done|]. split.
    + intros other. unfold session_of.
      cbn [SearchRepositoryObjects._states SearchRepositoryObjects.objects].
      fold stored. case_bool_decide as Hshare.
      * destruct Hshare as [_ ->]. by rewrite lookup_alter_eq.
      * destruct (stored !! other) as [l|] eqn:Hother; [|done].
        rewrite lookup_alter_ne; [done|].
        intros <-. apply Hshare. split; [eauto|done].
    + intros Hunshared.
      unfold SearchRepositoryObjects.update_page,
        SearchRepositoryObjects.update_menu_message_id,
        SearchRepository.update_page,
        SearchRepository.update_menu_message_id.
      fold stored. rewrite Hget. cbn [snd].
      assert (Hview : forall f : SearchState -> SearchState,
        states_by_value
          {| SearchRepositoryObjects.objects :=
               alter f state (SearchRepositoryObjects.objects self);
             SearchRepositoryObjects._states := stored |}
        = match states_by_value self !! user_id with
          | Some s => <[user_id := f s]> (states_by_value self)
          | None => states_by_value self
          end).
      { intros f. by apply Hvalue. }
      rewrite !Hview. cbn [SearchRepository._states].
      by destruct (states_by_value self !! user_id).
  - assert (Hpage : page_first = (Ok false, self)).
    { subst page_first. unfold SearchRepositoryObjects.update_page,
        SearchRepositoryObjects.update_menu_message_id.
      fold stored. rewrite Hget. cbn [fst snd]. fold stored. by rewrite Hget. }
    assert (Hmenu : menu_first = page_first).
    { rewrite Hpage. subst menu_first.
      unfold SearchRepositoryObjects.update_page,
        SearchRepositoryObjects.update_menu_message_id.
      fold stored. rewrite Hget. cbn [fst snd]. fold stored. by rewrite Hget. }
    rewrite Hmenu, Hpage. cbn [fst snd].
    split; [done|].
    split; [rewrite bool_decide_eq_false_2; [done|by intros [? ?]]|].
    split; [done|]. split.
    + intros other. rewrite bool_decide_eq_false_2; [done|].
      by intros [[? ?] _].
    + intros _.
      assert (Hview : states_by_value self !! user_id = None).
      { unfold states_by_value. rewrite lookup_omap. fold stored.
        by rewrite Hget. }
      unfold SearchRepositoryObjects.update_page,
        SearchRepositoryObjects.update_menu_message_id,
        SearchRepository.update_page,
        SearchRepository.update_menu_message_id.
      fold stored. rewrite Hget. cbn [snd SearchRepository._states].
      by rewrite Hview.
Qed.

Lemma session_updates_commute_witness :
  let state := TelbooruBot.perform_batch_search_state "cat" three_posts in
  let shared :=
    (SearchRepositoryObjects.save_search_state 2 7%positive
       (SearchRepositoryObjects.save_search_state 1 7%positive
          {| SearchRepositoryObjects.objects := {[ 7%positive := state ]};
             SearchRepositoryObjects._states := ∅ |}).2).2 in
  let apart :=
    {| SearchRepositoryObjects.objects :=
         {[ 7%positive := state; 8%positive := state ]};
       SearchRepositoryObjects._states := {[ 1 := 7%positive; 2 := 8%positive ]} |} in
  current_page
  <$> session_of
        (SearchRepositoryObjects.update_menu_message_id 1 9
           (SearchRepositoryObjects.update_page 1 5 shared).2).2 2
  = Some 5
  /\ states_by_value (SearchRepositoryObjects.update_page 1 5 apart).2
     = SearchRepository._states
         (SearchRepository.update_page 1 5
            {| SearchRepository._states := states_by_value apart |}).2.
Proof.
  intros state shared apart. split.
  - destruct (session_updates_commute shared 1 5 9)
      as (_ & _ & _ & Hsessions & _).
    rewrite (Hsessions 2). reflexivity.
  - destruct (session_updates_commute apart 1 5 9) as (_ & _ & _ & _ & Hvalue).
    apply Hvalue. intros other object Hother Hmine Htheirs.
    assert (Hobject : object = 7%positive).
    { subst apart. cbn in Hmine. rewrite lookup_insert_eq in Hmine.
      congruence. }
    subst object apart. cbn in Htheirs.
    rewrite lookup_insert_ne in Htheirs by done.
    destruct (decide (other = 2)) as [->|Hne].
    + rewrite lookup_singleton_eq in Htheirs. discriminate.
    + rewrite lookup_singleton_ne in Htheirs by done. discriminate.
Defined.

(** ** Pages and buttons *)

(** X14. On a page inside [[0, total_pages)] the navigation buttons of
    [send_search_results_page] lead only to pages inside that range:
    "Previous" is there exactly when the page is not the first and
    carries [page - 1], "Next" exactly when it is not the last and
    carries [page + 1]. *)
Theorem nav_buttons_in_range (states : TelbooruBot.search_states)
    (user_id page : Z) (state : SearchState) :
  states !! user_id = Some state ->
  0 <= page < total_pages state ->
  exists buttons,
    TelbooruBot.send_search_results_page_nav_buttons states user_id page
    = Some buttons
    /\ (forall target, target ∈ buttons -> 0 <= target < total_pages state)
    /\ (page - 1 ∈ buttons <-> 0 < page)
    /\ (page + 1 ∈ buttons <-> page + 1 < total_pages state).
Proof.
  intros Hstate Hpage.
  unfold TelbooruBot.send_search_results_page_nav_buttons. rewrite Hstate.
  eexists. split; [reflexivity|].
  destruct (Z.ltb_spec 0 page), (Z.ltb_spec page (total_pages state - 1));
    cbn [app]; (split; [intros target|split]); set_unfold; lia.
Qed.

Lemma nav_buttons_in_range_witness :
  let posts := map JNum [0; 1; 2; 3; 4; 5; 6; 7; 8; 9; 10; 11] in
  let states : TelbooruBot.search_states :=
    {[ 42 := TelbooruBot.perform_batch_search_state "cat" posts ]} in
  TelbooruBot.send_search_results_page_nav_buttons states 42 1 = Some [0; 2]
  /\ exists buttons,
       TelbooruBot.send_search_results_page_nav_buttons states 42 1
       = Some buttons
       /\ (forall target, target ∈ buttons -> 0 <= target < 3)
       /\ 1 - 1 ∈ buttons
       /\ 1 + 1 ∈ buttons.
Proof.
  intros posts states. split; [reflexivity|].
  destruct (nav_buttons_in_range states 42 1
              (TelbooruBot.perform_batch_search_state "cat" posts))
    as (buttons & Hbuttons & Hrange & Hprevious & Hnext).
  - apply lookup_singleton_eq.
  - split; vm_compute; [discriminate | reflexivity].
  - exists buttons. split; [exact Hbuttons|]. split; [exact Hrange|]. split.
    + apply Hprevious. lia.
    + apply Hnext. vm_compute. reflexivity.
Defined.

(** X15. When [send_search_results_page] sends its album and keyboard
    for a non-negative page, every post of the page is a mapping whose
    media type can be read, and there is one post button for each of
    them, in order: the button at place [k] shows the media type of the
    post at place [k] of the page and carries the index
    [page * posts_per_page + k], which is one [send_full_image] answers
    with that very post. The album holds the previews of the posts of the
    page that have a non-empty one, in order: a post without preview has
    a button and no picture, so pictures and buttons correspond place by
    place only when every post of the page has a preview. *)
Theorem post_buttons_select_page_posts (states : TelbooruBot.search_states)
    (user_id page : Z) (state : SearchState) (media_group : list json)
    (post_buttons : list (string * Z)) :
  states !! user_id = Some state ->
  0 <= page -> 0 <= posts_per_page state ->
  TelbooruBot.send_search_results_page_reply states user_id page
  = TelbooruBot.Album media_group post_buttons ->
  let start_idx := page * posts_per_page state in
  exists page_posts previews,
    TelbooruBot.send_search_results_page_posts states user_id page
    = Some page_posts
    /\ length post_buttons = length page_posts
    /\ (forall (k : nat) (post : json),
          page_posts !! k = Some post ->
          exists d media_type,
            post = JDict d
            /\ get_media_type (dict_get_or "file_url" (JStr "") d)
               = Some media_type
            /\ post_buttons !! k = Some (media_type, start_idx + Z.of_nat k)
            /\ TelbooruBot.send_full_image_post states user_id
                 (start_idx + Z.of_nat k)
               = Ok (Some post))
    /\ Forall2 (fun post preview =>
                  exists d, post = JDict d /\ preview = get_preview_url d)
         page_posts previews
    /\ media_group = filter (fun preview => truthy preview = true) previews
    /\ (Forall (fun preview => truthy preview = true) previews ->
        media_group = previews /\ length media_group = length post_buttons).
Proof.
  intros Hstate Hpage Hsize Hreply start_idx.
  unfold TelbooruBot.send_search_results_page_reply in Hreply.
  unfold TelbooruBot.send_search_results_page_posts.
  rewrite Hstate in *. fold start_idx in Hreply |- *.
  set (end_idx := Z.min (start_idx + posts_per_page state)
                        (Z.of_nat (length (results state)))) in *.
  set (page_posts := slice (results state) start_idx end_idx) in *.
  assert (Hstart : 0 <= start_idx) by (subst start_idx; nia).
  assert (Hend : 0 <= end_idx) by (subst end_idx; lia).
  destruct (mapM TelbooruBot.album_preview page_posts) as [previews|] eqn:Hprev;
    [|done].
  destruct (mapM id (imap (TelbooruBot.post_button start_idx) page_posts))
    as [keyboard|] eqn:Hkey; [|done].
  injection Hreply as <- <-.
  pose proof (length_mapM _ _ _ Hkey) as Hlen. rewrite length_imap in Hlen.
  exists page_posts, previews. split; [reflexivity|]. split; [done|].
  split; [|split; [|split; [reflexivity|]]].
  - intros k post Hk.
    destruct (Forall2_lookup_l _ _ _ k (TelbooruBot.post_button start_idx k post)
                (mapM_Some_1 _ _ _ Hkey)) as (button & Hbutton & Hmade).
    { by rewrite list_lookup_imap, Hk. }
    cbn in Hmade. unfold TelbooruBot.post_button in Hmade.
    destruct post as [| | | | |d]; try done.
    destruct (get_media_type (dict_get_or "file_url" (JStr "") d))
      as [media_type|] eqn:Htype; [|done].
    injection Hmade as <-.
    exists d, media_type. split; [done|]. split; [done|]. split; [done|].
    subst page_posts. rewrite slice_lookup in Hk by done.
    case_decide as Hin; [|done].
    destruct (send_full_image_post_cases states user_id
                (start_idx + Z.of_nat k) state Hstate) as (Hinside & _).
    destruct Hinside as (post' & Hpost' & ->); [subst end_idx; lia|].
    replace (Z.to_nat (start_idx + Z.of_nat k))
      with (Z.to_nat start_idx + k)%nat in Hpost' by lia.
    congruence.
  - eapply Forall2_impl; [exact (mapM_Some_1 _ _ _ Hprev)|].
    intros post preview Hpreview. unfold TelbooruBot.album_preview in Hpreview.
    destruct post as [| | | | |d]; try done.
    injection Hpreview as <-. by exists d.
  - intros Hall.
    assert (Hsame : filter (fun preview => truthy preview = true) previews
                    = previews).
    { clear -Hall. induction Hall as [|preview previews Hp Hall IH]; [done|].
      rewrite filter_cons_True by done. by rewrite IH. }
    rewrite Hsame. split; [done|].
    rewrite <- Hlen. symmetry. by apply (length_mapM _ _ _ Hprev).
Qed.

Lemma post_buttons_select_page_posts_witness :
  let states : TelbooruBot.search_states :=
    {[ 42 := TelbooruBot.perform_batch_search_state "cat" pictured_posts ]} in
  TelbooruBot.send_search_results_page_reply states 42 0
  = TelbooruBot.Album
      [JStr "https://booru.example/thumbnails/a.png";
       JStr "https://booru.example/images/b.mp4"]
      [("image", 0); ("video", 1); ("image", 2)]
  /\ exists page_posts previews,
       TelbooruBot.send_search_results_page_posts states 42 0
       = Some page_posts
       /\ length [("image", 0); ("video", 1); ("image", 2)] = length page_posts
       /\ (forall (k : nat) (post : json),
             page_posts !! k = Some post ->
             exists d media_type,
               post = JDict d
               /\ get_media_type (dict_get_or "file_url" (JStr "") d)
                  = Some media_type
               /\ [("image", 0); ("video", 1); ("image", 2)] !! k
                  = Some (media_type, 0 * 5 + Z.of_nat k)
               /\ TelbooruBot.send_full_image_post states 42
                    (0 * 5 + Z.of_nat k)
                  = Ok (Some post))
       /\ Forall2 (fun post preview =>
                     exists d, post = JDict d /\ preview = get_preview_url d)
            page_posts previews
       /\ [JStr "https://booru.example/thumbnails/a.png";
           JStr "https://booru.example/images/b.mp4"]
          = filter (fun preview => truthy preview = true) previews
       /\ (Forall (fun preview => truthy preview = true) previews ->
           [JStr "https://booru.example/thumbnails/a.png";
            JStr "https://booru.example/images/b.mp4"] = previews
           /\ length [JStr "https://booru.example/thumbnails/a.png";
                      JStr "https://booru.example/images/b.mp4"]
              = length [("image", 0); ("video", 1); ("image", 2)]).
Proof.
  intros states.
  assert (Hreply : TelbooruBot.send_search_results_page_reply states 42 0
    = TelbooruBot.Album
        [JStr "https://booru.example/thumbnails/a.png";
         JStr "https://booru.example/images/b.mp4"]
        [("image", 0); ("video", 1); ("image", 2)]) by reflexivity.
  split; [exact Hreply|].
  apply (post_buttons_select_page_posts states 42 0
           (TelbooruBot.perform_batch_search_state "cat" pictured_posts)).
  - apply lookup_singleton_eq.
  - lia.
  - cbn. lia.
  - exact Hreply.
Defined.

(** X16. No result of a search is lost or shown out of the pages: in the
    session [perform_batch_search] stores, the result at index [i] is on
    page [i // 5], which is one of the [total_pages] pages, at place
    [i % 5]; and every page from [total_pages] on is empty. *)
Theorem every_result_on_one_page (tags : string) (posts : list json)
    (states : TelbooruBot.search_states) (user_id : Z) :
  let state := TelbooruBot.perform_batch_search_state tags posts in
  let shown page :=
    TelbooruBot.send_search_results_page_posts
      (<[user_id := state]> states) user_id page in
  (forall (i : nat) (post : json),
     posts !! i = Some post ->
     0 <= Z.of_nat i `div` 5 < total_pages state
     /\ exists page_posts,
          shown (Z.of_nat i `div` 5) = Some page_posts
          /\ page_posts !! Z.to_nat (Z.of_nat i `mod` 5) = Some post)
  /\ forall page, total_pages state <= page -> shown page = Some [].
Proof.
  intros state shown.
  assert (Hshown : forall page, shown page
    = Some (slice posts (page * 5)
              (Z.min (page * 5 + 5) (Z.of_nat (length posts))))).
  { intros page. subst shown. cbn beta.
    unfold TelbooruBot.send_search_results_page_posts.
    by rewrite lookup_insert_eq. }
  assert (Htotal : total_pages state = (Z.of_nat (length posts) - 1) `div` 5 + 1)
    by reflexivity.
  split.
  - intros i post Hi.
    pose proof (lookup_lt_Some _ _ _ Hi) as Hlt.
    pose proof (Z.div_mod (Z.of_nat i) 5 ltac:(lia)) as Hdiv.
    pose proof (Z.mod_pos_bound (Z.of_nat i) 5 ltac:(lia)) as Hmod.
    pose proof (Z.div_mod (Z.of_nat (length posts) - 1) 5 ltac:(lia)) as Hdiv'.
    pose proof (Z.mod_pos_bound (Z.of_nat (length posts) - 1) 5 ltac:(lia))
      as Hmod'.
    split; [rewrite Htotal; lia|].
    eexists. split; [apply Hshown|].
    rewrite slice_lookup by lia.
    rewrite decide_True by lia.
    rewrite <- Hi. f_equal. lia.
  - intros page Hpage. rewrite Hshown. f_equal.
    pose proof (Z.div_mod (Z.of_nat (length posts) - 1) 5 ltac:(lia)) as Hdiv'.
    pose proof (Z.mod_pos_bound (Z.of_nat (length posts) - 1) 5 ltac:(lia))
      as Hmod'.
    rewrite Htotal in Hpage. apply length_zero_iff_nil.
    pose proof (slice_length posts (page * 5)
                  (Z.min (page * 5 + 5) (Z.of_nat (length posts)))
                  ltac:(lia) ltac:(lia)) as Hlen.
    lia.
Qed.

Lemma every_result_on_one_page_witness :
  exists page_posts,
    TelbooruBot.send_search_results_page_posts
      {[ 42 := TelbooruBot.perform_batch_search_state "cat"
                 (map JNum [0; 1; 2; 3; 4; 5; 6]) ]} 42 1
    = Some page_posts
    /\ page_posts !! 1%nat = Some (JNum 6)
    /\ TelbooruBot.send_search_results_page_posts
         {[ 42 := TelbooruBot.perform_batch_search_state "cat"
                    (map JNum [0; 1; 2; 3; 4; 5; 6]) ]} 42 2
       = Some [].
Proof.
  destruct (every_result_on_one_page "cat" (map JNum [0; 1; 2; 3; 4; 5; 6])
              ∅ 42) as [Hon Hbeyond].
  destruct (Hon 6%nat (JNum 6) eq_refl) as (_ & page_posts & Hshown & Hpost).
  exists page_posts. split; [exact Hshown|]. split; [exact Hpost|].
  apply (Hbeyond 2). vm_compute. discriminate.
Defined.

(** ** What a search stores *)

Lemma dict_mem_get {V} (k : string) (d : pydict V) :
  dict_mem k d = true -> exists v, dict_get k d = Some v.
Proof. unfold dict_mem. destruct (dict_get k d); [eauto|done]. Qed.

(** X17. What [perform_batch_search] stores, at the moment it stores it.
    A session is stored only for a mapping with a non-empty value under
    ['post']. When that value is a list or a mapping, the session has at
    least one result and at least one page, starts on page 0 with five
    posts a page and the query sent to the API, and its results are that
    list, or that single mapping wrapped in a list. When that value is a
    non-empty string, a session is stored all the same, with the string
    itself as its results and no list of posts. *)
Theorem stored_session_invariant (tags : string) (response : json) :
  match TelbooruBot.perform_batch_search_reply tags response with
  | TelbooruBot.Stored state =>
      results state <> []
      /\ 1 <= total_pages state
      /\ query state = tags
      /\ current_page state = 0
      /\ posts_per_page state = 5
      /\ exists d,
           response = JDict d
           /\ (dict_get "post" d = Some (JList (results state))
               \/ exists post,
                    dict_get "post" d = Some (JDict post)
                    /\ results state = [JDict post])
  | TelbooruBot.StoredText query text =>
      query = tags /\ text <> ""
      /\ exists d, response = JDict d /\ dict_get "post" d = Some (JStr text)
  | _ => True
  end
  /\ (forall d text,
        response = JDict d -> dict_get "post" d = Some (JStr text) ->
        text <> "" ->
        TelbooruBot.perform_batch_search_reply tags response
        = TelbooruBot.StoredText tags text)
  /\ (forall d posts,
        response = JDict d -> dict_get "post" d = Some (JList posts) ->
        posts <> [] ->
        TelbooruBot.perform_batch_search_reply tags response
        = TelbooruBot.Stored
            (TelbooruBot.perform_batch_search_state tags posts)).
Proof.
  split; [|split].
  - unfold TelbooruBot.perform_batch_search_reply.
    destruct (truthy response); cbn [negb]; [|done].
    destruct response as [| | | |l|d]; cbn [TelbooruBot.contains_post];
      try done.
    + by destruct (str_in "post" s).
    + by destruct (existsb (is_str "post") l).
    + destruct (dict_mem "post" d) eqn:Hmem; [|done].
      destruct (dict_mem_get _ _ Hmem) as [posts Hposts].
      unfold dict_get_or. rewrite Hposts.
      destruct (truthy posts) eqn:Htruthy; cbn [negb]; [|done].
      destruct posts as [| | |text|l|post]; try done;
        cbn [results total_pages query current_page posts_per_page
             TelbooruBot.perform_batch_search_state].
      * split; [done|]. split; [by destruct text|]. eauto.
      * assert (Hne : l <> []) by (by destruct l).
        assert (0 < Z.of_nat (length l)) by (destruct l; [done | cbn; lia]).
        pose proof (Z.div_mod (Z.of_nat (length l) - 1) 5 ltac:(lia)).
        pose proof (Z.mod_pos_bound (Z.of_nat (length l) - 1) 5 ltac:(lia)).
        repeat (split; [done || lia|]). exists d. split; [done|]. by left.
      * repeat (split; [done|]). exists d. split; [done|]. right. eauto.
  - intros d text -> Hpost Htext.
    unfold TelbooruBot.perform_batch_search_reply, dict_get_or.
    assert (Htruthy : truthy (JDict d) = true)
      by (destruct d; [done | reflexivity]).
    rewrite Htruthy. cbn [negb TelbooruBot.contains_post].
    unfold dict_mem. rewrite Hpost. by destruct text.
  - intros d posts -> Hpost Hposts.
    unfold TelbooruBot.perform_batch_search_reply, dict_get_or.
    assert (Htruthy : truthy (JDict d) = true)
      by (destruct d; [done | reflexivity]).
    rewrite Htruthy. cbn [negb TelbooruBot.contains_post].
    unfold dict_mem. rewrite Hpost. by destruct posts.
Qed.

Lemma stored_session_invariant_witness :
  TelbooruBot.perform_batch_search_reply "cat" (JDict [("post", JStr "none")])
  = TelbooruBot.StoredText "cat" "none"
  /\ TelbooruBot.perform_batch_search_reply "cat"
       (JDict [("post", JList three_posts)])
     = TelbooruBot.Stored
         (TelbooruBot.perform_batch_search_state "cat" three_posts).
Proof.
  destruct (stored_session_invariant "cat" (JDict [("post", JStr "none")]))
    as (_ & Htext & _).
  destruct (stored_session_invariant "cat"
              (JDict [("post", JList three_posts)])) as (_ & _ & Hlist).
  split.
  - by apply (Htext [("post", JStr "none")] "none").
  - by apply (Hlist [("post", JList three_posts)] three_posts).
Defined.

(** X18. The alternate endpoint's answer reaches the search unnormalised:
    a non-empty bare list of posts is stored as a session when the primary
    request returns it, but when the primary request fails and the
    alternate one returns the very same list, [perform_batch_search]
    answers "Invalid response format" and stores nothing. *)
Theorem bare_list_only_from_primary (api : BooruAPIWrapper.t)
    (settings : UserSettings) (tags : string) (net : Net)
    (posts : list json) :
  BooruAPIWrapper.session api = true ->
  posts <> [] ->
  existsb (is_str "post") posts = false ->
  let key := BooruAPIWrapper.api_key api in
  let uid := BooruAPIWrapper.user_id api in
  let final_tags := TelbooruBot.perform_batch_search_tags tags settings in
  let primary := posts_request key uid 50 0 final_tags None None in
  let fallback := fallback_posts_request key uid 50 0 final_tags None in
  (upstream net (sent net) primary = Response (JList posts) ->
   TelbooruBot.perform_batch_search api settings tags net
   = (Ok (TelbooruBot.Stored
            (TelbooruBot.perform_batch_search_state final_tags posts)),
      after net [primary]))
  /\ (forall e,
        upstream net (sent net) primary = Fails e ->
        upstream net (sent net ++ [primary]) fallback = Response (JList posts) ->
        TelbooruBot.perform_batch_search api settings tags net
        = (Ok TelbooruBot.InvalidFormat, after net [primary; fallback])).
Proof.
  intros Hopen Hne Hnostr key uid final_tags primary fallback.
  unfold TelbooruBot.perform_batch_search, bind. fold final_tags.
  rewrite (wrapper_get_posts_run api 50 0 final_tags None None net Hopen).
  change (Z.min 50 100) with 50. fold key uid primary fallback.
  split.
  - intros ->. unfold ret. do 2 f_equal.
    unfold TelbooruBot.perform_batch_search_reply. cbn.
    destruct posts; [done|reflexivity].
  - intros e -> ->. unfold ret. do 2 f_equal.
    assert (Htruthy : truthy (JList posts) = true) by (by destruct posts).
    rewrite Htruthy.
    unfold TelbooruBot.perform_batch_search_reply. rewrite Htruthy.
    cbn [negb TelbooruBot.contains_post]. by rewrite Hnostr.
Qed.

Lemma bare_list_only_from_primary_witness :
  let failing := {| upstream := bare_list_upstream; sent := [] |} in
  let serving :=
    {| upstream := fun _ _ => Response (JList three_posts); sent := [] |} in
  (TelbooruBot.perform_batch_search anonymous_wrapper default_settings "cat"
     failing).1
  = Ok TelbooruBot.InvalidFormat
  /\ (TelbooruBot.perform_batch_search anonymous_wrapper default_settings "cat"
        serving).1
     = Ok (TelbooruBot.Stored
             (TelbooruBot.perform_batch_search_state "cat" three_posts)).
Proof.
  intros failing serving. split.
  - destruct (bare_list_only_from_primary anonymous_wrapper default_settings
                "cat" failing three_posts eq_refl ltac:(discriminate) eq_refl)
      as [_ Hfallback].
    by rewrite (Hfallback ClientConnectionError eq_refl eq_refl).
  - destruct (bare_list_only_from_primary anonymous_wrapper default_settings
                "cat" serving three_posts eq_refl ltac:(discriminate) eq_refl)
      as [Hprimary _].
    by rewrite (Hprimary eq_refl).
Defined.

(** ** The preference store *)

(** X19. What [save_user_settings] writes is what [get_user_settings]
    reads back, and the user then exists; every other user's file is
    untouched. When the file cannot be written the call raises
    [RepositoryDataException] and the store is as before. *)
Theorem user_settings_round_trip (self : UserRepository.t) (user_id : Z)
    (settings : UserSettings) :
  let out := UserRepository.save_user_settings user_id settings self in
  (if UserRepository.writable self
   then out.1 = Ok tt
        /\ UserRepository.get_user_settings user_id out.2 = (Ok settings, out.2)
        /\ UserRepository.user_exists user_id out.2 = (Ok true, out.2)
   else out = (Raise RepositoryDataException, self))
  /\ forall other,
       UserRepository.files out.2 !! other
       = if bool_decide (other = user_id) && UserRepository.writable self
         then Some (UserRepository.Pickled settings)
         else UserRepository.files self !! other.
Proof.
  intros out. subst out. unfold UserRepository.save_user_settings,
    UserRepository.get_user_settings, UserRepository.user_exists.
  destruct (UserRepository.writable self); cbn [fst snd UserRepository.files].
  - rewrite lookup_insert_eq. split; [done|]. intros other.
    case_bool_decide as Hother; cbn [andb].
    + subst other. by rewrite lookup_insert_eq.
    + by rewrite lookup_insert_ne.
  - split; [done|]. intros other. by rewrite andb_false_r.
Qed.

(** X20. [delete_user] on a store that can be written to: it returns
    whether the user had a file; afterwards the user does not exist, reads
    as the default settings, a second delete returns [False] and changes
    nothing, and every other user's file is untouched. *)
Theorem delete_user_forgets (self : UserRepository.t) (user_id : Z) :
  UserRepository.writable self = true ->
  let out := UserService.delete_user user_id self in
  out.1 = Ok (bool_decide (is_Some (UserRepository.files self !! user_id)))
  /\ UserService.user_exists user_id out.2 = (Ok false, out.2)
  /\ UserService.get_settings user_id out.2 = (Ok default_settings, out.2)
  /\ UserService.delete_user user_id out.2 = (Ok false, out.2)
  /\ forall other, other <> user_id ->
       UserRepository.files out.2 !! other = UserRepository.files self !! other.
Proof.
  intros Hw out. subst out.
  unfold UserService.delete_user, UserService.user_exists,
    UserService.get_settings, UserRepository.delete_user_settings,
    UserRepository.user_exists, UserRepository.get_user_settings.
  destruct (UserRepository.files self !! user_id) as [file|] eqn:Hfile.
  - rewrite Hw. cbn [fst snd UserRepository.files].
    rewrite lookup_delete_eq. rewrite bool_decide_eq_true_2 by eauto.
    repeat (split; [done|]). intros other Hne. by rewrite lookup_delete_ne.
  - cbn [fst snd]. rewrite Hfile.
    rewrite bool_decide_eq_false_2 by (by intros [? ?]). done.
Qed.

Lemma delete_user_forgets_witness :
  let stored :=
    {| UserRepository.files :=
         {[ 42 := UserRepository.Pickled
                    {| auto_tags := ["rating:safe"]; toggle_rules := [] |} ]};
       UserRepository.writable := true |} in
  (UserService.delete_user 42 stored).1 = Ok true
  /\ UserService.get_settings 42 (UserService.delete_user 42 stored).2
     = (Ok default_settings, (UserService.delete_user 42 stored).2).
Proof.
  intros stored.
  destruct (delete_user_forgets stored 42 eq_refl) as (Hret & _ & Hget & _).
  split; [exact Hret | exact Hget].
Defined.

Lemma bulk_update_settings_read_only (updates : list (Z * UserSettings))
    (self : UserRepository.t) :
  UserRepository.writable self = false ->
  UserRepository.bulk_update_settings updates self = (Ok 0, self).
Proof.
  intros Hw. induction updates as [|[u s] updates IH]; [done|].
  cbn [UserRepository.bulk_update_settings].
  by rewrite save_user_settings_fails.
Qed.

Lemma bulk_update_settings_writable (updates : list (Z * UserSettings))
    (self : UserRepository.t) :
  UserRepository.writable self = true ->
  exists self',
    UserRepository.bulk_update_settings updates self
    = (Ok (Z.of_nat (length updates)), self')
    /\ UserRepository.writable self' = true
    /\ (forall user_id, user_id ∉ updates.*1 ->
          UserRepository.files self' !! user_id
          = UserRepository.files self !! user_id)
    /\ (NoDup updates.*1 ->
        forall user_id settings, (user_id, settings) ∈ updates ->
          UserRepository.files self' !! user_id
          = Some (UserRepository.Pickled settings)).
Proof.
  revert self. induction updates as [|[u s] updates IH]; intros self Hw.
  - exists self. split; [done|]. split; [done|]. split; [done|].
    intros _ user_id settings Hin. by apply elem_of_nil in Hin.
  - cbn [UserRepository.bulk_update_settings].
    unfold UserRepository.save_user_settings at 1. rewrite Hw.
    set (self1 := {| UserRepository.files := _; UserRepository.writable := _ |}).
    destruct (IH self1 eq_refl) as (self' & -> & Hw' & Hout & Hin).
    exists self'. split; [do 2 f_equal; cbn [length]; lia|].
    split; [done|]. split.
    + intros user_id Hnotin. rewrite Hout.
      * subst self1. cbn. rewrite lookup_insert_ne; [done|].
        intros ->. apply Hnotin. cbn. by left.
      * intros Hin'. apply Hnotin. cbn. by right.
    + intros [Hu Hnodup]%NoDup_cons user_id settings
        [[= -> ->]|Hmem]%elem_of_cons.
      * rewrite Hout by done. subst self1. cbn. by rewrite lookup_insert_eq.
      * by apply Hin.
Qed.

(** X21. [bulk_update_settings] never raises: it returns the number of
    updates when the files can be written and 0, with the store as it
    was, when they cannot; when they can, every user of the mapping reads
    back the settings given for that user and nobody else's file
    changes. *)
Theorem bulk_update_settings_count (updates : list (Z * UserSettings))
    (self : UserRepository.t) :
  NoDup updates.*1 ->
  let out := UserRepository.bulk_update_settings updates self in
  out.1 = Ok (if UserRepository.writable self
              then Z.of_nat (length updates) else 0)
  /\ (UserRepository.writable self = false -> out.2 = self)
  /\ (UserRepository.writable self = true ->
      forall user_id settings, (user_id, settings) ∈ updates ->
        UserRepository.get_user_settings user_id out.2 = (Ok settings, out.2))
  /\ forall user_id, user_id ∉ updates.*1 ->
       UserRepository.files out.2 !! user_id
       = UserRepository.files self !! user_id.
Proof.
  intros Hnodup out. subst out.
  destruct (UserRepository.writable self) eqn:Hw.
  - destruct (bulk_update_settings_writable updates self Hw)
      as (self' & -> & _ & Hout & Hin).
    cbn [fst snd]. split; [done|]. split; [done|]. split; [|done].
    intros _ user_id settings Hmem.
    unfold UserRepository.get_user_settings.
    by rewrite (Hin Hnodup user_id settings Hmem).
  - rewrite bulk_update_settings_read_only by done. done.
Qed.

Lemma bulk_update_settings_count_witness :
  let updates :=
    [(1, {| auto_tags := ["rating:safe"]; toggle_rules := [] |});
     (2, default_settings)] in
  (UserRepository.bulk_update_settings updates fresh_store).1 = Ok 2
  /\ UserRepository.get_user_settings 1
       (UserRepository.bulk_update_settings updates fresh_store).2
     = (Ok {| auto_tags := ["rating:safe"]; toggle_rules := [] |},
        (UserRepository.bulk_update_settings updates fresh_store).2).
Proof.
  intros updates.
  assert (Hnodup : NoDup updates.*1)
    by (eapply bool_decide_unpack; by vm_compute).
  destruct (bulk_update_settings_count updates fresh_store Hnodup)
    as (Hcount & _ & Hread & _).
  split; [exact Hcount|].
  apply (Hread eq_refl). by left.
Defined.

(** ** Auto-tags by index and by name *)

Lemma load_user_settings_run (self : UserRepository.t) (user_id : Z) :
  UserDataManager.load_user_settings user_id self
  = (Ok (settings_of self user_id), self).
Proof.
  unfold UserDataManager.load_user_settings, settings_of.
  by destruct (UserRepository.files self !! user_id) as [[]|].
Qed.

Lemma manager_save_user_settings_run (self : UserRepository.t) (user_id : Z)
    (settings : UserSettings) :
  UserDataManager.save_user_settings user_id settings self
  = (Ok tt,
     if UserRepository.writable self
     then (UserRepository.save_user_settings user_id settings self).2
     else self).
Proof.
  unfold UserDataManager.save_user_settings,
    UserRepository.save_user_settings.
  by destruct (UserRepository.writable self).
Qed.

(** X22. Removal by index checks both bounds, in the service and in the
    callback of src/main.py alike: a negative index or one at or beyond
    the number of auto-tags removes nothing and writes nothing (the
    service returns [False], the callback announces nothing); an index
    inside the bounds removes exactly the tag at that index, leaves the
    rules alone, and the callback announces that tag. *)
Theorem remove_auto_tag_by_index_bounds (self : UserRepository.t)
    (user_id index : Z) :
  let tags := auto_tags (settings_of self user_id) in
  let out := UserService.remove_auto_tag_by_index user_id index self in
  let announced := TelbooruBot.handle_autotag_callback_remove user_id index self in
  (index < 0 \/ Z.of_nat (length tags) <= index ->
   out = (Ok false, self) /\ announced = (Ok None, self))
  /\ (0 <= index < Z.of_nat (length tags) ->
      UserRepository.writable self = true ->
      out.1 = Ok true
      /\ settings_of out.2 user_id
         = {| auto_tags := delete (Z.to_nat index) tags;
              toggle_rules := toggle_rules (settings_of self user_id) |}
      /\ Z.of_nat (length (auto_tags (settings_of out.2 user_id)))
         = Z.of_nat (length tags) - 1
      /\ announced = (Ok (tags !! Z.to_nat index), out.2)
      /\ is_Some (tags !! Z.to_nat index)).
Proof.
  intros tags out announced. subst out announced.
  unfold UserService.remove_auto_tag_by_index,
    TelbooruBot.handle_autotag_callback_remove,
    UserService.get_settings, UserService.save_settings, bind.
  rewrite get_user_settings_run, load_user_settings_run. fold tags. split.
  - intros Hout.
    destruct (Z.ltb_spec index 0), (Z.leb_spec (Z.of_nat (length tags)) index),
      (Z.leb_spec 0 index), (Z.ltb_spec index (Z.of_nat (length tags)));
      try lia; done.
  - intros Hin Hw.
    destruct (Z.ltb_spec index 0), (Z.leb_spec (Z.of_nat (length tags)) index),
      (Z.leb_spec 0 index), (Z.ltb_spec index (Z.of_nat (length tags)));
      try lia.
    cbn [orb andb]. rewrite manager_save_user_settings_run, Hw.
    destruct (save_user_settings_run self user_id
                {| auto_tags := delete (Z.to_nat index) tags;
                   toggle_rules := toggle_rules (settings_of self user_id) |} Hw)
      as (self' & -> & _ & Hset & _).
    cbn [fst snd ret]. rewrite Hset. cbn [auto_tags].
    assert (Hsome : is_Some (tags !! Z.to_nat index))
      by (apply lookup_lt_is_Some_2; lia).
    repeat (split; [done|]). split; [|split; [done|exact Hsome]].
    rewrite length_delete by done.
    assert (0 < length tags)%nat by lia. lia.
Qed.

Lemma remove_auto_tag_by_index_bounds_witness :
  let stored :=
    {| UserRepository.files :=
         {[ 42 := UserRepository.Pickled
                    {| auto_tags := ["a"; "b"; "c"]; toggle_rules := [] |} ]};
       UserRepository.writable := true |} in
  UserService.remove_auto_tag_by_index 42 (-1) stored = (Ok false, stored)
  /\ auto_tags
       (settings_of (UserService.remove_auto_tag_by_index 42 1 stored).2 42)
     = ["a"; "c"].
Proof.
  intros stored. split.
  - destruct (remove_auto_tag_by_index_bounds stored 42 (-1)) as [Hout _].
    destruct Hout as [Hout _]; [left; lia | exact Hout].
  - destruct (remove_auto_tag_by_index_bounds stored 42 1) as [_ Hin].
    destruct Hin as (_ & Hset & _); [vm_compute; by split | reflexivity |].
    by rewrite Hset.
Defined.

Lemma list_remove_snoc (tag : string) (l : list string) :
  tag ∉ l -> list_remove tag (l ++ [tag]) = l.
Proof.
  induction l as [|x l IH]; intros Hnotin; cbn.
  - by rewrite decide_True.
  - rewrite decide_False by (intros ->; apply Hnotin; by left).
    rewrite IH; [done|]. intros ?. apply Hnotin. by right.
Qed.

Lemma elem_of_list_remove (tag x : string) (l : list string) :
  NoDup l -> x ∈ list_remove tag l <-> x ∈ l /\ x <> tag.
Proof.
  intros Hl. induction Hl as [|y l Hy Hl IH]; cbn.
  - split; [by intros ?%elem_of_nil | by intros [?%elem_of_nil _]].
  - destruct (decide (tag = y)) as [<-|Hne].
    + split.
      * intros Hx. split; [by right|]. by intros ->.
      * intros [[->|Hx]%elem_of_cons Hxt]; done.
    + rewrite !elem_of_cons, IH. split.
      * intros [->|[Hx Hxt]]; [split; [by left | congruence]|].
        split; [by right | done].
      * intros [[->|Hx] Hxt]; [by left | by right].
Qed.

(** X23. Removing an auto-tag by name on a writable store. A tag that is
    not there is answered [False] and nothing is written. A tag that is
    there is gone afterwards (the lists the service builds hold no tag
    twice), every other tag stays, and the rules are untouched. Adding a
    new tag and removing it again brings the user's settings back to what
    they were. *)
Theorem remove_auto_tag_removes (self : UserRepository.t) (user_id : Z)
    (tag : string) :
  UserRepository.writable self = true ->
  NoDup (auto_tags (settings_of self user_id)) ->
  let tags := auto_tags (settings_of self user_id) in
  let removed := UserService.remove_auto_tag user_id tag self in
  let added := UserService.add_auto_tag user_id tag self in
  (tag ∉ tags ->
   removed = (Ok false, self)
   /\ added.1 = Ok true
   /\ (UserService.remove_auto_tag user_id tag added.2).1 = Ok true
   /\ settings_of (UserService.remove_auto_tag user_id tag added.2).2 user_id
      = settings_of self user_id)
  /\ (tag ∈ tags ->
      removed.1 = Ok true
      /\ (tag ∉ auto_tags (settings_of removed.2 user_id))
      /\ (forall other, other <> tag ->
            (other ∈ auto_tags (settings_of removed.2 user_id)
             <-> other ∈ tags))
      /\ toggle_rules (settings_of removed.2 user_id)
         = toggle_rules (settings_of self user_id)).
Proof.
  intros Hw Hnodup tags removed added.
  assert (Hremove : forall repo,
    UserRepository.writable repo = true ->
    tag ∈ auto_tags (settings_of repo user_id) ->
    (UserService.remove_auto_tag user_id tag repo).1 = Ok true
    /\ settings_of (UserService.remove_auto_tag user_id tag repo).2 user_id
       = {| auto_tags := list_remove tag (auto_tags (settings_of repo user_id));
            toggle_rules := toggle_rules (settings_of repo user_id) |}).
  { intros repo Hrw Hin. unfold UserService.remove_auto_tag,
      UserService.get_settings, UserService.save_settings, bind.
    rewrite get_user_settings_run. rewrite bool_decide_eq_true_2 by done.
    cbn [negb].
    destruct (save_user_settings_run repo user_id
                {| auto_tags :=
                     list_remove tag (auto_tags (settings_of repo user_id));
                   toggle_rules := toggle_rules (settings_of repo user_id) |}
                Hrw) as (repo' & -> & _ & Hset & _).
    done. }
  split.
  - intros Hnotin.
    destruct (add_auto_tag_run self user_id tag) as (_ & _ & Hadd).
    destruct (Hadd Hnotin Hw) as (self' & Hrun & Hw' & Htags & Hrules & _).
    subst removed added. rewrite Hrun. cbn [fst snd].
    split.
    { unfold UserService.remove_auto_tag, UserService.get_settings, bind.
      rewrite get_user_settings_run. fold tags.
      by rewrite bool_decide_eq_false_2. }
    split; [done|].
    destruct (Hremove self' Hw') as [Hret Hset].
    { rewrite Htags. apply elem_of_app. right. by apply list_elem_of_singleton. }
    split; [exact Hret|]. rewrite Hset, Htags, Hrules.
    rewrite list_remove_snoc by done. subst tags.
    by destruct (settings_of self user_id).
  - intros Hin. destruct (Hremove self Hw Hin) as [Hret Hset].
    subst removed. split; [exact Hret|]. rewrite Hset. cbn [auto_tags toggle_rules].
    split; [|split; [|done]].
    + intros Htag. apply (elem_of_list_remove tag tag) in Htag; [|done].
      by destruct Htag.
    + intros other Hother. rewrite elem_of_list_remove by done. fold tags.
      split; [by intros [? _] | by intros ?].
Qed.

Lemma remove_auto_tag_removes_witness :
  let stored :=
    {| UserRepository.files :=
         {[ 42 := UserRepository.Pickled
                    {| auto_tags := ["a"; "b"]; toggle_rules := [] |} ]};
       UserRepository.writable := true |} in
  ("a" ∉ auto_tags
            (settings_of (UserService.remove_auto_tag 42 "a" stored).2 42))
  /\ settings_of
       (UserService.remove_auto_tag 42 "c"
          (UserService.add_auto_tag 42 "c" stored).2).2 42
     = settings_of stored 42.
Proof.
  intros stored.
  assert (Hnodup : NoDup (auto_tags (settings_of stored 42)))
    by (eapply bool_decide_unpack; by vm_compute).
  split.
  - destruct (remove_auto_tag_removes stored 42 "a" eq_refl Hnodup) as [_ Hin].
    destruct Hin as (_ & Hgone & _); [by left | exact Hgone].
  - destruct (remove_auto_tag_removes stored 42 "c" eq_refl Hnodup) as [Hout _].
    destruct Hout as (_ & _ & _ & Hback); [|exact Hback].
    eapply bool_decide_unpack; by vm_compute.
Defined.

(** ** What a call changes *)

Lemma save_user_settings_snd (self : UserRepository.t) (user_id : Z)
    (settings : UserSettings) :
  (UserRepository.save_user_settings user_id settings self).2
  = if UserRepository.writable self
    then {| UserRepository.files :=
              <[user_id := UserRepository.Pickled settings]>
                (UserRepository.files self);
            UserRepository.writable := true |}
    else self.
Proof.
  unfold UserRepository.save_user_settings.
  by destruct (UserRepository.writable self).
Qed.

Lemma save_user_settings_frame (self : UserRepository.t) (user_id : Z)
    (settings : UserSettings) :
  let self' := (UserRepository.save_user_settings user_id settings self).2 in
  UserRepository.writable self' = UserRepository.writable self
  /\ (forall other, other <> user_id ->
        UserRepository.files self' !! other = UserRepository.files self !! other)
  /\ (auto_tags settings = auto_tags (settings_of self user_id) ->
      auto_tags (settings_of self' user_id)
      = auto_tags (settings_of self user_id))
  /\ (toggle_rules settings = toggle_rules (settings_of self user_id) ->
      toggle_rules (settings_of self' user_id)
      = toggle_rules (settings_of self user_id)).
Proof.
  intros self'. subst self'. rewrite save_user_settings_snd.
  destruct (UserRepository.writable self) eqn:Hw; [|done].
  cbn [UserRepository.files UserRepository.writable].
  split; [done|]. split; [intros other Hne; by rewrite lookup_insert_ne|].
  split; intros Heq; unfold settings_of at 1;
    cbn [UserRepository.files]; by rewrite lookup_insert_eq.
Qed.

Ltac frame_save :=
  match goal with
  | |- context [UserRepository.save_user_settings ?u ?s ?self] =>
      destruct (save_user_settings_frame self u s) as (? & ? & ? & ?)
  end; auto.

(** X24. Every mutating call of [UserService] changes at most the file
    of the user it is made for, and only its own half of that user's
    settings: the auto-tag calls leave the user's rules as they were, the
    rule calls leave the user's auto-tags as they were. *)
Theorem commands_touch_their_own (c : command) (self : UserRepository.t) :
  let self' := run_command c self in
  UserRepository.writable self' = UserRepository.writable self
  /\ (forall other, other <> user_of c ->
        UserRepository.files self' !! other = UserRepository.files self !! other)
  /\ match c with
     | AddAutoTag u _ | RemoveAutoTag u _ | RemoveAutoTagByIndex u _
     | ClearAutoTags u =>
         toggle_rules (settings_of self' u) = toggle_rules (settings_of self u)
     | ToggleRule u _ | SetRule u _ _ | ClearRules u =>
         auto_tags (settings_of self' u) = auto_tags (settings_of self u)
     | ResetUser _ | DeleteUser _ => True
     end.
Proof.
  intros self'. assert (Hrun : self' = run_command c self) by reflexivity.
  clearbody self'.
  destruct c as [u tag|u tag|u i|u|u rule|u rule enabled|u|u|u];
    cbn [run_command user_of] in *;
    unfold UserService.add_auto_tag, UserService.remove_auto_tag,
      UserService.remove_auto_tag_by_index, UserService.clear_auto_tags,
      UserService.toggle_rule, UserService.set_rule, UserService.clear_rules,
      UserService.reset_user, UserService.delete_user,
      UserService.get_settings, UserService.save_settings in Hrun;
    try (unfold bind at 1 in Hrun; rewrite get_user_settings_run in Hrun).
  - case_bool_decide; [by subst self'|]. rewrite bind_ret_snd in Hrun.
    subst self'. frame_save.
  - case_bool_decide; [|by subst self']. cbn [negb] in Hrun.
    rewrite bind_ret_snd in Hrun. subst self'. frame_save.
  - destruct (_ || _); [by subst self'|]. rewrite bind_ret_snd in Hrun.
    subst self'. frame_save.
  - rewrite bind_ret_snd in Hrun. subst self'. frame_save.
  - rewrite bind_ret_snd in Hrun. subst self'. frame_save.
  - subst self'. frame_save.
  - rewrite bind_ret_snd in Hrun. subst self'. frame_save.
  - subst self'. frame_save.
  - subst self'. unfold UserRepository.delete_user_settings.
    destruct (UserRepository.files self !! u); [|done].
    destruct (UserRepository.writable self) eqn:Hw; [|done].
    cbn. split; [done|]. split; [|done].
    intros other Hne. by rewrite lookup_delete_ne.
Qed.

Lemma commands_touch_their_own_witness :
  let stored :=
    {| UserRepository.files :=
         {[ 7 := UserRepository.Pickled
                   {| auto_tags := ["a"]; toggle_rules := [("x", true)] |} ]};
       UserRepository.writable := true |} in
  UserRepository.files (run_command (ClearAutoTags 42) stored) !! 7
  = UserRepository.files stored !! 7.
Proof.
  intros stored.
  destruct (commands_touch_their_own (ClearAutoTags 42) stored)
    as (_ & Hother & _).
  apply Hother. cbn. lia.
Defined.

(** ** Enabled rules *)

Lemma dict_set_keys {V} (k k' : string) (v : V) (d : pydict V) :
  k' ∈ (dict_set k v d).*1 <-> k' = k \/ k' ∈ d.*1.
Proof.
  induction d as [|[k2 v2] d IH]; cbn.
  - rewrite list_elem_of_singleton, elem_of_nil. tauto.
  - destruct (decide (k = k2)) as [->|Hne]; cbn; rewrite !elem_of_cons.
    + tauto.
    + rewrite IH. tauto.
Qed.

Lemma dict_set_NoDup {V} (k : string) (v : V) (d : pydict V) :
  NoDup d.*1 -> NoDup (dict_set k v d).*1.
Proof.
  induction d as [|[k2 v2] d IH]; cbn; intros Hd.
  - apply NoDup_singleton.
  - apply NoDup_cons in Hd as [Hk2 Hd].
    destruct (decide (k = k2)) as [->|Hne]; cbn; apply NoDup_cons.
    + done.
    + split; [|by apply IH]. rewrite dict_set_keys. intros [->|?]; done.
Qed.

Lemma dict_get_keys {V} (k : string) (v : V) (d : pydict V) :
  dict_get k d = Some v -> k ∈ d.*1.
Proof.
  induction d as [|[k2 v2] d IH]; cbn; [done|].
  destruct (decide (k = k2)) as [->|Hne]; [by left|].
  intros Hget. right. by apply IH.
Qed.

Lemma dict_get_elem {V} (k : string) (v : V) (d : pydict V) :
  NoDup d.*1 -> (k, v) ∈ d <-> dict_get k d = Some v.
Proof.
  induction d as [|[k2 v2] d IH]; cbn [dict_get]; intros Hd.
  - split; [by intros ?%elem_of_nil | done].
  - cbn in Hd. apply NoDup_cons in Hd as [Hk2 Hd]. specialize (IH Hd).
    rewrite elem_of_cons.
    destruct (decide (k = k2)) as [->|Hne].
    + split; [|intros [= ->]; by left].
      intros [[= ->]|Hin]; [done|].
      destruct Hk2. apply list_elem_of_fmap. by exists (k2, v).
    + rewrite <- IH. split; [|by right]. by intros [[= -> _]|?].
Qed.

Lemma enabled_elem (k : string) (d : pydict bool) :
  NoDup d.*1 ->
  k ∈ map fst (filter (fun kv => snd kv = true) d) <-> dict_get k d = Some true.
Proof.
  intros Hd. rewrite <- dict_get_elem by done. split.
  - intros ([k' b] & -> & [Hb Hin]%list_elem_of_filter)%list_elem_of_fmap.
    cbn in Hb. by subst b.
  - intros Hin. apply list_elem_of_fmap. exists (k, true). split; [done|].
    by apply list_elem_of_filter.
Qed.

Lemma sublist_map {A B} (f : A -> B) (l1 l2 : list A) :
  l1 `sublist_of` l2 -> (f <$> l1) `sublist_of` (f <$> l2).
Proof. induction 1; cbn; by constructor. Qed.

Lemma enabled_NoDup (d : pydict bool) :
  NoDup d.*1 -> NoDup (map fst (filter (fun kv => snd kv = true) d)).
Proof.
  intros Hd. eapply sublist_NoDup; [exact Hd|].
  apply sublist_map, sublist_filter.
Qed.

Lemma toggle_rule_settings (self : UserRepository.t) (user_id : Z)
    (rule : string) :
  UserRepository.writable self = true ->
  settings_of (UserService.toggle_rule user_id rule self).2 user_id
  = {| auto_tags := auto_tags (settings_of self user_id);
       toggle_rules :=
         dict_set rule (negb (rule_enabled self user_id rule))
           (toggle_rules (settings_of self user_id)) |}.
Proof.
  intros Hw. unfold UserService.toggle_rule, UserService.get_settings,
    UserService.save_settings. unfold bind at 1.
  rewrite get_user_settings_run, bind_ret_snd.
  set (current := match dict_get rule _ with Some b => b | None => false end).
  assert (Hcurrent : current = rule_enabled self user_id rule).
  { subst current. unfold rule_enabled.
    by destruct (dict_get rule (toggle_rules (settings_of self user_id))). }
  rewrite Hcurrent.
  destruct (save_user_settings_run self user_id
              {| auto_tags := auto_tags (settings_of self user_id);
                 toggle_rules :=
                   dict_set rule (negb (rule_enabled self user_id rule))
                     (toggle_rules (settings_of self user_id)) |} Hw)
    as (self' & -> & _ & Hset & _).
  exact Hset.
Qed.

(** X25. The rules [get_enabled_rules] lists, which are the rules a
    search applies, are exactly the rules that are on, each listed once;
    and on a writable store [toggle_rule] flips the membership of its rule
    in that list and of no other rule. The rule names of a mapping are
    distinct, and stay so. *)
Theorem enabled_rules_follow_toggles (self : UserRepository.t) (user_id : Z)
    (rule : string) :
  UserRepository.writable self = true ->
  NoDup (toggle_rules (settings_of self user_id)).*1 ->
  let enabled repo :=
    map fst (filter (fun kv => snd kv = true)
               (toggle_rules (settings_of repo user_id))) in
  let toggled := (UserService.toggle_rule user_id rule self).2 in
  UserService.get_enabled_rules user_id self = (Ok (enabled self), self)
  /\ NoDup (enabled self)
  /\ (forall r, r ∈ enabled self <-> rule_enabled self user_id r = true)
  /\ NoDup (toggle_rules (settings_of toggled user_id)).*1
  /\ (rule ∈ enabled toggled <-> rule ∉ enabled self)
  /\ (forall r, r <> rule -> (r ∈ enabled toggled <-> r ∈ enabled self)).
Proof.
  intros Hw Hkeys enabled toggled.
  assert (Hon : forall repo r,
    NoDup (toggle_rules (settings_of repo user_id)).*1 ->
    r ∈ enabled repo <-> rule_enabled repo user_id r = true).
  { intros repo r Hd. subst enabled. cbn beta. rewrite enabled_elem by done.
    unfold rule_enabled.
    destruct (dict_get r (toggle_rules (settings_of repo user_id)))
      as [[]|]; cbn; split; congruence. }
  assert (Hkeys' : NoDup (toggle_rules (settings_of toggled user_id)).*1).
  { subst toggled. rewrite toggle_rule_settings by done.
    by apply dict_set_NoDup. }
  assert (Hflip : forall r, rule_enabled toggled user_id r
    = if decide (r = rule) then negb (rule_enabled self user_id r)
      else rule_enabled self user_id r).
  { intros r. unfold rule_enabled at 1. subst toggled.
    rewrite toggle_rule_settings by done. cbn [toggle_rules].
    destruct (decide (r = rule)) as [->|Hne].
    - by rewrite dict_get_set_eq.
    - by rewrite dict_get_set_ne. }
  split.
  { unfold UserService.get_enabled_rules, UserService.get_settings, bind.
    by rewrite get_user_settings_run. }
  split; [by apply enabled_NoDup|].
  split; [intros r; by apply Hon|].
  split; [done|]. split.
  - rewrite !Hon, Hflip by done. rewrite decide_True by done.
    destruct (rule_enabled self user_id rule); cbn; split; congruence.
  - intros r Hne. rewrite !Hon, Hflip by done. by rewrite decide_False.
Qed.

Lemma enabled_rules_follow_toggles_witness :
  let stored :=
    {| UserRepository.files :=
         {[ 42 := UserRepository.Pickled
                    {| auto_tags := [];
                       toggle_rules := [("rating:safe", true); ("x", false)] |} ]};
       UserRepository.writable := true |} in
  UserService.get_enabled_rules 42 stored = (Ok ["rating:safe"], stored)
  /\ NoDup (toggle_rules
              (settings_of (UserService.toggle_rule 42 "x" stored).2 42)).*1.
Proof.
  intros stored.
  assert (Hkeys : NoDup (toggle_rules (settings_of stored 42)).*1)
    by (eapply bool_decide_unpack; by vm_compute).
  destruct (enabled_rules_follow_toggles stored 42 "x" eq_refl Hkeys)
    as (Hlist & _ & _ & Hkeys' & _).
  split; [exact Hlist | exact Hkeys'].
Defined.

(** ** Auto-tags typed by the user *)

Lemma lstrip_idempotent (s : string) : lstrip (lstrip s) = lstrip s.
Proof.
  induction s as [|c s IH]; [done|]. cbn [lstrip].
  destruct (is_space c) eqn:Hc; [done|]. cbn [lstrip]. by rewrite Hc.
Qed.

Lemma rstrip_idempotent (s : string) : rstrip (rstrip s) = rstrip s.
Proof.
  induction s as [|c s IH]; [done|]. cbn [rstrip].
  destruct (rstrip s) as [|a r] eqn:Hr.
  - destruct (is_space c) eqn:Hc; [done|]. cbn [rstrip]. by rewrite Hc.
  - cbn [rstrip] in *. by rewrite IH.
Qed.

Lemma lstrip_rstrip (s : string) : lstrip s = s -> lstrip (rstrip s) = rstrip s.
Proof.
  destruct s as [|c s]; [done|]. cbn [lstrip]. intros Hs.
  destruct (is_space c) eqn:Hc.
  - pose proof (lstrip_length s) as Hlen. rewrite Hs in Hlen. cbn in Hlen. lia.
  - cbn [rstrip]. destruct (rstrip s); rewrite ?Hc; cbn [lstrip]; by rewrite Hc.
Qed.

Lemma strip_trimmed (s : string) : strip s = "" \/ trimmed (strip s).
Proof.
  destruct (decide (strip s = "")) as [|Hne]; [by left|]. right.
  split; [done|]. unfold strip. split.
  - apply lstrip_rstrip, lstrip_idempotent.
  - apply rstrip_idempotent.
Qed.

(** X26. [process_autotag_addition] keeps the stored auto-tags clean: the
    text is trimmed first; an empty result is refused as invalid, a tag
    already stored is refused as a duplicate, anything else is appended;
    so a list of distinct, non-empty tags without surrounding whitespace
    is still one after any text the user sends. *)
Theorem process_autotag_addition_keeps_clean (self : UserRepository.t)
    (user_id : Z) (tag_text : string) :
  let tags := auto_tags (settings_of self user_id) in
  let tag := strip tag_text in
  let out := TelbooruBot.process_autotag_addition user_id tag_text self in
  Forall trimmed tags -> NoDup tags ->
  out.1 = Ok (if bool_decide (tag = "") then TelbooruBot.InvalidTag
              else if bool_decide (tag ∈ tags) then TelbooruBot.AlreadyThere
              else TelbooruBot.Added)
  /\ auto_tags (settings_of out.2 user_id)
     = (if negb (bool_decide (tag = "")) && negb (bool_decide (tag ∈ tags))
           && UserRepository.writable self
        then tags ++ [tag] else tags)
  /\ Forall trimmed (auto_tags (settings_of out.2 user_id))
  /\ NoDup (auto_tags (settings_of out.2 user_id)).
Proof.
  intros tags tag out Htrimmed Hnodup.
  assert (Hout : out
    = (Ok (if bool_decide (tag = "") then TelbooruBot.InvalidTag
           else if bool_decide (tag ∈ tags) then TelbooruBot.AlreadyThere
           else TelbooruBot.Added),
       if negb (bool_decide (tag = "")) && negb (bool_decide (tag ∈ tags))
          && UserRepository.writable self
       then (UserRepository.save_user_settings user_id
               {| auto_tags := tags ++ [tag];
                  toggle_rules := toggle_rules (settings_of self user_id) |}
               self).2
       else self)).
  { subst out. unfold TelbooruBot.process_autotag_addition. fold tag.
    case_bool_decide as Hempty.
    - by rewrite Hempty.
    - assert (Htruthy : str_truthy tag = true) by (by destruct tag).
      rewrite Htruthy. cbn [negb andb]. unfold bind at 1.
      rewrite load_user_settings_run. fold tags.
      case_bool_decide as Hin; [done|]. cbn [negb andb].
      unfold bind. rewrite manager_save_user_settings_run.
      by destruct (UserRepository.writable self). }
  assert (Htags : auto_tags (settings_of out.2 user_id)
    = (if negb (bool_decide (tag = "")) && negb (bool_decide (tag ∈ tags))
          && UserRepository.writable self
       then tags ++ [tag] else tags)).
  { rewrite Hout. cbn [snd].
    destruct (negb (bool_decide (tag = "")) && negb (bool_decide (tag ∈ tags)))
      eqn:Hnew; [|done].
    destruct (UserRepository.writable self) eqn:Hw; [|done]. cbn [andb].
    destruct (save_user_settings_run self user_id
                {| auto_tags := tags ++ [tag];
                   toggle_rules := toggle_rules (settings_of self user_id) |} Hw)
      as (self' & -> & _ & Hset & _).
    cbn [snd]. by rewrite Hset. }
  split; [by rewrite Hout|]. split; [exact Htags|]. rewrite Htags.
  case_bool_decide as Hempty; [done|]. case_bool_decide as Hin; [done|].
  destruct (UserRepository.writable self); [|done]. cbn [negb andb]. split.
  - apply Forall_app. split; [done|]. apply Forall_singleton.
    by destruct (strip_trimmed tag_text).
  - apply NoDup_app. split; [done|]. split; [|apply NoDup_singleton].
    by intros x Hx ->%list_elem_of_singleton.
Qed.

Lemma process_autotag_addition_keeps_clean_witness :
  (TelbooruBot.process_autotag_addition 42 "  rating:safe " fresh_store).1
  = Ok TelbooruBot.Added
  /\ auto_tags
       (settings_of
          (TelbooruBot.process_autotag_addition 42 "  rating:safe "
             fresh_store).2 42)
     = ["rating:safe"].
Proof.
  destruct (process_autotag_addition_keeps_clean fresh_store 42
              "  rating:safe " (Forall_nil_2 _) NoDup_nil_2)
    as (Hret & Htags & _).
  split; [exact Hret | exact Htags].
Defined.

(** X27. When the user's file cannot be written, the handlers of
    src/main.py announce a change that was not stored: the toggle
    callback answers with the flipped state and the auto-tag input with
    "added", and the store is as before, so the same answer comes again;
    the service's [toggle_rule] and [add_auto_tag] raise
    [RepositoryDataException] on the same store. *)
Theorem failed_write_is_announced (self : UserRepository.t) (user_id : Z)
    (rule tag_text : string) :
  UserRepository.writable self = false ->
  TelbooruBot.handle_toggle_callback user_id rule self
  = (Ok (negb (rule_enabled self user_id rule)), self)
  /\ UserService.toggle_rule user_id rule self
     = (Raise RepositoryDataException, self)
  /\ (strip tag_text <> "" ->
      strip tag_text ∉ auto_tags (settings_of self user_id) ->
      TelbooruBot.process_autotag_addition user_id tag_text self
      = (Ok TelbooruBot.Added, self)
      /\ UserService.add_auto_tag user_id (strip tag_text) self
         = (Raise RepositoryDataException, self)).
Proof.
  intros Hw. split; [|split].
  - unfold TelbooruBot.handle_toggle_callback. unfold bind at 1.
    rewrite load_user_settings_run. unfold bind.
    rewrite manager_save_user_settings_run, Hw. unfold ret, rule_enabled.
    by destruct (dict_get rule (toggle_rules (settings_of self user_id))).
  - unfold UserService.toggle_rule, UserService.get_settings,
      UserService.save_settings. unfold bind at 1.
    rewrite get_user_settings_run. unfold bind.
    by rewrite save_user_settings_fails.
  - intros Hne Hnotin. split.
    + unfold TelbooruBot.process_autotag_addition.
      assert (Htruthy : str_truthy (strip tag_text) = true)
        by (by destruct (strip tag_text)).
      rewrite Htruthy. cbn [negb]. unfold bind at 1.
      rewrite load_user_settings_run.
      rewrite bool_decide_eq_false_2 by done. unfold bind.
      by rewrite manager_save_user_settings_run, Hw.
    + destruct (add_auto_tag_run self user_id (strip tag_text))
        as (_ & Hfail & _). by apply Hfail.
Qed.

Lemma failed_write_is_announced_witness :
  let read_only :=
    {| UserRepository.files := ∅; UserRepository.writable := false |} in
  TelbooruBot.handle_toggle_callback 42 "rating:safe" read_only
  = (Ok true, read_only)
  /\ TelbooruBot.process_autotag_addition 42 " cat " read_only
     = (Ok TelbooruBot.Added, read_only).
Proof.
  intros read_only.
  destruct (failed_write_is_announced read_only 42 "rating:safe" " cat " eq_refl)
    as (Htoggle & _ & Hadd).
  split; [exact Htoggle|].
  destruct Hadd as [Hannounced _]; [discriminate | | exact Hannounced].
  eapply bool_decide_unpack. by vm_compute.
Defined.

(** ** Comments and deleted images *)

Lemma wrapper_make_request_run (self : BooruAPIWrapper.t)
    (params : pydict pval) (net : Net) :
  BooruAPIWrapper.session self = true ->
  let params' :=
    dict_update params (BooruAPIWrapper._build_auth_params self) in
  let req :=
    Request "/index.php"
      (if dict_mem "json" params' then params'
       else dict_set "json" (PStr "1") params') in
  BooruAPIWrapper._make_request self "/index.php" params net
  = handed_on (fun e => Aiohttp e) req net.
Proof.
  intros Hopen params' req. unfold BooruAPIWrapper._make_request.
  rewrite Hopen. cbn [negb]. unfold session_get, handed_on. fold params' req.
  by destruct (upstream net (sent net) req).
Qed.

Ltac same_params :=
  split; [reflexivity|]; cbn [params];
  match goal with
  | |- forall key, dict_get key ?params1 = dict_get key ?params2 =>
      let params1' := eval vm_compute in params1 in
      let params2' := eval vm_compute in params2 in
      change (forall key, dict_get key params1' = dict_get key params2')
  end;
  intros key; cbn [dict_get];
  repeat (destruct (decide (key = _)) as [->|?]; [reflexivity|]);
  reflexivity.

(** X28. [get_comments] and [get_deleted_images] hand on what the API
    answers, unnormalised, and hand on its failures too: on an open
    session each sends one request, for JSON, with the post (or the last
    id, when one is given) and the credentials; the wrapper of src/main.py
    raises the transport error itself, where its [get_posts] never raises,
    and the repository raises the matching repository exception. With the
    same credentials the two clients ask for the same thing. *)
Theorem comments_and_deleted_images_handed_on (wrapper : BooruAPIWrapper.t)
    (repository : BooruRepository.t) (post_id : Z) (last_id : option Z) :
  BooruAPIWrapper.session wrapper = true ->
  BooruRepository.session repository = true ->
  BooruAPIWrapper.api_key wrapper = BooruRepository.api_key repository ->
  BooruAPIWrapper.user_id wrapper = BooruRepository.user_id repository ->
  exists comments comments' deleted deleted' : request,
    (forall net,
       BooruAPIWrapper.get_comments wrapper post_id net
       = handed_on (fun e => Aiohttp e) comments net
       /\ BooruRepository.get_comments repository post_id net
          = handed_on taxonomy comments' net
       /\ BooruAPIWrapper.get_deleted_images wrapper last_id net
          = handed_on (fun e => Aiohttp e) deleted net
       /\ BooruRepository.get_deleted_images repository last_id net
          = handed_on taxonomy deleted' net)
    /\ same_request comments comments'
    /\ same_request deleted deleted'
    /\ dict_get "s" (params comments) = Some (PStr "comment")
    /\ dict_get "post_id" (params comments) = Some (PInt post_id)
    /\ dict_get "json" (params comments) = Some (PStr "1")
    /\ dict_get "deleted" (params deleted) = Some (PStr "show")
    /\ dict_get "last_id" (params deleted) = PInt <$> last_id
    /\ dict_get "json" (params deleted) = Some (PStr "1")
    /\ dict_get "api_key" (params comments)
       = dict_get "api_key"
           (auth_query (BooruAPIWrapper.api_key wrapper)
              (BooruAPIWrapper.user_id wrapper)).
Proof.
  intros Hopen Hopen' Hkey Huid.
  assert (Hrepo : forall params net,
    try_except (BooruRepository._make_request repository "/index.php" params)
      BooruRepository.reraise net
    = handed_on taxonomy
        (Request "/index.php"
           (let params' :=
              dict_update params
                (BooruRepository._build_auth_params repository) in
            if dict_mem "json" params' then params'
            else dict_set "json" (PStr "1") params')) net).
  { intros params net. unfold try_except.
    rewrite repository_make_request_run by done. unfold handed_on.
    cbv zeta. by destruct (upstream net (sent net) _) as [body|[]]. }
  eexists _, _, _, _. split.
  { intros net.
    unfold BooruAPIWrapper.get_comments, BooruAPIWrapper.get_deleted_images,
      BooruRepository.get_comments, BooruRepository.get_deleted_images.
    rewrite !wrapper_make_request_run by done. rewrite !Hrepo.
    split; [reflexivity|]. split; [reflexivity|]. split; reflexivity. }
  unfold BooruRepository._build_auth_params,
    BooruAPIWrapper._build_auth_params, auth_query.
  rewrite <- Hkey, <- Huid.
  destruct (BooruAPIWrapper.api_key wrapper) as [k|],
    (BooruAPIWrapper.user_id wrapper) as [u|];
    try destruct (str_truthy k); try destruct (str_truthy u);
    destruct last_id as [i|]; cbn [andb];
    (split; [same_params|]); (split; [same_params|]);
    repeat (split; [reflexivity|]); reflexivity.
Qed.

Lemma comments_and_deleted_images_handed_on_witness :
  exists comments : request,
    (forall net,
       BooruAPIWrapper.get_comments anonymous_wrapper 7 net
       = handed_on (fun e => Aiohttp e) comments net)
    /\ dict_get "post_id" (params comments) = Some (PInt 7).
Proof.
  destruct (comments_and_deleted_images_handed_on anonymous_wrapper
              anonymous_repository 7 None eq_refl eq_refl eq_refl eq_refl)
    as (comments & comments' & deleted & deleted' & Hrun & _ & _ & _
        & Hpost & _).
  exists comments. split; [|exact Hpost].
  intros net. by destruct (Hrun net) as [Hcomments _].
Defined.
